(** * wit-room-scrape: timetable parsing and free-room aggregation

    A shallow embedding of [room_scrape.go]: the callbacks registered on the
    two colly collectors, the row-scanning parser that builds one
    [Timetable] per [div#divTT] container, and the fold of [main] that
    builds [freeRoomTable].

    The HTML document is seen through the selections the callbacks ask
    for: a [ForEach] is a loop over the list of matched elements, a
    [ChildText]/[ChildAttr] is the string it returns.  Go's run-time
    panics ([index out of range]) and [os.Exit] are outcomes of the
    monad, the logger and the variables captured by the closures are its
    state. *)

From Stdlib Require Import ZArith Lia Ascii String DecimalString.
From stdpp Require Import base tactics option list gmap strings fin_maps.

Local Open Scope string_scope.
Local Open Scope list_scope.
Local Open Scope stdpp_scope.
Local Open Scope Z_scope.

(** ** Go primitives *)

Module Go.

(** [int] is 64 bits wide on the platforms the program is built for. *)
Definition minInt : Z := - 2 ^ 63.
Definition maxInt : Z := 2 ^ 63 - 1.


(** Two's complement wrap-around of a mathematical integer. *)
Definition wrap (z : Z) : Z := (z + 2 ^ 63) mod 2 ^ 64 - 2 ^ 63.

(** [a + b] and [a++] on [int]. *)
Definition add (a b : Z) : Z := wrap (a + b).
Definition incr (a : Z) : Z := add a 1.

(** [strings.Split(s, sep)] for a one-byte separator: the substrings
    between the separators, one more than there are separators. *)
Fixpoint Split (s : string) (sep : ascii) : list string :=
  match s with
  | EmptyString => [EmptyString]
  | String c s' =>
      if Ascii.eqb c sep then EmptyString :: Split s' sep
      else match Split s' sep with
           | w :: ws => String c w :: ws
           | [] => [String c EmptyString]
           end
  end.

(** [slices.Contains(l, x)]. *)
Fixpoint Contains (l : list string) (x : string) : bool :=
  match l with
  | [] => false
  | y :: l' => if String.eqb y x then true else Contains l' x
  end.

(** [strconv.Atoi]: an optional sign, then one or more decimal digits.
    The digits are read from the left into an unsigned 64-bit number: a
    byte that is no digit is a syntax error, a number that outgrows 64
    bits is a range error, whichever comes first; a value outside [int]
    is a range error. *)
Inductive NumError := ErrSyntax | ErrRange.

Definition maxUint64 : Z := 2 ^ 64 - 1.

Definition digit (c : ascii) : option Z :=
  let n := Z.of_N (N_of_ascii c) in
  if (48 <=? n) && (n <=? 57) then Some (n - 48) else None.

Fixpoint digits (s : string) (acc : Z) : Z + NumError :=
  match s with
  | EmptyString => inl acc
  | String c s' =>
      match digit c with
      | Some d =>
          if acc * 10 + d <=? maxUint64 then digits s' (acc * 10 + d)
          else inr ErrRange
      | None => inr ErrSyntax
      end
  end.

Definition Atoi (s : string) : Z + NumError :=
  let '(neg, body) :=
    match s with
    | String "-"%char s' => (true, s')
    | String "+"%char s' => (false, s')
    | _ => (false, s)
    end in
  match body with
  | EmptyString => inr ErrSyntax
  | _ =>
      match digits body 0 with
      | inr e => inr e
      | inl n =>
          let v := if neg then - n else n in
          if (minInt <=? v) && (v <=? maxInt) then inl v else inr ErrRange
      end
  end.

(** [strconv.Itoa]: the decimal rendering, with a leading minus sign
    for a negative number. *)
Definition Itoa (z : Z) : string := NilZero.string_of_int (Z.to_int z).

(** A [strings.Reader] over an encoded form, as the program uses one: it
    is made over the form and read by [io.ReadAll] only, so it is unread
    or at its end.  The encoded string is stood for by the form it
    encodes ([url.ParseQuery] gives back what [Values.Encode] wrote). *)
Record Reader := {
  content : gmap string (list string);
  atEnd : bool
}.

(** [strings.NewReader(q.Encode())]. *)
Definition NewReader (q : gmap string (list string)) : Reader :=
  {| content := q; atEnd := false |}.

(** [io.ReadAll(r)]: what was left to read, and the reader at its end. *)
Definition ReadAll (r : Reader) : gmap string (list string) * Reader :=
  (if atEnd r then ∅ else content r, {| content := content r; atEnd := true |}).

End Go.

(** ** Outcomes, the program state and its monad *)

(** A callback returns, or the program stops: Go panics with
    [index out of range [i] with length len], or [os.Exit(code)] ends the
    process. *)
Inductive outcome (A : Type) : Type :=
| Ok (a : A)
| IndexOutOfRange (i : Z) (len : nat)
| Exit (code : Z).
Arguments Ok {A} a.
Arguments IndexOutOfRange {A} i len.
Arguments Exit {A} code.

Inductive Level := LevelDebug | LevelInfo | LevelError.

(** The errors the program logs with [err.Error()]. *)
Inductive GoError :=
| AtoiError (s : string) (e : Go.NumError)
| RequestError (description : string).

Inductive LogMsg :=
| Text (s : string)
| ErrorOf (e : GoError).

(** One [slog] call: its level and its message.  The attributes of a
    call ([slog.String("dayName", dayName)] and the like) are not
    recorded: the log tells which records were written and in what
    order, not what their attributes were. *)
Record LogEntry := { level : Level; msg : LogMsg }.

Record Timetable := {
  Error : bool;
  Empty : bool;
  Date : string;
  Room : string;
  Week : string;
  FreeTimes : gmap string (list string)
}.

(** The variables of [main] that its closures share: the default logger,
    [timetableList] and [roomPostQueryParams] (a [url.Values]); and two
    traces of what the program asked of colly.  [requests] holds the form
    of every call of [roomCollector.Request], oldest first.  [handed]
    holds, for every request that colly passed on to its HTTP client, the
    body reader as it was at that moment.  What the client then puts on
    the wire is the business of [net/http] and is not part of the
    state. *)
Record World := {
  log : list LogEntry;
  timetableList : list Timetable;
  roomPostQueryParams : gmap string (list string);
  requests : list (gmap string (list string));
  handed : list Go.Reader
}.

Definition setLog (l : list LogEntry) (w : World) : World :=
  {| log := l; timetableList := timetableList w;
     roomPostQueryParams := roomPostQueryParams w; requests := requests w;
     handed := handed w |}.

Definition setTimetableList (ts : list Timetable) (w : World) : World :=
  {| log := log w; timetableList := ts;
     roomPostQueryParams := roomPostQueryParams w; requests := requests w;
     handed := handed w |}.

Definition setParams (q : gmap string (list string)) (w : World) : World :=
  {| log := log w; timetableList := timetableList w;
     roomPostQueryParams := q; requests := requests w; handed := handed w |}.

Definition setRequests (rs : list (gmap string (list string))) (w : World) : World :=
  {| log := log w; timetableList := timetableList w;
     roomPostQueryParams := roomPostQueryParams w; requests := rs;
     handed := handed w |}.

Definition setHanded (rs : list Go.Reader) (w : World) : World :=
  {| log := log w; timetableList := timetableList w;
     roomPostQueryParams := roomPostQueryParams w; requests := requests w;
     handed := rs |}.

Definition M (A : Type) : Type := World -> World * outcome A.

Definition ret {A} (a : A) : M A := fun w => (w, Ok a).

Definition bind {A B} (m : M A) (f : A -> M B) : M B :=
  fun w =>
    match m w with
    | (w', Ok a) => f a w'
    | (w', IndexOutOfRange i len) => (w', IndexOutOfRange i len)
    | (w', Exit code) => (w', Exit code)
    end.

#[global] Instance M_ret : MRet M := @ret.
#[global] Instance M_bind : MBind M := fun A B f m => bind m f.

(** The final state and the outcome of a computation. *)
Definition exec {A} (m : M A) (w : World) : World := fst (m w).
Definition eval {A} (m : M A) (w : World) : outcome A := snd (m w).

Definition osExit {A} (code : Z) : M A := fun w => (w, Exit code).

Definition slog (l : Level) (m : LogMsg) : M unit :=
  fun w => (setLog (log w ++ [{| level := l; msg := m |}]) w, Ok tt).

(** [l[i]]: a run-time panic outside [0 <= i < len(l)]. *)
Definition index {A} (l : list A) (i : Z) : M A :=
  fun w =>
    if i <? 0 then (w, IndexOutOfRange i (length l))
    else match l !! Z.to_nat i with
         | Some x => (w, Ok x)
         | None => (w, IndexOutOfRange i (length l))
         end.

(** [ForEach]: the callback runs on the matched elements in document
    order, threading the variables it captured. *)
Fixpoint forEach {A B} (f : B -> A -> M A) (l : list B) (a : A) : M A :=
  match l with
  | [] => mret a
  | x :: l' => a' ← f x a; forEach f l' a'
  end.

(** ** [url.Values] *)

Definition Values_Add (k v : string) (q : gmap string (list string))
  : gmap string (list string) :=
  <[k := default [] (q !! k) ++ [v]]> q.

Definition Values_Set (k v : string) (q : gmap string (list string))
  : gmap string (list string) :=
  <[k := [v]]> q.

Definition Values_Get (k : string) (q : gmap string (list string)) : string :=
  match q !! k with
  | Some (v :: _) => v
  | _ => ""
  end.

Definition paramsAdd (k v : string) : M unit :=
  fun w => (setParams (Values_Add k v (roomPostQueryParams w)) w, Ok tt).

Definition paramsSet (k v : string) : M unit :=
  fun w => (setParams (Values_Set k v (roomPostQueryParams w)) w, Ok tt).

Definition getParams : M (gmap string (list string)) :=
  fun w => (w, Ok (roomPostQueryParams w)).

Definition getTimetableList : M (list Timetable) :=
  fun w => (w, Ok (timetableList w)).

Definition appendTimetable (t : Timetable) : M unit :=
  fun w => (setTimetableList (timetableList w ++ [t]) w, Ok tt).

(** [roomCollector.Request] is called with a reader over [form]: the
    call is noted, and its number among the calls is returned. *)
Definition noteRequest (form : gmap string (list string)) : M nat :=
  fun w => (setRequests (requests w ++ [form]) w, Ok (length (requests w))).

(** Colly passes the request on to its HTTP client, whose body it will
    read from [body]. *)
Definition handToClient (body : Go.Reader) : M unit :=
  fun w => (setHanded (handed w ++ [body]) w, Ok tt).

(** ** The timetable parser ([roomCollector.OnHTML("div#divTT", ...)]) *)

Definition days : list string :=
  ["Monday"; "Tuesday"; "Wednesday"; "Thursday"; "Friday"].

(** What the header callback reads off a [table:nth-child(1)]: the
    [ChildText] of the date, room and week cells. *)
Record HeaderElement := {
  headerDate : string;
  headerRoom : string;
  headerWeek : string
}.

(** What the row callback reads off a [tr:not(:first-child)]: the
    [ChildText] of the day label, of the fifth cell and of the first. *)
Record RowElement := {
  rowDayName : string;
  rowSubject : string;
  rowTime : string
}.

(** A [div#divTT]: the header tables and the timetable tables matched in
    it, each timetable table as its rows after the first. *)
Record Container := {
  headerElements : list HeaderElement;
  timetableElements : list (list RowElement)
}.

Definition setError (t : Timetable) : Timetable :=
  {| Error := true; Empty := Empty t; Date := Date t; Room := Room t;
     Week := Week t; FreeTimes := FreeTimes t |}.

Definition clearEmpty (t : Timetable) : Timetable :=
  {| Error := Error t; Empty := false; Date := Date t; Room := Room t;
     Week := Week t; FreeTimes := FreeTimes t |}.

Definition setDate (v : string) (t : Timetable) : Timetable :=
  {| Error := Error t; Empty := Empty t; Date := v; Room := Room t;
     Week := Week t; FreeTimes := FreeTimes t |}.

Definition setRoom (v : string) (t : Timetable) : Timetable :=
  {| Error := Error t; Empty := Empty t; Date := Date t; Room := v;
     Week := Week t; FreeTimes := FreeTimes t |}.

Definition setWeek (v : string) (t : Timetable) : Timetable :=
  {| Error := Error t; Empty := Empty t; Date := Date t; Room := Room t;
     Week := v; FreeTimes := FreeTimes t |}.

(** [t.FreeTimes[day] = append(t.FreeTimes[day], time)]; a missing key
    reads as the nil slice. *)
Definition appendFreeTime (day time : string) (t : Timetable) : Timetable :=
  {| Error := Error t; Empty := Empty t; Date := Date t; Room := Room t;
     Week := Week t;
     FreeTimes := <[day := default [] (FreeTimes t !! day) ++ [time]]> (FreeTimes t) |}.

Definition newTimetable : Timetable :=
  {| Error := false; Empty := true; Date := ""; Room := ""; Week := "";
     FreeTimes := ∅ |}.

Definition headerCallback (h : HeaderElement) (timetable : Timetable) : M Timetable :=
  slog LevelDebug (Text "Found header");;
  let date := headerDate h in
  timetable ←
    (if negb (String.eqb date "") then
       let splitDate := Go.Split date " " in
       v ← index splitDate 1; mret (setDate v timetable)
     else
       slog LevelError (Text "Header date is empty");;
       mret (setError timetable));
  let room := headerRoom h in
  timetable ←
    (if negb (String.eqb room "") then
       let splitRoom := Go.Split room " " in
       v ← index splitRoom 2; mret (setRoom v timetable)
     else
       slog LevelError (Text "Header room is empty");;
       mret (setError timetable));
  let week := headerWeek h in
  if negb (String.eqb week "") then
    let splitWeek := Go.Split week " " in
    v ← index splitWeek 2; mret (setWeek v timetable)
  else
    slog LevelError (Text "Header week is empty");;
    mret (setError timetable).

(** The row callback; its state is the timetable under construction and
    [currentDay]. *)
Definition rowCallback (r : RowElement) (st : Timetable * Z) : M (Timetable * Z) :=
  let timetable := st.1 in
  let currentDay := st.2 in
  slog LevelDebug (Text "Found row");;
  let dayName := rowDayName r in
  if Go.Contains days dayName then
    slog LevelDebug (Text "(Skip) Row contains day");;
    mret (timetable, Go.incr currentDay)
  else
    let subject := rowSubject r in
    if negb (String.eqb subject "") then
      slog LevelDebug (Text "(Skip) Row contains subject");;
      mret (clearEmpty timetable, currentDay)
    else
      let time := rowTime r in
      if currentDay =? -1 then
        slog LevelError (Text "'currentDay' switch got '-1'");;
        mret (setError timetable, currentDay)
      else
        day ← index days currentDay;
        mret (appendFreeTime day time timetable, currentDay).

Definition timetableCallback (rows : list RowElement) (timetable : Timetable)
  : M Timetable :=
  slog LevelInfo (Text "Found timetable, parsing...");;
  let currentDay := -1 in
  st ← forEach rowCallback rows (timetable, currentDay);
  mret st.1.

(** The body of the container callback up to the final [append]. *)
Definition parseContainer (c : Container) : M Timetable :=
  slog LevelDebug (Text "Found table container");;
  let timetable := newTimetable in
  timetable ← forEach headerCallback (headerElements c) timetable;
  forEach timetableCallback (timetableElements c) timetable.

Definition containerCallback (c : Container) : M unit :=
  timetable ← parseContainer c;
  appendTimetable timetable.

(** ** The session bootstrap and the room requests *)

(** What the [body] callback reads off the landing page: the [name] and
    [value] of every hidden input, the [value] of the selected
    [CboWeeks] option and the [value] of every [CboLocation] option. *)
Record BodyElement := {
  hiddenInputs : list (string * string);
  selectedWeek : string;
  roomOptions : list string
}.

(** What becomes of a call of [roomCollector.Request], as colly, its
    HTTP client and the server decide between them: colly refuses the
    request and returns an error without running a callback; the
    [OnRequest] callback runs and the client then fails (a time-out, a
    transport error, an error status, or a failure in the client before
    anything is sent), [OnError] runs and the error is returned; or the
    [OnRequest] callback runs, a page arrives and [OnHTML] runs on each
    [div#divTT] in it. *)
Inductive RoomResponse :=
| Refused (e : GoError)
| Failed (e : GoError)
| Rendered (containers : list Container).

Inductive LandingResponse :=
| LandingFailed (e : GoError)
| LandingPage (bodies : list BodyElement).

(** [roomPostQueryParams] after the ten [Add] calls that precede the
    callbacks. *)
Definition initialParams : gmap string (list string) :=
  Values_Add "BtnRetrieve" "Generate Timetable"
    (Values_Add "CboEndTime" "9"
       (Values_Add "CboStartTime" "1"
          (Values_Add "CboDept" "%"
             (Values_Add "cboSchool" "%"
                (Values_Add "hStudentcount" ""
                   (Values_Add "hProgram" ""
                      (Values_Add "__LASTFOCUS" ""
                         (Values_Add "__EVENTARGUMENT" ""
                            (Values_Add "__EVENTTARGET" "" ∅))))))))).

Definition initialWorld : World :=
  {| log := []; timetableList := []; roomPostQueryParams := initialParams;
     requests := []; handed := [] |}.

(** [roomCollector.OnRequest]: the callback reads [r.Body] to its end
    and parses what it read, to log the room of the form (an attribute
    of the record).  [r.Body] is the reader the HTTP client is to read
    the body from afterwards; the callback leaves it at its end. *)
Definition roomOnRequest (body : Go.Reader) : M Go.Reader :=
  let '(data, body) := Go.ReadAll body in
  let queryValues := data in
  slog LevelInfo (Text "Requesting room");;
  mret body.

(** [roomCollector.OnError] of [room_scrape.go]. *)
Definition roomOnError (e : GoError) : M unit :=
  slog LevelError (ErrorOf e);;
  slog LevelError (Text "Requesting room failed").

(** [roomCollector.OnError] of the revision of the file that carries the
    licence header: the same two records, then [os.Exit(1)]. *)
Definition roomOnErrorExit (e : GoError) : M unit :=
  slog LevelError (ErrorOf e);;
  slog LevelError (Text "Requesting room failed");;
  osExit 1.

Definition initOnRequest : M unit :=
  slog LevelInfo (Text "Getting required metadata").

Definition initOnError (e : GoError) : M unit :=
  slog LevelError (ErrorOf e);;
  slog LevelError (Text "Getting required metadata failed").

Definition initOnErrorExit (e : GoError) : M unit :=
  slog LevelError (ErrorOf e);;
  slog LevelError (Text "Getting required metadata failed");;
  osExit 1.

Definition hiddenInputCallback (inp : string * string) (_ : unit) : M unit :=
  let name := inp.1 in
  let value := inp.2 in
  if String.eqb name "__VIEWSTATE" then paramsAdd "__VIEWSTATE" value
  else if String.eqb name "__VIEWSTATEGENERATOR" then
    paramsAdd "__VIEWSTATEGENERATOR" value
  else if String.eqb name "__EVENTVALIDATION" then
    paramsAdd "__EVENTVALIDATION" value
  else mret tt.

(** Lines 138-146 of the [body] callback, the week code put into the
    form: [week] itself when [Atoi] fails, else
    [Itoa(weekInt + weekOffset)]. *)
Definition addCboWeeks (weekOffset : Z) (week : string) : M unit :=
  match Go.Atoi week with
  | inr e =>
      slog LevelError (ErrorOf (AtoiError week e));;
      slog LevelError (Text "Failed to convert week string to int");;
      paramsAdd "CboWeeks" week
  | inl weekInt =>
      paramsAdd "CboWeeks" (Go.Itoa (Go.add weekInt weekOffset))
  end.

(** The constants [main] sets before it registers the callbacks. *)
Module Main.

(** [weekOffset := 0]. *)
Definition weekOffset : Z := 0.

End Main.

Section Scrape.

(** [weekOffset] and [roomRegexp.MatchString] are fixed at the top of
    [main]; the error callbacks are the ones registered on the
    collectors.  [landing] is what becomes of the one [Visit], and
    [network n form] what becomes of the call number [n] (from 0) of
    [roomCollector.Request], made with [form]: they stand for colly,
    [net/http] and the server together, which are no code of the
    program, and a property holds of the program when it holds for
    every [landing] and [network]. *)
Variable weekOffset : Z.
Variable roomRegexp : string -> bool.
Variable landing : LandingResponse.
Variable network : nat -> gmap string (list string) -> RoomResponse.
Variable onInitError : GoError -> M unit.
Variable onRoomError : GoError -> M unit.

(** [roomCollector.Request("POST", roomTimetableUrl,
    strings.NewReader(form.Encode()), nil, header)] with the callbacks
    it fires; the result is the error it returns.  The [OnRequest]
    callback runs before the request is passed on to the HTTP client,
    on the reader the client will read. *)
Definition roomRequest (form : gmap string (list string)) : M (option GoError) :=
  let body := Go.NewReader form in
  n ← noteRequest form;
  match network n form with
  | Refused e => mret (Some e)
  | Failed e =>
      body ← roomOnRequest body;
      handToClient body;;
      onRoomError e;;
      mret (Some e)
  | Rendered containers =>
      body ← roomOnRequest body;
      handToClient body;;
      forEach (fun c _ => containerCallback c) containers tt;;
      mret None
  end.

Definition roomOptionCallback (roomName : string) (_ : unit) : M unit :=
  if roomRegexp roomName then
    slog LevelDebug (Text "Room found");;
    paramsSet "CboLocation" roomName;;
    body ← getParams;
    err ← roomRequest body;
    match err with
    | Some e =>
        slog LevelError (ErrorOf e);;
        slog LevelError (Text "Room POST request failed")
    | None => mret tt
    end
  else mret tt.

Definition bodyCallback (b : BodyElement) (_ : unit) : M unit :=
  forEach hiddenInputCallback (hiddenInputs b) tt;;
  addCboWeeks weekOffset (selectedWeek b);;
  forEach roomOptionCallback (roomOptions b) tt.

(** [initCollector.Visit(roomTimetableUrl)]. *)
Definition initVisit : M unit :=
  initOnRequest;;
  match landing with
  | LandingFailed e => onInitError e
  | LandingPage bodies => forEach bodyCallback bodies tt
  end.

End Scrape.

(** ** The aggregation loop of [main] *)

Record Summary := {
  errorCount : Z;
  emptyTimetableCount : Z;
  freeTimesCount : Z;
  timetableCount : Z;
  freeRoomTable : gmap string (gmap string (list string))
}.

Definition newSummary : Summary :=
  {| errorCount := 0; emptyTimetableCount := 0; freeTimesCount := 0;
     timetableCount := 0; freeRoomTable := ∅ |}.

(** The two statements that touch [freeRoomTable]: the day's map is made
    when it is nil, then the room is appended to the bucket. *)
Definition insertRoom (room day time : string)
    (tbl : gmap string (gmap string (list string)))
  : gmap string (gmap string (list string)) :=
  let tbl := match tbl !! day with
             | None => <[day := ∅]> tbl
             | Some _ => tbl
             end in
  let dayMap := default ∅ (tbl !! day) in
  <[day := <[time := default [] (dayMap !! time) ++ [room]]> dayMap]> tbl.

(** The body of the innermost loop. *)
Definition addFreeRoom (room day : string) (s : Summary) (time : string) : Summary :=
  {| errorCount := errorCount s;
     emptyTimetableCount := emptyTimetableCount s;
     freeTimesCount := Go.incr (freeTimesCount s);
     timetableCount := timetableCount s;
     freeRoomTable := insertRoom room day time (freeRoomTable s) |}.

Definition addDay (timetable : Timetable) (s : Summary) (day : string) : Summary :=
  foldl (addFreeRoom (Room timetable) day) s
    (default [] (FreeTimes timetable !! day)).

Definition incrTimetableCount (s : Summary) : Summary :=
  {| errorCount := errorCount s;
     emptyTimetableCount := emptyTimetableCount s;
     freeTimesCount := freeTimesCount s;
     timetableCount := Go.incr (timetableCount s);
     freeRoomTable := freeRoomTable s |}.

Definition incrErrorCount (s : Summary) : Summary :=
  {| errorCount := Go.incr (errorCount s);
     emptyTimetableCount := emptyTimetableCount s;
     freeTimesCount := freeTimesCount s;
     timetableCount := timetableCount s;
     freeRoomTable := freeRoomTable s |}.

Definition incrEmptyTimetableCount (s : Summary) : Summary :=
  {| errorCount := errorCount s;
     emptyTimetableCount := Go.incr (emptyTimetableCount s);
     freeTimesCount := freeTimesCount s;
     timetableCount := timetableCount s;
     freeRoomTable := freeRoomTable s |}.

(** The body of [for _, timetable := range timetableList]. *)
Definition aggregateStep (timetable : Timetable) (s : Summary) : M Summary :=
  let s := incrTimetableCount s in
  let s := if Error timetable then incrErrorCount s else s in
  s ← (if Empty timetable then
         slog LevelDebug (Text "Found empty timetable");;
         mret (incrEmptyTimetableCount s)
       else mret s);
  mret (foldl (addDay timetable) s days).

Definition aggregate (ts : list Timetable) : M Summary :=
  forEach aggregateStep ts newSummary.

(** [main] from the first request to the summary, before the output
    is written. *)
Definition scrape (weekOffset : Z) (roomRegexp : string -> bool)
    (landing : LandingResponse)
    (network : nat -> gmap string (list string) -> RoomResponse)
    (onInitError onRoomError : GoError -> M unit) : M Summary :=
  initVisit weekOffset roomRegexp landing network onInitError onRoomError;;
  ts ← getTimetableList;
  aggregate ts.

(** ** The helpers of [main] and the ASCII grid *)

Module GoStrings.

(** [strings.Join(elems, sep)]. *)
Fixpoint Join (elems : list string) (sep : string) : string :=
  match elems with
  | [] => ""
  | [x] => x
  | x :: rest => x +:+ sep +:+ Join rest sep
  end.

(** [strings.Replace(s, old, new, -1)] for one-byte [old] and [new]:
    every occurrence is replaced. *)
Fixpoint ReplaceByte (s : string) (old new : ascii) : string :=
  match s with
  | EmptyString => EmptyString
  | String c s' =>
      String (if Ascii.eqb c old then new else c) (ReplaceByte s' old new)
  end.

End GoStrings.

(** [getTimeStamp], from the RFC 3339 rendering [ts] of the current time
    on. *)
Definition getTimeStamp (ts : string) : string :=
  GoStrings.ReplaceByte (GoStrings.ReplaceByte ts ":" "_") "-" "_".

(** [SliceIndex]: the loop [for i := 0; i < limit; i++] makes at most
    [limit] rounds. *)
Fixpoint SliceIndex_from (rounds : nat) (i : Z) (predicate : Z -> bool) : Z :=
  match rounds with
  | O => -1
  | S rounds' =>
      if predicate i then i
      else SliceIndex_from rounds' (Go.incr i) predicate
  end.

Definition SliceIndex (limit : Z) (predicate : Z -> bool) : Z :=
  SliceIndex_from (Z.to_nat limit) 0 predicate.

Definition times : list string :=
  ["09:15"; "10:15"; "11:15"; "12:15"; "13:15"; "14:15"; "15:15"; "16:15"; "17:15"].

(** [asciiTableData] after the loop over [times]. *)
Definition asciiTableInit : list (list string) :=
  (fun time => [time; ""; ""; ""; ""; ""]) <$> times.

(** The closure handed to [SliceIndex]; it is only called below
    [len(times)]. *)
Definition timeIs (freeTime : string) (i : Z) : bool :=
  match times !! Z.to_nat i with
  | Some time => String.eqb time freeTime
  | None => false
  end.

(** The body of [for freeTime, rooms := range freeRoomTable[day]]. *)
Definition asciiCell (dayIdx : nat) (entry : string * list string)
    (asciiTableData : list (list string)) : M (list (list string)) :=
  let freeTime := entry.1 in
  let rooms := entry.2 in
  let indexOfTime := SliceIndex (Z.of_nat (length times)) (timeIs freeTime) in
  tableRow ← index asciiTableData indexOfTime;
  cell ← index tableRow (1 + Z.of_nat dayIdx);
  let cell' :=
    if String.eqb cell "" then cell +:+ GoStrings.Join rooms ", "
    else cell +:+ (", " +:+ GoStrings.Join rooms ", ") in
  mret (<[Z.to_nat indexOfTime := <[S dayIdx := cell']> tableRow]> asciiTableData).

Section AsciiTable.

(** Go ranges over a map in an order of its own choosing: the entries of
    the map, in some order. *)
Variable rangeMap : gmap string (list string) -> list (string * list string).

Definition asciiDay (tbl : gmap string (gmap string (list string)))
    (indexedDay : nat * string) (asciiTableData : list (list string))
  : M (list (list string)) :=
  forEach (asciiCell indexedDay.1) (rangeMap (default ∅ (tbl !! indexedDay.2)))
    asciiTableData.

(** [asciiTableData] as it is handed to the table writer. *)
Definition asciiRows (tbl : gmap string (gmap string (list string)))
  : M (list (list string)) :=
  slog LevelInfo (Text "Attempting to create rows of ASCII table");;
  forEach (asciiDay tbl) (imap pair days) asciiTableInit.

End AsciiTable.

(** ** Vocabulary of the properties *)

(** *** Grid rows *)

(** The three kinds of grid row, as the row callback tells them apart. *)
Definition isDayMarker (r : RowElement) : bool :=
  Go.Contains days (rowDayName r).

Definition isSubject (r : RowElement) : bool :=
  negb (isDayMarker r) && negb (String.eqb (rowSubject r) "").

Definition isFree (r : RowElement) : bool :=
  negb (isDayMarker r) && String.eqb (rowSubject r) "".

Fixpoint dayMarkers (rows : list RowElement) : nat :=
  match rows with
  | [] => 0
  | r :: rows' => (if isDayMarker r then 1 else 0) + dayMarkers rows'
  end%nat.

Fixpoint freeRows (rows : list RowElement) : nat :=
  match rows with
  | [] => 0
  | r :: rows' => (if isFree r then 1 else 0) + freeRows rows'
  end%nat.

(** The free rows of a grid that come after its first day-marker row. *)
Fixpoint freeRowsAfterMarker (rows : list RowElement) : nat :=
  match rows with
  | [] => 0%nat
  | r :: rows' => if isDayMarker r then freeRows rows' else freeRowsAfterMarker rows'
  end.

(** A free row stands in the grid before any day-marker row. *)
Fixpoint freeBeforeMarker (rows : list RowElement) : bool :=
  match rows with
  | [] => false
  | r :: rows' =>
      if isDayMarker r then false
      else if isFree r then true
      else freeBeforeMarker rows'
  end.

(** The number of entries of a [FreeTimes] mapping, all keys together. *)
Definition slotCount (m : gmap string (list string)) : nat :=
  map_fold (fun _ l n => (length l + n)%nat) 0%nat m.

(** What no row changes, and what a row can only change one way. *)
Definition rowStable (t0 : Timetable) (st : Timetable * Z) : Prop :=
  Date st.1 = Date t0 /\ Room st.1 = Room t0 /\ Week st.1 = Week t0 /\
  (Error t0 = true -> Error st.1 = true) /\
  (Empty t0 = false -> Empty st.1 = false) /\
  (forall k, is_Some (FreeTimes st.1 !! k) ->
             is_Some (FreeTimes t0 !! k) \/ k ∈ days).


(** *** Header cells *)

(** A header cell is usable when it is empty (the callback then only
    flags the error) or splits into more tokens than the index read. *)
Definition cellOk (cell : string) (idx : nat) : bool :=
  String.eqb cell "" || (idx <? length (Go.Split cell " "))%nat.

Definition headerOk (h : HeaderElement) : bool :=
  cellOk (headerDate h) 1 && cellOk (headerRoom h) 2 && cellOk (headerWeek h) 2.

Definition hasEmptyCell (h : HeaderElement) : bool :=
  String.eqb (headerDate h) "" || String.eqb (headerRoom h) ""
  || String.eqb (headerWeek h) "".

(** The token a header cell contributes: none when the cell is empty. *)
Definition cellToken (cell : string) (idx : nat) (old : string) : string :=
  if String.eqb cell "" then old
  else default old (Go.Split cell " " !! idx).

(** The fields a loop over the header tables leaves behind. *)
Definition headerTokens (cell : HeaderElement -> string) (idx : nat)
    (hs : list HeaderElement) (old : string) : string :=
  foldl (fun v h => cellToken (cell h) idx v) old hs.

(** *** The program state *)

(** A computation that only writes log records: the records and the
    outcome are the same whatever the state it starts in. *)
Definition logsOnly {A} (m : M A) : Prop :=
  exists (l : list LogEntry) (r : outcome A),
    forall w, m w = (setLog (log w ++ l) w, r).

(** A callback that leaves the form parameters and the requests made
    as they are. *)
Definition keepsForm {A} (m : M A) : Prop :=
  forall w,
    roomPostQueryParams (exec m w) = roomPostQueryParams w /\
    requests (exec m w) = requests w.




(** *** The aggregate table *)

(** [freeRoomTable[day][time]], nil when a key is missing. *)
Definition bucket (tbl : gmap string (gmap string (list string)))
    (day time : string) : list string :=
  default [] (default ∅ (tbl !! day) !! time).

(** Bucket-wise concatenation of two tables. *)
Definition mergeTables (a b : gmap string (gmap string (list string)))
  : gmap string (gmap string (list string)) :=
  union_with
    (fun m1 m2 => Some (union_with (fun l1 l2 => Some (l1 ++ l2)) m1 m2)) a b.

(** What one record contributes to the bucket of [day] and [time]: its
    room, once for every occurrence of [time] in its list for [day]. *)
Definition roomsAt (day time : string) (t : Timetable) : list string :=
  if Go.Contains days day then
    replicate
      (length (List.filter (String.eqb time) (default [] (FreeTimes t !! day))))
      (Room t)
  else [].

(** The table the aggregation loop builds, without its counters. *)
Definition tableStep (tbl : gmap string (gmap string (list string)))
    (t : Timetable) : gmap string (gmap string (list string)) :=
  foldl (fun tbl day =>
           foldl (fun tbl time => insertRoom (Room t) day time tbl) tbl
             (default [] (FreeTimes t !! day)))
    tbl days.

Definition tableOf (ts : list Timetable) : gmap string (gmap string (list string)) :=
  foldl tableStep ∅ ts.

(** ** Sample documents *)

Definition row (dayName subject time : string) : RowElement :=
  {| rowDayName := dayName; rowSubject := subject; rowTime := time |}.

Definition sampleHeader : HeaderElement :=
  {| headerDate := "Date: 12/02/2024";
     headerRoom := "Room : IT101";
     headerWeek := "Week : 23" |}.

Definition it102Header : HeaderElement :=
  {| headerDate := "Date: 12/02/2024";
     headerRoom := "Room : IT102";
     headerWeek := "Week : 23" |}.

(** The header of a page whose date cell renders empty. *)
Definition undatedHeader : HeaderElement :=
  {| headerDate := "";
     headerRoom := "Room : IT101";
     headerWeek := "Week : 23" |}.

(** The header of a page whose room cell renders empty. *)
Definition roomlessHeader : HeaderElement :=
  {| headerDate := "Date: 12/02/2024";
     headerRoom := "";
     headerWeek := "Week : 23" |}.

(** A date cell of a single token. *)
Definition shortDateHeader : HeaderElement :=
  {| headerDate := "12/02/2024";
     headerRoom := "Room : IT101";
     headerWeek := "Week : 23" |}.

(** One day: free at 09:15, a class at 10:15, free at 11:15. *)
Definition mondayGrid : list RowElement :=
  [row "Monday" "" ""; row "" "" "09:15"; row "" "Maths" "10:15";
   row "" "" "11:15"].

(** A free row stands before the first day marker. *)
Definition freeFirstGrid : list RowElement :=
  [row "" "" "09:15"; row "Monday" "" ""; row "" "" "10:15"].

(** A class row stands before the first day marker. *)
Definition subjectFirstGrid : list RowElement :=
  [row "" "Maths" "09:15"; row "Monday" "" ""; row "" "" "10:15"].

(** Six day markers, then a free row. *)
Definition sixDayGrid : list RowElement :=
  [row "Monday" "" ""; row "Tuesday" "" ""; row "Wednesday" "" "";
   row "Thursday" "" ""; row "Friday" "" ""; row "Monday" "" "";
   row "" "" "09:15"].

(** The same time twice under one day. *)
Definition repeatedTimeGrid : list RowElement :=
  [row "Monday" "" ""; row "" "" "09:15"; row "" "" "09:15"].

Definition container (h : HeaderElement) (rows : list RowElement) : Container :=
  {| headerElements := [h]; timetableElements := [rows] |}.

(** The record of a room that is free at one time of one day. *)
Definition freeAt (room day time : string) : Timetable :=
  {| Error := false; Empty := true; Date := ""; Room := room; Week := "";
     FreeTimes := {[ day := [time] ]} |}.

(** [^IT101$] and [^IT1[0-9]{2}$], the patterns of the two revisions. *)
Definition matchIT101 (roomName : string) : bool := String.eqb roomName "IT101".

Definition isDigit (c : ascii) : bool :=
  match Go.digit c with Some _ => true | None => false end.

Definition matchIT1xx (roomName : string) : bool :=
  match roomName with
  | String "I" (String "T" (String "1" (String a (String b EmptyString)))) =>
      isDigit a && isDigit b
  | _ => false
  end.

(** A landing page with two rooms, and a run in which the request for
    the first fails in the HTTP client and the request for the second is
    answered with a page. *)
Definition sampleLanding : LandingResponse :=
  LandingPage
    [{| hiddenInputs := [("__VIEWSTATE", "dDwt"); ("__EVENTVALIDATION", "dDw1")];
        selectedWeek := "34";
        roomOptions := ["%"; "IT101"; "IT102"] |}].

Definition sampleNetwork (n : nat) (body : gmap string (list string)) : RoomResponse :=
  if String.eqb (Values_Get "CboLocation" body) "IT101"
  then Failed (RequestError "context deadline exceeded")
  else Rendered [container it102Header mondayGrid].

(** ** Proof tools *)

Arguments cellOk : simpl never.
Arguments headerOk : simpl never.

Arguments Go.Contains : simpl never.

Ltac run_callback :=
  unfold eval, exec, mbind, M_bind, mret, M_ret, bind, ret, slog, index; cbn.

(** ** Vocabulary of the further properties *)

(** The time cells of the free rows scanned while the cursor is [k],
    when the scan starts with the cursor at [c]. *)
Fixpoint slotsAt (k c : Z) (rows : list RowElement) : list string :=
  match rows with
  | [] => []
  | r :: rows' =>
      if isDayMarker r then slotsAt k (c + 1) rows'
      else if isFree r then
        (if c =? k then [rowTime r] else []) ++ slotsAt k c rows'
      else slotsAt k c rows'
  end.

(** Two rows that differ at most in the weekday a day marker names. *)
Definition sameShape (r r' : RowElement) : Prop :=
  isDayMarker r = isDayMarker r' /\
  rowSubject r = rowSubject r' /\
  rowTime r = rowTime r'.

(** The entries a record lists under the five weekdays. *)
Definition weekdaySlots (t : Timetable) : nat :=
  sum_list ((fun day => length (default [] (FreeTimes t !! day))) <$> days).

(** The number of room entries of a table, all buckets together. *)
Definition tableSize (tbl : gmap string (gmap string (list string))) : nat :=
  map_fold (fun _ m n => (slotCount m + n)%nat) 0%nat tbl.

(** A table without an empty day map and without an empty bucket. *)
Definition noEmptyBucket (tbl : gmap string (gmap string (list string))) : Prop :=
  forall day m,
    tbl !! day = Some m ->
    m <> ∅ /\ forall time l, m !! time = Some l -> l <> [].

(** The three hidden fields the [body] callback copies into the form. *)
Definition isToken (name : string) : bool :=
  String.eqb name "__VIEWSTATE" || String.eqb name "__VIEWSTATEGENERATOR"
  || String.eqb name "__EVENTVALIDATION".

(** The values of the hidden inputs called [name], in document order. *)
Definition tokenValues (name : string) (inputs : list (string * string))
  : list string :=
  snd <$> List.filter (fun inp => String.eqb inp.1 name) inputs.

(** The ASCII grid with the cells [cells time] on the row of [time]. *)
Definition grid (cells : string -> list string) : list (list string) :=
  (fun time => time :: cells time) <$> times.

(** The cells after the loop over the map [m] of the day of column [d]. *)
Definition dayCells (d : nat) (m : gmap string (list string))
    (cells : string -> list string) : string -> list string :=
  fun time =>
    match m !! time with
    | Some rooms => <[d := GoStrings.Join rooms ", "]> (cells time)
    | None => cells time
    end.

(** The grid that shows every bucket of the table: a row per time of
    [times], a column per weekday, the rooms joined by a comma and a
    space. *)
Definition asciiExpected (tbl : gmap string (gmap string (list string)))
  : list (list string) :=
  grid (fun time => (fun day => GoStrings.Join (bucket tbl day time) ", ") <$> days).

(** Every time the table lists under a weekday is one of [times]. *)
Definition timesKnown (tbl : gmap string (gmap string (list string))) : Prop :=
  forall day time,
    day ∈ days -> is_Some (default ∅ (tbl !! day) !! time) -> time ∈ times.

(** Nine rows of six cells. *)
Definition wellShaped (data : list (list string)) : Prop :=
  length data = 9%nat /\ Forall (fun tableRow => length tableRow = 6%nat) data.

(** The records the container callbacks of a page append: the record of
    each [div#divTT] in document order, up to the first one that stops
    the program. *)
Fixpoint recordsOfPage (cs : list Container) : list Timetable :=
  match cs with
  | [] => []
  | c :: cs' =>
      match eval (parseContainer c) initialWorld with
      | Ok t => t :: recordsOfPage cs'
      | _ => []
      end
  end.

Definition recordsOfResponse (r : RoomResponse) : list Timetable :=
  match r with
  | Rendered cs => recordsOfPage cs
  | _ => []
  end.

(** From [w] to [w'] [roomCollector.Request] was called with the forms
    [sent], and [timetableList] grew by the records of the pages that
    came back for these calls, in the order of the calls. *)
Definition recordsFollow (network : nat -> gmap string (list string) -> RoomResponse)
    (w w' : World) : Prop :=
  exists sent,
    requests w' = requests w ++ sent /\
    timetableList w' =
    timetableList w
    ++ concat (imap (fun i form =>
                       recordsOfResponse (network (length (requests w) + i)%nat form))
                 sent).

(** *** The requests and the HTTP client *)

(** A computation that leaves the form and the two traces as they are. *)
Definition keepsTraces {A} (m : M A) : Prop :=
  forall w,
    roomPostQueryParams (exec m w) = roomPostQueryParams w /\
    requests (exec m w) = requests w /\
    handed (exec m w) = handed w.

Definition isRefused (r : RoomResponse) : bool :=
  match r with
  | Refused _ => true
  | _ => false
  end.

(** Of the calls made with [forms], the first of which has number [n],
    the forms of those colly passes on to its HTTP client. *)
Fixpoint passedOn (network : nat -> gmap string (list string) -> RoomResponse)
    (n : nat) (forms : list (gmap string (list string)))
  : list (gmap string (list string)) :=
  match forms with
  | [] => []
  | form :: forms' =>
      if isRefused (network n form) then passedOn network (S n) forms'
      else form :: passedOn network (S n) forms'
  end.

(** A reader over [form] that has been read to its end. *)
Definition drained (form : gmap string (list string)) : Go.Reader :=
  {| Go.content := form; Go.atEnd := true |}.

(** * Properties *)

(** ** The Go primitives on samples *)

Example Split_date : Go.Split "Date: 12/02/2024" " " = ["Date:"; "12/02/2024"].
Proof. reflexivity. Qed.

Example Split_empty : Go.Split "" " " = [""].
Proof. reflexivity. Qed.

Example Split_trailing : Go.Split "a  b " " " = ["a"; ""; "b"; ""].
Proof. reflexivity. Qed.

Example Atoi_34 : Go.Atoi "34" = inl 34.
Proof. reflexivity. Qed.

Example Atoi_plus : Go.Atoi "+7" = inl 7.
Proof. reflexivity. Qed.

Example Atoi_neg : Go.Atoi "-12" = inl (-12).
Proof. reflexivity. Qed.

Example Atoi_empty : Go.Atoi "" = inr Go.ErrSyntax.
Proof. reflexivity. Qed.

Example Atoi_sign_only : Go.Atoi "-" = inr Go.ErrSyntax.
Proof. reflexivity. Qed.

Example Atoi_big : Go.Atoi "9223372036854775808" = inr Go.ErrRange.
Proof. reflexivity. Qed.

Example Atoi_min : Go.Atoi "-9223372036854775808" = inl Go.minInt.
Proof. reflexivity. Qed.

Example Itoa_33 : Go.Itoa 33 = "33".
Proof. reflexivity. Qed.

Example Itoa_0 : Go.Itoa 0 = "0".
Proof. reflexivity. Qed.

Example Itoa_neg : Go.Itoa (-5) = "-5".
Proof. reflexivity. Qed.

Example incr_wraps : Go.incr Go.maxInt = Go.minInt.
Proof. reflexivity. Qed.

Example Atoi_big_then_letter : Go.Atoi "99999999999999999999x" = inr Go.ErrRange.
Proof. reflexivity. Qed.

Example Atoi_letter : Go.Atoi "3 4" = inr Go.ErrSyntax.
Proof. reflexivity. Qed.

Example Atoi_zeros : Go.Atoi "0034" = inl 34.
Proof. reflexivity. Qed.

(** ** The monad *)

Lemma eval_bind {A B} (m : M A) (f : A -> M B) (w : World) :
  eval (m ≫= f) w =
  match eval m w with
  | Ok a => eval (f a) (exec m w)
  | IndexOutOfRange i len => IndexOutOfRange i len
  | Exit code => Exit code
  end.
Proof.
  unfold eval, exec, mbind, M_bind, bind.
  destruct (m w) as [w' [a|i len|code]]; reflexivity.
Qed.

Lemma exec_bind {A B} (m : M A) (f : A -> M B) (w : World) :
  exec (m ≫= f) w =
  match eval m w with
  | Ok a => exec (f a) (exec m w)
  | _ => exec m w
  end.
Proof.
  unfold eval, exec, mbind, M_bind, bind.
  destruct (m w) as [w' [a|i len|code]]; reflexivity.
Qed.

Lemma eval_ret {A} (a : A) (w : World) : eval (mret a) w = Ok a.
Proof. reflexivity. Qed.

Lemma exec_ret {A} (a : A) (w : World) : exec (mret a : M A) w = w.
Proof. reflexivity. Qed.

Lemma eval_slog l m w : eval (slog l m) w = Ok tt.
Proof. reflexivity. Qed.

Lemma eval_forEach_cons {A B} (f : B -> A -> M A) x l a w :
  eval (forEach f (x :: l) a) w =
  match eval (f x a) w with
  | Ok a' => eval (forEach f l a') (exec (f x a) w)
  | IndexOutOfRange i len => IndexOutOfRange i len
  | Exit code => Exit code
  end.
Proof. simpl. apply eval_bind. Qed.

Lemma exec_forEach_cons {A B} (f : B -> A -> M A) x l a w :
  exec (forEach f (x :: l) a) w =
  match eval (f x a) w with
  | Ok a' => exec (forEach f l a') (exec (f x a) w)
  | _ => exec (f x a) w
  end.
Proof. simpl. apply exec_bind. Qed.

(** A loop over [l1 ++ l2] is the loop over [l1] followed by the loop
    over [l2]; a panic in the first part ends it. *)
Lemma eval_forEach_app {A B} (f : B -> A -> M A) l1 l2 a w :
  eval (forEach f (l1 ++ l2) a) w =
  match eval (forEach f l1 a) w with
  | Ok a' => eval (forEach f l2 a') (exec (forEach f l1 a) w)
  | IndexOutOfRange i len => IndexOutOfRange i len
  | Exit code => Exit code
  end.
Proof.
  revert a w. induction l1 as [|x l1 IH]; intros a w.
  - reflexivity.
  - rewrite <- app_comm_cons, !eval_forEach_cons, exec_forEach_cons.
    destruct (eval (f x a) w) as [a'| |]; [apply IH | reflexivity..].
Qed.

(** An invariant of the loop body is an invariant of the loop. *)
Lemma forEach_invariant {A B} (f : B -> A -> M A) (P : A -> Prop) l :
  (forall x a w a', P a -> eval (f x a) w = Ok a' -> P a') ->
  forall a w a', P a -> eval (forEach f l a) w = Ok a' -> P a'.
Proof.
  intros Hf. induction l as [|x l IH]; intros a w a' Ha.
  - simpl. rewrite eval_ret. congruence.
  - rewrite eval_forEach_cons.
    destruct (eval (f x a) w) as [a1| |] eqn:E; [|discriminate..].
    apply IH. eapply Hf; eauto.
Qed.

(** A loop whose body never fails on the elements of [l] never fails. *)
Lemma forEach_total {A B} (f : B -> A -> M A) (P : A -> Prop) l :
  (forall x a w, x ∈ l -> P a -> exists a', eval (f x a) w = Ok a' /\ P a') ->
  forall a w, P a -> exists a', eval (forEach f l a) w = Ok a' /\ P a'.
Proof.
  induction l as [|x l IH]; intros Hf a w Ha.
  - exists a. split; [reflexivity | assumption].
  - rewrite eval_forEach_cons.
    destruct (Hf x a w) as (a1 & E & Ha1); [left | assumption |].
    rewrite E. apply IH; [|assumption].
    intros y b w' Hy. apply Hf. by right.
Qed.

(** ** The row callback, case by case *)

Lemma rowCallback_marker r t c w :
  isDayMarker r = true ->
  eval (rowCallback r (t, c)) w = Ok (t, Go.incr c).
Proof.
  unfold isDayMarker, rowCallback. intros H. run_callback.
  rewrite H. reflexivity.
Qed.

Lemma rowCallback_subject r t c w :
  isSubject r = true ->
  eval (rowCallback r (t, c)) w = Ok (clearEmpty t, c).
Proof.
  unfold isSubject, isDayMarker, rowCallback. intros H.
  apply andb_prop in H as [H1 H2]. apply negb_true_iff in H1.
  run_callback. rewrite H1. cbn in *. rewrite H2. reflexivity.
Qed.

Lemma rowCallback_sentinel r t w :
  isFree r = true ->
  eval (rowCallback r (t, -1)) w = Ok (setError t, -1).
Proof.
  unfold isFree, isDayMarker, rowCallback. intros H.
  apply andb_prop in H as [H1 H2]. apply negb_true_iff in H1.
  run_callback. rewrite H1. cbn in *. rewrite H2. reflexivity.
Qed.

Lemma rowCallback_free r t c day w :
  isFree r = true -> 0 <= c ->
  days !! Z.to_nat c = Some day ->
  eval (rowCallback r (t, c)) w = Ok (appendFreeTime day (rowTime r) t, c).
Proof.
  unfold isFree, isDayMarker, rowCallback. intros H Hc Hday.
  apply andb_prop in H as [H1 H2]. apply negb_true_iff in H1.
  run_callback. rewrite H1. cbn in *. rewrite H2. cbn.
  destruct (Z.eqb_spec c (-1)) as [->|_]; [lia|].
  destruct (Z.ltb_spec c 0) as [?|_]; [lia|].
  rewrite Hday. reflexivity.
Qed.

Lemma rowCallback_out_of_range r t c w :
  isFree r = true -> c <> -1 -> c < 0 \/ 5 <= c ->
  eval (rowCallback r (t, c)) w = IndexOutOfRange c 5.
Proof.
  unfold isFree, isDayMarker, rowCallback. intros H Hc Hr.
  apply andb_prop in H as [H1 H2]. apply negb_true_iff in H1.
  run_callback. rewrite H1. cbn in *. rewrite H2. cbn.
  destruct (Z.eqb_spec c (-1)) as [->|_]; [lia|].
  destruct (Z.ltb_spec c 0) as [?|Hge]; [reflexivity|].
  destruct (days !! Z.to_nat c) as [d|] eqn:E; [|reflexivity].
  apply lookup_lt_Some in E. cbn in E. lia.
Qed.

(** Every row is of exactly one kind. *)
Lemma row_kinds r :
  (isDayMarker r = true /\ isSubject r = false /\ isFree r = false) \/
  (isDayMarker r = false /\ isSubject r = true /\ isFree r = false) \/
  (isDayMarker r = false /\ isSubject r = false /\ isFree r = true).
Proof.
  unfold isSubject, isFree.
  destruct (isDayMarker r), (String.eqb (rowSubject r) ""); cbn; tauto.
Qed.

Lemma days_lookup c :
  0 <= c < 5 -> exists day, days !! Z.to_nat c = Some day /\ day ∈ days.
Proof.
  intros Hc. destruct (days !! Z.to_nat c) as [d|] eqn:E.
  - exists d. split; [reflexivity|]. eapply list_elem_of_lookup_2; eauto.
  - apply lookup_ge_None in E. cbn in E. lia.
Qed.

Lemma incr_no_wrap c : Go.minInt <= c < Go.maxInt -> Go.incr c = c + 1.
Proof.
  unfold Go.incr, Go.add, Go.wrap, Go.minInt, Go.maxInt. intros H.
  rewrite Z.mod_small; lia.
Qed.

(** ** The header callback *)

Lemma cellOk_lookup cell idx :
  cellOk cell idx = true ->
  String.eqb cell "" = false ->
  exists v, Go.Split cell " " !! idx = Some v.
Proof.
  unfold cellOk. intros H E. rewrite E in H. cbn in H.
  apply Nat.ltb_lt in H. apply lookup_lt_is_Some_2 in H as [v Hv]. eauto.
Qed.

Lemma cellOk_false cell idx :
  cellOk cell idx = false ->
  String.eqb cell "" = false /\ Go.Split cell " " !! idx = None.
Proof.
  unfold cellOk. intros H. apply orb_false_iff in H as [H1 H2].
  split; [assumption|]. apply Nat.ltb_ge in H2. by apply lookup_ge_None.
Qed.

Lemma cellOk_empty cell idx : String.eqb cell "" = true -> cellOk cell idx = true.
Proof. unfold cellOk. intros ->. reflexivity. Qed.

Lemma cellOk_some cell idx v :
  Go.Split cell " " !! idx = Some v -> cellOk cell idx = true.
Proof.
  unfold cellOk. intros H. apply lookup_lt_Some, Nat.ltb_lt in H.
  rewrite H. apply orb_true_r.
Qed.

Lemma cellOk_none cell idx :
  String.eqb cell "" = false -> Go.Split cell " " !! idx = None ->
  cellOk cell idx = false.
Proof.
  unfold cellOk. intros -> H. apply lookup_ge_None, Nat.ltb_ge in H.
  rewrite H. reflexivity.
Qed.

(** The header callback returns exactly when every non-empty cell has
    the token it indexes; its result is then the record with the tokens
    filled in and the error flag raised for every empty cell. *)
Lemma headerCallback_spec h t w :
  match eval (headerCallback h t) w with
  | Ok t' =>
      headerOk h = true /\
      Error t' = Error t || hasEmptyCell h /\
      Empty t' = Empty t /\
      FreeTimes t' = FreeTimes t /\
      Date t' = cellToken (headerDate h) 1 (Date t) /\
      Room t' = cellToken (headerRoom h) 2 (Room t) /\
      Week t' = cellToken (headerWeek h) 2 (Week t)
  | IndexOutOfRange i len => headerOk h = false
  | Exit _ => False
  end.
Proof.
  unfold headerCallback, hasEmptyCell, cellToken.
  run_callback.
  change (Z.to_nat 1) with 1%nat. change (Z.to_nat 2) with 2%nat.
  destruct (String.eqb (headerDate h) "") eqn:Ed; cbn;
    [|destruct (Go.Split (headerDate h) " " !! 1%nat) as [vd|] eqn:Ld; cbn];
    (destruct (String.eqb (headerRoom h) "") eqn:Er; cbn;
     [|destruct (Go.Split (headerRoom h) " " !! 2%nat) as [vr|] eqn:Lr; cbn]);
    (destruct (String.eqb (headerWeek h) "") eqn:Ew; cbn;
     [|destruct (Go.Split (headerWeek h) " " !! 2%nat) as [vw|] eqn:Lw; cbn]);
    unfold headerOk;
    repeat match goal with
      | H : String.eqb ?c "" = true |- context [cellOk ?c ?i] =>
          rewrite (cellOk_empty c i H)
      | H : Go.Split ?c " " !! ?i = Some ?v |- context [cellOk ?c ?i] =>
          rewrite (cellOk_some c i v H)
      | E : String.eqb ?c "" = false, H : Go.Split ?c " " !! ?i = None
        |- context [cellOk ?c ?i] =>
          rewrite (cellOk_none c i E H)
      end;
    rewrite ?orb_true_r, ?orb_false_r, ?andb_false_r;
    repeat split; reflexivity.
Qed.

(** ** The grid scan *)

(** The five ways a row callback can end. *)
Lemma rowCallback_cases r t c w :
  (isDayMarker r = true /\ eval (rowCallback r (t, c)) w = Ok (t, Go.incr c)) \/
  (isSubject r = true /\ eval (rowCallback r (t, c)) w = Ok (clearEmpty t, c)) \/
  (isFree r = true /\ c = -1 /\
   eval (rowCallback r (t, c)) w = Ok (setError t, c)) \/
  (isFree r = true /\ 0 <= c < 5 /\
   exists day, day ∈ days /\
     eval (rowCallback r (t, c)) w = Ok (appendFreeTime day (rowTime r) t, c)) \/
  (isFree r = true /\ c <> -1 /\ (c < 0 \/ 5 <= c) /\
   eval (rowCallback r (t, c)) w = IndexOutOfRange c 5).
Proof.
  destruct (row_kinds r) as [(Hm & _)|[(_ & Hs & _)|(_ & _ & Hf)]].
  - left. split; [assumption|]. by apply rowCallback_marker.
  - right; left. split; [assumption|]. by apply rowCallback_subject.
  - destruct (decide (c = -1)) as [->|Hc].
    + right; right; left. repeat split; [assumption|]. by apply rowCallback_sentinel.
    + destruct (decide (0 <= c < 5)) as [Hr|Hr].
      * right; right; right; left. repeat split; [assumption|lia..|].
        destruct (days_lookup c Hr) as (day & Hd & Hin).
        exists day. split; [assumption|]. apply rowCallback_free; [assumption|lia|assumption].
      * right; right; right; right. repeat split; [assumption..| |].
        -- lia.
        -- apply rowCallback_out_of_range; [assumption..|lia].
Qed.

Lemma rowStable_refl t c : rowStable t (t, c).
Proof. unfold rowStable; cbn. repeat split; auto. Qed.

Lemma rowCallback_stable t0 r st w st' :
  rowStable t0 st -> eval (rowCallback r st) w = Ok st' -> rowStable t0 st'.
Proof.
  destruct st as [t c]. intros (Hd & Hr & Hw & He & Hm & Hk) E.
  destruct (rowCallback_cases r t c w)
    as [(_ & E')|[(_ & E')|[(_ & _ & E')|[(_ & _ & day & Hin & E')|(_ & _ & _ & E')]]]];
    rewrite E' in E; try discriminate; injection E as <-;
    unfold rowStable; cbn in *; repeat split; auto.
  intros k Hsome. destruct (decide (day = k)) as [<-|Hne].
  - by right.
  - rewrite lookup_insert_ne in Hsome by assumption. auto.
Qed.

Lemma scan_stable rows t c w st' :
  eval (forEach rowCallback rows (t, c)) w = Ok st' -> rowStable t st'.
Proof.
  apply (forEach_invariant rowCallback (rowStable t)).
  - intros r st w0 st1. apply rowCallback_stable.
  - apply rowStable_refl.
Qed.

(** The scan fails only by indexing [days], never by exiting. *)
Lemma scan_failure rows st w :
  match eval (forEach rowCallback rows st) w with
  | Ok _ => True
  | IndexOutOfRange i len => len = 5%nat /\ i <> -1 /\ (i < 0 \/ 5 <= i)
  | Exit _ => False
  end.
Proof.
  revert st w. induction rows as [|r rows IH]; intros [t c] w.
  - exact I.
  - rewrite eval_forEach_cons.
    destruct (rowCallback_cases r t c w)
      as [(_ & E)|[(_ & E)|[(_ & _ & E)|[(_ & _ & day & _ & E)|(_ & ? & ? & E)]]]];
      rewrite E; try apply IH. auto.
Qed.

(** [slotCount] goes up by one with every append. *)
Lemma slotCount_append (m : gmap string (list string)) day time :
  slotCount (<[day := default [] (m !! day) ++ [time]]> m) = S (slotCount m).
Proof.
  unfold slotCount.
  assert (Hcomm : forall (m' : gmap string (list string)) j1 j2 (z1 z2 : list string) y,
             j1 <> j2 -> m' !! j1 = Some z1 -> m' !! j2 = Some z2 ->
             (length z1 + (length z2 + y) = length z2 + (length z1 + y))%nat)
    by (intros; lia).
  destruct (m !! day) as [l|] eqn:E; cbn.
  - rewrite <- insert_delete_eq.
    rewrite map_fold_insert_L; [|by eauto|by apply lookup_delete_eq].
    rewrite (map_fold_delete_L _ _ day l m); [|by eauto|assumption].
    rewrite length_app. cbn. lia.
  - rewrite map_fold_insert_L; [|by eauto|assumption]. reflexivity.
Qed.

(** Without wrap-around, the cursor counts the day markers and the
    mapping gains one entry per free row under a day. *)
Lemma scan_count rows : forall t c w t' c',
  -1 <= c -> c + Z.of_nat (length rows) <= Go.maxInt ->
  eval (forEach rowCallback rows (t, c)) w = Ok (t', c') ->
  c' = c + Z.of_nat (dayMarkers rows) /\
  slotCount (FreeTimes t') =
    (slotCount (FreeTimes t)
     + (if (c =? -1)%Z then freeRowsAfterMarker rows else freeRows rows))%nat.
Proof.
  induction rows as [|r rows IH]; intros t c w t' c' Hc Hlen E.
  - cbn in E. injection E as <- <-. cbn. split; [lia|].
    destruct (c =? -1); lia.
  - rewrite eval_forEach_cons in E. cbn [length] in Hlen.
    assert (Hmax : Go.maxInt = 2 ^ 63 - 1) by reflexivity.
    destruct (rowCallback_cases r t c w)
      as [(K & E')|[(K & E')|[(K & Hs & E')|[(K & Hr & day & _ & E')|(_ & _ & _ & E')]]]];
      rewrite E' in E; try discriminate;
      destruct (row_kinds r) as [(Km & Ks & Kf)|[(Km & Ks & Kf)|(Km & Ks & Kf)]];
      try congruence; cbn [dayMarkers freeRows freeRowsAfterMarker];
      rewrite Km, ?Kf.
    + rewrite incr_no_wrap in E by (unfold Go.minInt; lia).
      apply IH in E as (-> & ->); [|lia..]. split; [lia|].
      destruct (Z.eqb_spec (c + 1) (-1)) as [?|_]; [lia|].
      destruct (c =? -1); lia.
    + apply IH in E as (-> & ->); [|lia..]. cbn. split; [lia|].
      destruct (c =? -1); lia.
    + subst c. apply IH in E as (-> & ->); [|lia..]. cbn. split; lia.
    + apply IH in E as (-> & ->); [|lia..]. cbn [appendFreeTime FreeTimes].
      rewrite slotCount_append. split; [lia|].
      destruct (Z.eqb_spec c (-1)) as [?|_]; lia.
Qed.

(** With at most five day markers ahead of the cursor's room, the scan
    returns. *)
Lemma scan_total rows : forall t c w,
  -1 <= c -> c + Z.of_nat (dayMarkers rows) <= 4 ->
  exists st', eval (forEach rowCallback rows (t, c)) w = Ok st'.
Proof.
  induction rows as [|r rows IH]; intros t c w Hc Hm.
  - eexists. reflexivity.
  - rewrite eval_forEach_cons. cbn [dayMarkers] in Hm.
    destruct (rowCallback_cases r t c w)
      as [(K & E')|[(K & E')|[(K & Hs & E')|[(K & Hr & day & _ & E')|(K & ? & ? & E')]]]];
      rewrite E';
      destruct (row_kinds r) as [(Km & Ks & Kf)|[(Km & Ks & Kf)|(Km & Ks & Kf)]];
      try congruence; rewrite Km in Hm.
    + rewrite incr_no_wrap by (unfold Go.minInt, Go.maxInt; lia).
      apply IH; lia.
    + apply IH; lia.
    + apply IH; lia.
    + apply IH; lia.
    + lia.
Qed.

(** ** One container *)

Lemma headers_spec hs : forall t w,
  match eval (forEach headerCallback hs t) w with
  | Ok t' =>
      forallb headerOk hs = true /\
      Error t' = Error t || existsb hasEmptyCell hs /\
      Empty t' = Empty t /\
      FreeTimes t' = FreeTimes t /\
      Date t' = headerTokens headerDate 1 hs (Date t) /\
      Room t' = headerTokens headerRoom 2 hs (Room t) /\
      Week t' = headerTokens headerWeek 2 hs (Week t)
  | IndexOutOfRange i len => forallb headerOk hs = false
  | Exit _ => False
  end.
Proof.
  induction hs as [|h hs IH]; intros t w.
  - cbn. rewrite orb_false_r. repeat split; reflexivity.
  - rewrite eval_forEach_cons.
    pose proof (headerCallback_spec h t w) as Hh.
    destruct (eval (headerCallback h t) w) as [t1| |]; [|cbn; by rewrite Hh|done].
    destruct Hh as (Hok & He & Hm & Hf & Hd & Hr & Hw).
    specialize (IH t1 (exec (headerCallback h t) w)).
    destruct (eval (forEach headerCallback hs t1) _) as [t2| |];
      [|cbn; by rewrite IH, andb_false_r|done].
    destruct IH as (Hok' & He' & Hm' & Hf' & Hd' & Hr' & Hw').
    unfold headerTokens in *. cbn.
    rewrite Hok, Hok', He', He, Hm', Hm, Hf', Hf, Hd', Hd, Hr', Hr, Hw', Hw.
    rewrite orb_assoc. repeat split; reflexivity.
Qed.

Lemma timetableCallback_eval rows t w :
  exists w',
    eval (timetableCallback rows t) w =
    match eval (forEach rowCallback rows (t, -1)) w' with
    | Ok st => Ok st.1
    | IndexOutOfRange i len => IndexOutOfRange i len
    | Exit code => Exit code
    end.
Proof.
  exists (exec (slog LevelInfo (Text "Found timetable, parsing...")) w).
  unfold timetableCallback. rewrite eval_bind, eval_slog, eval_bind.
  destruct (eval (forEach rowCallback rows (t, -1)) _); reflexivity.
Qed.

Lemma parseContainer_eval c w :
  exists w1 w2,
    eval (parseContainer c) w =
    match eval (forEach headerCallback (headerElements c) newTimetable) w1 with
    | Ok t => eval (forEach timetableCallback (timetableElements c) t) (w2 t)
    | IndexOutOfRange i len => IndexOutOfRange i len
    | Exit code => Exit code
    end.
Proof.
  set (w1 := exec (slog LevelDebug (Text "Found table container")) w).
  exists w1, (fun _ => exec (forEach headerCallback (headerElements c) newTimetable) w1).
  unfold parseContainer. rewrite eval_bind, eval_slog, eval_bind. reflexivity.
Qed.

(** The loop over the timetable tables keeps what rows keep. *)
Lemma grids_stable grids t w t' :
  eval (forEach timetableCallback grids t) w = Ok t' -> rowStable t (t', 0).
Proof.
  apply (forEach_invariant timetableCallback (fun t1 => rowStable t (t1, 0))).
  - intros rows t1 w1 t2 Hst E.
    destruct (timetableCallback_eval rows t1 w1) as (w' & Ew). rewrite Ew in E.
    destruct (eval (forEach rowCallback rows (t1, -1)) w') as [[t3 c3]| |] eqn:Es;
      try discriminate.
    injection E as <-.
    apply (forEach_invariant rowCallback (rowStable t)) in Es.
    + exact Es.
    + intros r st w0 st1. apply rowCallback_stable.
    + exact Hst.
  - apply rowStable_refl.
Qed.

Lemma grids_failure grids : forall t w,
  match eval (forEach timetableCallback grids t) w with
  | Ok _ => True
  | IndexOutOfRange i len => len = 5%nat /\ i <> -1 /\ (i < 0 \/ 5 <= i)
  | Exit _ => False
  end.
Proof.
  induction grids as [|g grids IH]; intros t w.
  - exact I.
  - rewrite eval_forEach_cons.
    destruct (timetableCallback_eval g t w) as (w' & ->).
    pose proof (scan_failure g (t, -1) w') as Hs.
    destruct (eval (forEach rowCallback g (t, -1)) w'); [apply IH|exact Hs..].
Qed.

Lemma grids_count grids : forall t w t',
  Forall (fun g : list RowElement => Z.of_nat (length g) <= Go.maxInt) grids ->
  eval (forEach timetableCallback grids t) w = Ok t' ->
  slotCount (FreeTimes t') =
    (slotCount (FreeTimes t) + sum_list (freeRowsAfterMarker <$> grids))%nat.
Proof.
  induction grids as [|g grids IH]; intros t w t' Hlen E.
  - cbn in E. injection E as <-. cbn. lia.
  - rewrite eval_forEach_cons in E.
    destruct (timetableCallback_eval g t w) as (w' & Ew). rewrite Ew in E.
    destruct (eval (forEach rowCallback g (t, -1)) w') as [[t1 c1]| |] eqn:Es;
      try discriminate.
    apply Forall_cons in Hlen as [Hg Hlen].
    apply scan_count in Es as [_ Hcount]; [|lia|lia].
    apply IH in E; [|assumption]. cbn in *. lia.
Qed.

Lemma grids_total grids : forall t w,
  Forall (fun g => (dayMarkers g <= 5)%nat) grids ->
  exists t', eval (forEach timetableCallback grids t) w = Ok t'.
Proof.
  induction grids as [|g grids IH]; intros t w Hm.
  - eexists. reflexivity.
  - rewrite eval_forEach_cons.
    destruct (timetableCallback_eval g t w) as (w' & ->).
    apply Forall_cons in Hm as [Hg Hm].
    destruct (scan_total g t (-1) w') as [st' ->]; [lia|lia|].
    by apply IH.
Qed.

(** A free row before the first day marker raises the flag for good. *)
Lemma scan_sentinel rows : forall t w t' c',
  freeBeforeMarker rows = true ->
  eval (forEach rowCallback rows (t, -1)) w = Ok (t', c') ->
  Error t' = true.
Proof.
  induction rows as [|r rows IH]; intros t w t' c' Hf E; [discriminate|].
  rewrite eval_forEach_cons in E. cbn in Hf.
  destruct (row_kinds r) as [(Km & Ks & Kf)|[(Km & Ks & Kf)|(Km & Ks & Kf)]];
    rewrite Km, ?Kf in Hf; try discriminate.
  - rewrite rowCallback_subject in E by assumption. eapply IH; eauto.
  - rewrite rowCallback_sentinel in E by assumption.
    apply scan_stable in E as (_ & _ & _ & He & _). by apply He.
Qed.

Lemma grids_sentinel grids : forall t w t',
  Exists (fun g => freeBeforeMarker g = true) grids ->
  eval (forEach timetableCallback grids t) w = Ok t' ->
  Error t' = true.
Proof.
  induction grids as [|g grids IH]; intros t w t' Hex E.
  - by apply Exists_nil in Hex.
  - rewrite eval_forEach_cons in E.
    destruct (timetableCallback_eval g t w) as (w' & Ew). rewrite Ew in E.
    destruct (eval (forEach rowCallback g (t, -1)) w') as [[t1 c1]| |] eqn:Es;
      try discriminate.
    apply Exists_cons in Hex as [Hg|Hrest].
    + apply scan_sentinel in Es; [|assumption].
      apply grids_stable in E as (_ & _ & _ & He & _). by apply He.
    + eapply IH; eauto.
Qed.

(** ** The parser touches nothing but the log *)

Lemma setLog_nil w : setLog (log w ++ []) w = w.
Proof. destruct w. unfold setLog. cbn. by rewrite app_nil_r. Qed.

Lemma setLog_app l1 l2 w :
  setLog (log (setLog (log w ++ l1) w) ++ l2) (setLog (log w ++ l1) w)
  = setLog (log w ++ (l1 ++ l2)) w.
Proof. unfold setLog. cbn. by rewrite app_assoc. Qed.

Lemma logsOnly_ret {A} (a : A) : logsOnly (mret a).
Proof. exists [], (Ok a). intros w. by rewrite setLog_nil. Qed.

Lemma logsOnly_slog l m : logsOnly (slog l m).
Proof. by exists [{| level := l; msg := m |}], (Ok tt). Qed.

Lemma logsOnly_index {A} (l : list A) i : logsOnly (index l i).
Proof.
  unfold index.
  exists [], (if i <? 0 then IndexOutOfRange i (length l)
              else match l !! Z.to_nat i with
                   | Some x => Ok x
                   | None => IndexOutOfRange i (length l)
                   end).
  intros w. rewrite setLog_nil.
  destruct (i <? 0); [reflexivity|]. by destruct (l !! Z.to_nat i).
Qed.

Lemma logsOnly_bind {A B} (m : M A) (f : A -> M B) :
  logsOnly m -> (forall a, logsOnly (f a)) -> logsOnly (m ≫= f).
Proof.
  intros (l1 & r1 & H1) Hf. destruct r1 as [a|i len|code].
  - destruct (Hf a) as (l2 & r2 & H2). exists (l1 ++ l2), r2. intros w.
    unfold mbind, M_bind, bind. rewrite H1, H2. by rewrite setLog_app.
  - exists l1, (IndexOutOfRange i len). intros w.
    unfold mbind, M_bind, bind. by rewrite H1.
  - exists l1, (Exit code). intros w.
    unfold mbind, M_bind, bind. by rewrite H1.
Qed.

Lemma logsOnly_forEach {A B} (f : B -> A -> M A) l :
  (forall x a, logsOnly (f x a)) -> forall a, logsOnly (forEach f l a).
Proof.
  intros Hf. induction l as [|x l IH]; intros a.
  - apply logsOnly_ret.
  - cbn. apply logsOnly_bind; [apply Hf | apply IH].
Qed.

Ltac logs_only :=
  repeat first
    [ apply logsOnly_ret
    | apply logsOnly_slog
    | apply logsOnly_index
    | apply logsOnly_bind; [|intros ?]
    | match goal with
      | |- logsOnly (if ?b then _ else _) => destruct b
      end ].

Lemma logsOnly_headerCallback h t : logsOnly (headerCallback h t).
Proof. unfold headerCallback. logs_only. Qed.

Lemma logsOnly_rowCallback r st : logsOnly (rowCallback r st).
Proof. unfold rowCallback. logs_only. Qed.

Lemma logsOnly_timetableCallback rows t : logsOnly (timetableCallback rows t).
Proof.
  unfold timetableCallback. logs_only.
  apply logsOnly_forEach. apply logsOnly_rowCallback.
Qed.

Lemma logsOnly_parseContainer c : logsOnly (parseContainer c).
Proof.
  unfold parseContainer. logs_only.
  - apply logsOnly_forEach. apply logsOnly_headerCallback.
  - apply logsOnly_forEach. apply logsOnly_timetableCallback.
Qed.

Lemma logsOnly_eval {A} (m : M A) w1 w2 : logsOnly m -> eval m w1 = eval m w2.
Proof. intros (l & r & H). unfold eval. by rewrite !H. Qed.

Lemma logsOnly_frame {A} (m : M A) w :
  logsOnly m ->
  timetableList (exec m w) = timetableList w /\
  roomPostQueryParams (exec m w) = roomPostQueryParams w /\
  requests (exec m w) = requests w.
Proof. intros (l & r & H). unfold exec. by rewrite H. Qed.

(** ** The grid data depend on the grid alone *)




(** ** The parsed record *)

(** A parse that returns went through the headers, which left the grid
    data of the new record alone, and then through the grids. *)
Lemma parseContainer_Ok c w t :
  eval (parseContainer c) w = Ok t ->
  exists t1 w2,
    eval (forEach timetableCallback (timetableElements c) t1) w2 = Ok t /\
    forallb headerOk (headerElements c) = true /\
    Error t1 = existsb hasEmptyCell (headerElements c) /\
    Empty t1 = true /\
    FreeTimes t1 = ∅ /\
    Date t1 = headerTokens headerDate 1 (headerElements c) "" /\
    Room t1 = headerTokens headerRoom 2 (headerElements c) "" /\
    Week t1 = headerTokens headerWeek 2 (headerElements c) "".
Proof.
  intros E. destruct (parseContainer_eval c w) as (w1 & w2 & Ep). rewrite Ep in E.
  pose proof (headers_spec (headerElements c) newTimetable w1) as Hh.
  destruct (eval (forEach headerCallback (headerElements c) newTimetable) w1)
    as [t1| |]; try discriminate.
  exists t1, (w2 t1). split; [exact E|]. exact Hh.
Qed.

Lemma freeBeforeMarker_app pre r post :
  dayMarkers pre = 0%nat -> isFree r = true ->
  freeBeforeMarker (pre ++ r :: post) = true.
Proof.
  intros Hpre Hr. induction pre as [|p pre IH]; cbn in *.
  - destruct (row_kinds r) as [(Km & _ & Kf)|[(Km & _ & Kf)|(Km & _ & Kf)]];
      try congruence. by rewrite Km, Kf.
  - destruct (isDayMarker p); [lia|]. destruct (isFree p); [reflexivity|].
    apply IH. lia.
Qed.

(** The rows before the first day marker record nothing, and the scan
    gets past them. *)
Lemma scan_before_marker pre : forall t w,
  dayMarkers pre = 0%nat ->
  exists t1,
    eval (forEach rowCallback pre (t, -1)) w = Ok (t1, -1) /\
    FreeTimes t1 = FreeTimes t /\
    (Error t = true -> Error t1 = true).
Proof.
  induction pre as [|p pre IH]; intros t w Hpre.
  - exists t. auto.
  - rewrite eval_forEach_cons. cbn in Hpre.
    destruct (row_kinds p) as [(Km & Ks & Kf)|[(Km & Ks & Kf)|(Km & Ks & Kf)]];
      rewrite Km in Hpre; [lia| |].
    + rewrite rowCallback_subject by assumption.
      destruct (IH (clearEmpty t) (exec (rowCallback p (t, -1)) w)) as (t1 & E & Hf & He);
        [lia|]. exists t1. auto.
    + rewrite rowCallback_sentinel by assumption.
      destruct (IH (setError t) (exec (rowCallback p (t, -1)) w)) as (t1 & E & Hf & He);
        [lia|]. exists t1. split; [exact E|]. split; [exact Hf|]. intros _. by apply He.
Qed.

(** C1 (amended). A free row met while [currentDay] is still -1 sets
    [Error] and the scan goes on with the rows that follow: the record a
    parse returns for a document with a free row before the first day
    marker of a grid has [Error = true]; up to and including that row
    the scan records no free slot, does not fail and keeps the cursor at
    -1, and the rows after it are scanned from there. *)
Theorem sentinel_violation c w t' pre r post :
  eval (parseContainer c) w = Ok t' ->
  pre ++ r :: post ∈ timetableElements c ->
  dayMarkers pre = 0%nat ->
  isFree r = true ->
  Error t' = true /\
  forall t w0, exists t1 w1,
    eval (forEach rowCallback (pre ++ [r]) (t, -1)) w0 = Ok (t1, -1) /\
    Error t1 = true /\
    FreeTimes t1 = FreeTimes t /\
    eval (forEach rowCallback (pre ++ r :: post) (t, -1)) w0
    = eval (forEach rowCallback post (t1, -1)) w1.
Proof.
  intros E Hin Hpre Hr. split.
  - apply parseContainer_Ok in E as (t1 & w2 & E & _).
    eapply grids_sentinel; [|exact E].
    apply Exists_exists. exists (pre ++ r :: post). split; [assumption|].
    by apply freeBeforeMarker_app.
  - intros t w0.
    destruct (scan_before_marker pre t w0 Hpre) as (t0 & E0 & Hf0 & _).
    assert (E1 : eval (forEach rowCallback (pre ++ [r]) (t, -1)) w0
                 = Ok (setError t0, -1)).
    { rewrite eval_forEach_app, E0, eval_forEach_cons.
      by rewrite rowCallback_sentinel. }
    exists (setError t0), (exec (forEach rowCallback (pre ++ [r]) (t, -1)) w0).
    split; [exact E1|]. split; [reflexivity|]. split; [exact Hf0|].
    rewrite (cons_middle r pre post), app_assoc.
    by rewrite eval_forEach_app, E1.
Qed.

Lemma sentinel_violation_witness :
  eval (parseContainer (container sampleHeader freeFirstGrid)) initialWorld
  = Ok {| Error := true; Empty := true; Date := "12/02/2024"; Room := "IT101";
          Week := "23"; FreeTimes := {[ "Monday" := ["10:15"] ]} |}
  /\ Error {| Error := true; Empty := true; Date := "12/02/2024"; Room := "IT101";
              Week := "23"; FreeTimes := {[ "Monday" := ["10:15"] ]} |} = true.
Proof.
  split; [reflexivity|].
  refine (proj1 (sentinel_violation (container sampleHeader freeFirstGrid)
                   initialWorld _ [] (row "" "" "09:15")
                   [row "Monday" "" ""; row "" "" "10:15"] _ _ _ _)).
  - reflexivity.
  - cbn. apply list_elem_of_here.
  - reflexivity.
  - reflexivity.
Defined.

(** A class row before the first day marker raises no flag: C1 does not
    hold of the subject rows it names. *)
Lemma subject_before_marker_no_error :
  ~ (forall c w t' r post,
        eval (parseContainer c) w = Ok t' ->
        r :: post ∈ timetableElements c ->
        isDayMarker r = false ->
        Error t' = true).
Proof.
  intros H.
  specialize (H (container sampleHeader subjectFirstGrid) initialWorld
                _ (row "" "Maths" "09:15") [row "Monday" "" ""; row "" "" "10:15"]
                eq_refl).
  cbn in H. specialize (H (list_elem_of_here _ _) eq_refl). discriminate H.
Qed.

(** C2. The record a parse returns has as many free-slot entries, all
    days together, as its grids have free rows after their first day
    marker (a grid, a Go slice, has at most [maxInt] rows); and the grid
    [Monday marker], [09:15 free], [10:15 Maths], [11:15 free] gives
    [Empty = false] and [FreeTimes = {Monday: [09:15, 11:15]}] under any
    headers. *)
Theorem free_slot_count c w t :
  eval (parseContainer c) w = Ok t ->
  Forall (fun g : list RowElement => Z.of_nat (length g) <= Go.maxInt)
    (timetableElements c) ->
  slotCount (FreeTimes t) = sum_list (freeRowsAfterMarker <$> timetableElements c) /\
  forall hs w' t',
    eval (parseContainer {| headerElements := hs; timetableElements := [mondayGrid] |}) w'
    = Ok t' ->
    Empty t' = false /\ FreeTimes t' = {[ "Monday" := ["09:15"; "11:15"] ]}.
Proof.
  intros E Hlen. split.
  - apply parseContainer_Ok in E as (t1 & w2 & E & _ & _ & _ & Hf & _).
    apply grids_count in E; [|assumption]. rewrite E, Hf. reflexivity.
  - clear. intros hs w' t' E.
    apply parseContainer_Ok in E as (t1 & w2 & E & _ & _ & _ & Hf & _).
    cbn [timetableElements] in E. rewrite eval_forEach_cons in E.
    destruct (timetableCallback_eval mondayGrid t1 w2) as (w3 & Ew).
    rewrite Ew in E. clear Ew. unfold mondayGrid in E.
    rewrite eval_forEach_cons, rowCallback_marker in E by reflexivity.
    change (Go.incr (-1)) with 0 in E.
    rewrite eval_forEach_cons, (rowCallback_free _ _ _ "Monday") in E
      by (reflexivity || lia).
    rewrite eval_forEach_cons, rowCallback_subject in E by reflexivity.
    rewrite eval_forEach_cons, (rowCallback_free _ _ _ "Monday") in E
      by (reflexivity || lia).
    cbn in E. injection E as <-. cbn. rewrite Hf. split; reflexivity.
Qed.

Lemma free_slot_count_witness :
  eval (parseContainer (container sampleHeader mondayGrid)) initialWorld
  = Ok {| Error := false; Empty := false; Date := "12/02/2024"; Room := "IT101";
          Week := "23"; FreeTimes := {[ "Monday" := ["09:15"; "11:15"] ]} |}
  /\ Forall (fun g : list RowElement => Z.of_nat (length g) <= Go.maxInt)
       [mondayGrid]
  /\ slotCount {[ "Monday" := ["09:15"; "11:15"] ]} = 2%nat.
Proof.
  assert (Hlen : Forall (fun g : list RowElement => Z.of_nat (length g) <= Go.maxInt)
                   [mondayGrid]).
  { repeat constructor. discriminate. }
  split; [reflexivity|]. split; [exact Hlen|].
  exact (proj1 (free_slot_count (container sampleHeader mondayGrid) initialWorld
                  _ eq_refl Hlen)).
Defined.



(** The room cell is empty: the flag is up, the date and the week are
    there, and so are the free times of the grid.  So it is with an
    empty date cell. *)
Example roomless_header_record :
  eval (parseContainer (container roomlessHeader mondayGrid)) initialWorld
  = Ok {| Error := true; Empty := false; Date := "12/02/2024"; Room := "";
          Week := "23"; FreeTimes := {[ "Monday" := ["09:15"; "11:15"] ]} |}.
Proof. reflexivity. Qed.

Example undated_header_record :
  eval (parseContainer (container undatedHeader mondayGrid)) initialWorld
  = Ok {| Error := true; Empty := false; Date := ""; Room := "IT101";
          Week := "23"; FreeTimes := {[ "Monday" := ["09:15"; "11:15"] ]} |}.
Proof. reflexivity. Qed.

(** C9. Parsing a document gives the same outcome in whatever state the
    program is, and touches nothing but the log; the callback run twice
    on the same document appends the same record twice. *)
Theorem parsing_deterministic c :
  (forall w1 w2, eval (parseContainer c) w1 = eval (parseContainer c) w2) /\
  (forall w, timetableList (exec (parseContainer c) w) = timetableList w) /\
  (forall w t,
      eval (parseContainer c) w = Ok t ->
      timetableList (exec (containerCallback c;; containerCallback c) w)
      = timetableList w ++ [t; t]).
Proof.
  pose proof (logsOnly_parseContainer c) as Hlogs. repeat split.
  - intros w1 w2. by apply logsOnly_eval.
  - intros w. by apply logsOnly_frame.
  - intros w t E. destruct Hlogs as (l & r & H).
    assert (r = Ok t) as -> by (unfold eval in E; by rewrite H in E).
    unfold exec, containerCallback, appendTimetable, mbind, M_bind, bind.
    rewrite H. cbn. rewrite H. cbn. by rewrite <- app_assoc.
Qed.

Lemma parsing_deterministic_witness :
  eval (parseContainer (container sampleHeader mondayGrid)) initialWorld
  = Ok {| Error := false; Empty := false; Date := "12/02/2024"; Room := "IT101";
          Week := "23"; FreeTimes := {[ "Monday" := ["09:15"; "11:15"] ]} |}
  /\ length (timetableList
               (exec (containerCallback (container sampleHeader mondayGrid);;
                      containerCallback (container sampleHeader mondayGrid))
                  initialWorld)) = 2%nat.
Proof.
  split; [reflexivity|].
  rewrite (proj2 (proj2 (parsing_deterministic (container sampleHeader mondayGrid)))
             initialWorld _ eq_refl).
  reflexivity.
Defined.

(** ** Where the parser panics *)

Lemma cell_short cell idx :
  String.eqb cell "" = false ->
  (length (Go.Split cell " ") <= idx)%nat ->
  cellOk cell idx = false.
Proof.
  intros E Hlen. apply cellOk_none; [assumption|]. by apply lookup_ge_None.
Qed.

Lemma headerCallback_date_short h t w :
  String.eqb (headerDate h) "" = false ->
  (length (Go.Split (headerDate h) " ") < 2)%nat ->
  eval (headerCallback h t) w
  = IndexOutOfRange 1 (length (Go.Split (headerDate h) " ")).
Proof.
  intros E Hlen. unfold headerCallback. run_callback. rewrite E. cbn.
  change (Z.to_nat 1) with 1%nat.
  destruct (Go.Split (headerDate h) " " !! 1%nat) eqn:L; [|reflexivity].
  apply lookup_lt_Some in L. lia.
Qed.

Lemma headerCallback_room_short h t w :
  cellOk (headerDate h) 1 = true ->
  String.eqb (headerRoom h) "" = false ->
  (length (Go.Split (headerRoom h) " ") < 3)%nat ->
  eval (headerCallback h t) w
  = IndexOutOfRange 2 (length (Go.Split (headerRoom h) " ")).
Proof.
  intros Hd E Hlen. unfold headerCallback. run_callback.
  change (Z.to_nat 1) with 1%nat. change (Z.to_nat 2) with 2%nat.
  assert (L : Go.Split (headerRoom h) " " !! 2%nat = None)
    by (apply lookup_ge_None; lia).
  destruct (String.eqb (headerDate h) "") eqn:Ed; cbn.
  - rewrite E. cbn. by rewrite L.
  - destruct (cellOk_lookup _ _ Hd Ed) as [v ->]. cbn. rewrite E. cbn. by rewrite L.
Qed.

Lemma headerCallback_week_short h t w :
  cellOk (headerDate h) 1 = true ->
  cellOk (headerRoom h) 2 = true ->
  String.eqb (headerWeek h) "" = false ->
  (length (Go.Split (headerWeek h) " ") < 3)%nat ->
  eval (headerCallback h t) w
  = IndexOutOfRange 2 (length (Go.Split (headerWeek h) " ")).
Proof.
  intros Hd Hr E Hlen.
  pose proof (headerCallback_spec h t w) as Hs.
  assert (Hbad : headerOk h = false).
  { unfold headerOk. rewrite (cell_short (headerWeek h) 2) by (assumption || lia).
    apply andb_false_r. }
  unfold headerCallback in *. revert Hs. run_callback.
  change (Z.to_nat 1) with 1%nat. change (Z.to_nat 2) with 2%nat.
  assert (L : Go.Split (headerWeek h) " " !! 2%nat = None)
    by (apply lookup_ge_None; lia).
  destruct (String.eqb (headerDate h) "") eqn:Ed; cbn;
    [|destruct (cellOk_lookup _ _ Hd Ed) as [vd ->]; cbn];
    (destruct (String.eqb (headerRoom h) "") eqn:Er; cbn;
     [|destruct (cellOk_lookup _ _ Hr Er) as [vr ->]; cbn]);
    rewrite E; cbn; rewrite L; reflexivity.
Qed.

(** A free row after six or more day markers indexes [days] out of
    range, unless an earlier row already did. *)
Lemma scan_past_friday pre r post t w :
  (5 < dayMarkers pre)%nat ->
  isFree r = true ->
  Z.of_nat (length pre) <= Go.maxInt ->
  exists i, eval (forEach rowCallback (pre ++ r :: post) (t, -1)) w
            = IndexOutOfRange i 5.
Proof.
  intros Hm Hr Hlen. rewrite eval_forEach_app.
  pose proof (scan_failure pre (t, -1) w) as Hfail.
  destruct (eval (forEach rowCallback pre (t, -1)) w) as [[t1 c1]|i len|] eqn:E.
  - apply scan_count in E as [-> _]; [|lia..].
    rewrite eval_forEach_cons.
    rewrite rowCallback_out_of_range by (assumption || lia). eauto.
  - destruct Hfail as [-> _]. eauto.
  - contradiction.
Qed.

Lemma grids_past_friday grids : forall pre r post t w,
  pre ++ r :: post ∈ grids ->
  (5 < dayMarkers pre)%nat ->
  isFree r = true ->
  Z.of_nat (length pre) <= Go.maxInt ->
  exists i, eval (forEach timetableCallback grids t) w = IndexOutOfRange i 5.
Proof.
  induction grids as [|g grids IH]; intros pre r post t w Hin Hm Hr Hlen.
  - by apply elem_of_nil in Hin.
  - rewrite eval_forEach_cons.
    destruct (timetableCallback_eval g t w) as (w' & ->).
    apply elem_of_cons in Hin as [<-|Hin].
    + destruct (scan_past_friday pre r post t w' Hm Hr Hlen) as [i ->]. eauto.
    + pose proof (scan_failure g (t, -1) w') as Hfail.
      destruct (eval (forEach rowCallback g (t, -1)) w') as [[t1 c1]|i len|].
      * eapply IH; eauto.
      * destruct Hfail as [-> _]. eauto.
      * contradiction.
Qed.

(** C10. The parser returns exactly when its two kinds of index access
    stay in range.  (1) A non-empty date cell of fewer than two tokens
    panics at index 1, a non-empty room or week cell of fewer than three
    at index 2, and a document with such a header cell never yields a
    record.  (2) A free row after more than five day markers panics on
    [days[currentDay]].  (3) When every non-empty header cell has its
    token and every grid has at most five day markers, the parse
    returns a record. *)
Theorem parser_indexing_preconditions c w :
  (forall h t w0,
      (String.eqb (headerDate h) "" = false ->
       (length (Go.Split (headerDate h) " ") < 2)%nat ->
       eval (headerCallback h t) w0
       = IndexOutOfRange 1 (length (Go.Split (headerDate h) " "))) /\
      (cellOk (headerDate h) 1 = true ->
       String.eqb (headerRoom h) "" = false ->
       (length (Go.Split (headerRoom h) " ") < 3)%nat ->
       eval (headerCallback h t) w0
       = IndexOutOfRange 2 (length (Go.Split (headerRoom h) " "))) /\
      (cellOk (headerDate h) 1 = true ->
       cellOk (headerRoom h) 2 = true ->
       String.eqb (headerWeek h) "" = false ->
       (length (Go.Split (headerWeek h) " ") < 3)%nat ->
       eval (headerCallback h t) w0
       = IndexOutOfRange 2 (length (Go.Split (headerWeek h) " ")))) /\
  (forallb headerOk (headerElements c) = false ->
   exists i len, eval (parseContainer c) w = IndexOutOfRange i len) /\
  (forall pre r post,
      forallb headerOk (headerElements c) = true ->
      pre ++ r :: post ∈ timetableElements c ->
      (5 < dayMarkers pre)%nat ->
      isFree r = true ->
      Z.of_nat (length pre) <= Go.maxInt ->
      exists i, eval (parseContainer c) w = IndexOutOfRange i 5) /\
  (forallb headerOk (headerElements c) = true ->
   Forall (fun g => (dayMarkers g <= 5)%nat) (timetableElements c) ->
   exists t, eval (parseContainer c) w = Ok t).
Proof.
  destruct (parseContainer_eval c w) as (w1 & w2 & Ep).
  pose proof (headers_spec (headerElements c) newTimetable w1) as Hh.
  split; [|split; [|split]].
  - intros h t w0. split; [|split].
    + apply headerCallback_date_short.
    + apply headerCallback_room_short.
    + apply headerCallback_week_short.
  - intros Hbad. rewrite Ep.
    destruct (eval (forEach headerCallback (headerElements c) newTimetable) w1)
      as [t1|i len|].
    + destruct Hh as [Hok _]. congruence.
    + eauto.
    + contradiction.
  - intros pre r post Hok Hin Hm Hr Hlen. rewrite Ep.
    destruct (eval (forEach headerCallback (headerElements c) newTimetable) w1)
      as [t1|i len|].
    + eapply grids_past_friday; eauto.
    + congruence.
    + contradiction.
  - intros Hok Hm. rewrite Ep.
    destruct (eval (forEach headerCallback (headerElements c) newTimetable) w1)
      as [t1|i len|].
    + by apply grids_total.
    + congruence.
    + contradiction.
Qed.

Lemma parser_indexing_preconditions_witness :
  forallb headerOk [sampleHeader] = true
  /\ Forall (fun g => (dayMarkers g <= 5)%nat) [mondayGrid]
  /\ exists t,
       eval (parseContainer (container sampleHeader mondayGrid)) initialWorld = Ok t.
Proof.
  assert (Hm : Forall (fun g => (dayMarkers g <= 5)%nat) [mondayGrid]).
  { apply Forall_singleton. vm_compute. lia. }
  split; [reflexivity|]. split; [exact Hm|].
  exact (proj2 (proj2 (proj2
           (parser_indexing_preconditions (container sampleHeader mondayGrid)
              initialWorld))) eq_refl Hm).
Defined.

Example short_date_panics :
  eval (parseContainer (container shortDateHeader mondayGrid)) initialWorld
  = IndexOutOfRange 1 1.
Proof. reflexivity. Qed.

Example six_days_panic :
  eval (parseContainer (container sampleHeader sixDayGrid)) initialWorld
  = IndexOutOfRange 5 5.
Proof. reflexivity. Qed.

(** ** The aggregation loop *)

Lemma addFreeRoom_table room day times : forall s,
  freeRoomTable (foldl (addFreeRoom room day) s times)
  = foldl (fun tbl time => insertRoom room day time tbl) (freeRoomTable s) times.
Proof.
  induction times as [|time times IH]; intros s; [reflexivity|].
  cbn. by rewrite IH.
Qed.

Lemma addDay_table t ds : forall s,
  freeRoomTable (foldl (addDay t) s ds)
  = foldl (fun tbl day =>
             foldl (fun tbl time => insertRoom (Room t) day time tbl) tbl
               (default [] (FreeTimes t !! day)))
      (freeRoomTable s) ds.
Proof.
  induction ds as [|d ds IH]; intros s; [reflexivity|].
  cbn. rewrite IH. unfold addDay. by rewrite addFreeRoom_table.
Qed.

Lemma aggregateStep_eval t s w :
  exists s', eval (aggregateStep t s) w = Ok s' /\
             freeRoomTable s' = tableStep (freeRoomTable s) t.
Proof.
  unfold aggregateStep, tableStep.
  destruct (Empty t), (Error t); eexists; (split; [reflexivity|]);
    by rewrite addDay_table.
Qed.

(** The loop always returns, and its table is [tableOf]. *)
Lemma forEach_aggregateStep ts : forall s0 w,
  exists s, eval (forEach aggregateStep ts s0) w = Ok s /\
            freeRoomTable s = foldl tableStep (freeRoomTable s0) ts.
Proof.
  induction ts as [|t ts IH]; intros s0 w.
  - exists s0. split; reflexivity.
  - rewrite eval_forEach_cons.
    destruct (aggregateStep_eval t s0 w) as (s1 & -> & H1).
    destruct (IH s1 (exec (aggregateStep t s0) w)) as (s & E & H).
    exists s. split; [exact E|]. rewrite H, H1. reflexivity.
Qed.

Lemma aggregate_eval ts w :
  exists s, eval (aggregate ts) w = Ok s /\ freeRoomTable s = tableOf ts.
Proof. apply forEach_aggregateStep. Qed.

(** *** Tables as a monoid *)

Lemma mergeTables_lookup a b day :
  mergeTables a b !! day
  = union_with (fun m1 m2 => Some (union_with (fun l1 l2 => Some (l1 ++ l2)) m1 m2))
      (a !! day) (b !! day).
Proof. unfold mergeTables. apply lookup_union_with. Qed.

Lemma mergeTables_empty_r a : mergeTables a ∅ = a.
Proof. unfold mergeTables. apply (right_id ∅ _). Qed.

Lemma mergeTables_empty_l a : mergeTables ∅ a = a.
Proof. unfold mergeTables. apply (left_id ∅ _). Qed.

Lemma mergeDay_assoc (m1 m2 m3 : gmap string (list string)) :
  union_with (fun l1 l2 => Some (l1 ++ l2)) m1
    (union_with (fun l1 l2 => Some (l1 ++ l2)) m2 m3)
  = union_with (fun l1 l2 => Some (l1 ++ l2))
      (union_with (fun l1 l2 => Some (l1 ++ l2)) m1 m2) m3.
Proof.
  apply map_eq. intros time. rewrite !lookup_union_with.
  destruct (m1 !! time), (m2 !! time), (m3 !! time); cbn; try reflexivity.
  by rewrite app_assoc.
Qed.

Lemma mergeTables_assoc a b c :
  mergeTables a (mergeTables b c) = mergeTables (mergeTables a b) c.
Proof.
  apply map_eq. intros day. rewrite !mergeTables_lookup.
  destruct (a !! day), (b !! day), (c !! day); cbn; try reflexivity.
  by rewrite mergeDay_assoc.
Qed.

Lemma bucket_mergeTables a b day time :
  bucket (mergeTables a b) day time = bucket a day time ++ bucket b day time.
Proof.
  unfold bucket. rewrite mergeTables_lookup.
  destruct (a !! day) as [m1|], (b !! day) as [m2|]; cbn;
    rewrite ?lookup_union_with, ?lookup_empty; cbn.
  - by destruct (m1 !! time), (m2 !! time); cbn; rewrite ?app_nil_r.
  - by rewrite app_nil_r.
  - reflexivity.
  - reflexivity.
Qed.

(** Appending a room is merging with the table of that one entry. *)
Lemma insertRoom_merge room day time tbl :
  insertRoom room day time tbl = mergeTables tbl {[ day := {[ time := [room] ]} ]}.
Proof.
  unfold insertRoom. apply map_eq. intros d. rewrite mergeTables_lookup.
  destruct (decide (day = d)) as [<-|Hne].
  - rewrite lookup_insert_eq, lookup_singleton_eq.
    destruct (tbl !! day) as [m|] eqn:E; cbn.
    + rewrite E. cbn. f_equal. apply map_eq. intros tm.
      rewrite lookup_union_with.
      destruct (decide (time = tm)) as [<-|Hne].
      * rewrite lookup_insert_eq, lookup_singleton_eq.
        by destruct (m !! time).
      * rewrite lookup_insert_ne, lookup_singleton_ne by assumption.
        by destruct (m !! tm).
    + rewrite lookup_insert_eq. cbn. rewrite lookup_empty. cbn.
      by rewrite insert_empty.
  - rewrite lookup_insert_ne, lookup_singleton_ne by assumption.
    destruct (tbl !! day) as [m|] eqn:E.
    + by destruct (tbl !! d).
    + rewrite lookup_insert_ne by assumption. by destruct (tbl !! d).
Qed.

Lemma times_fold_merge room day times : forall tbl,
  foldl (fun tbl time => insertRoom room day time tbl) tbl times
  = mergeTables tbl
      (foldl (fun tbl time => insertRoom room day time tbl) ∅ times).
Proof.
  induction times as [|time times IH] using rev_ind; intros tbl.
  - cbn. by rewrite mergeTables_empty_r.
  - rewrite !foldl_app. cbn. rewrite !insertRoom_merge, IH.
    by rewrite mergeTables_assoc.
Qed.

Lemma days_fold_merge t ds : forall tbl,
  foldl (fun tbl day =>
           foldl (fun tbl time => insertRoom (Room t) day time tbl) tbl
             (default [] (FreeTimes t !! day))) tbl ds
  = mergeTables tbl
      (foldl (fun tbl day =>
                foldl (fun tbl time => insertRoom (Room t) day time tbl) tbl
                  (default [] (FreeTimes t !! day))) ∅ ds).
Proof.
  induction ds as [|d ds IH] using rev_ind; intros tbl.
  - cbn. by rewrite mergeTables_empty_r.
  - rewrite !foldl_app. cbn.
    rewrite times_fold_merge, IH.
    rewrite (times_fold_merge _ _ _ (foldl _ ∅ ds)).
    by rewrite mergeTables_assoc.
Qed.

Lemma tableStep_merge tbl t : tableStep tbl t = mergeTables tbl (tableStep ∅ t).
Proof. apply days_fold_merge. Qed.

Lemma tables_fold_merge ts : forall tbl,
  foldl tableStep tbl ts = mergeTables tbl (tableOf ts).
Proof.
  unfold tableOf.
  induction ts as [|t ts IH] using rev_ind; intros tbl.
  - cbn. by rewrite mergeTables_empty_r.
  - rewrite !foldl_app. cbn [foldl]. rewrite tableStep_merge, IH.
    rewrite (tableStep_merge (foldl tableStep ∅ ts)).
    by rewrite mergeTables_assoc.
Qed.

Lemma tableOf_app xs ys : tableOf (xs ++ ys) = mergeTables (tableOf xs) (tableOf ys).
Proof. unfold tableOf at 1. rewrite foldl_app. apply tables_fold_merge. Qed.

(** *** Buckets *)

Lemma Contains_elem_of l x : Go.Contains l x = true <-> x ∈ l.
Proof.
  induction l as [|y l IH]; cbn.
  - split; [discriminate|]. intros H. by apply elem_of_nil in H.
  - unfold Go.Contains. fold Go.Contains.
    destruct (String.eqb_spec y x) as [->|Hne].
    + split; [intros _; left | reflexivity].
    + rewrite IH. split; [by right|].
      intros H. apply elem_of_cons in H as [?|?]; [congruence|assumption].
Qed.

Lemma Contains_not_elem_of l x : Go.Contains l x = false <-> x ∉ l.
Proof.
  rewrite <- Contains_elem_of. destruct (Go.Contains l x); split; congruence.
Qed.

Lemma bucket_empty day time : bucket ∅ day time = [].
Proof. reflexivity. Qed.

Lemma bucket_single day time room d tm :
  bucket {[ day := {[ time := [room] ]} ]} d tm
  = if String.eqb day d && String.eqb tm time then [room] else [].
Proof.
  unfold bucket.
  destruct (String.eqb_spec day d) as [<-|Hd]; cbn.
  - rewrite lookup_singleton_eq. cbn.
    destruct (String.eqb_spec tm time) as [->|Ht].
    + by rewrite lookup_singleton_eq.
    + by rewrite lookup_singleton_ne.
  - by rewrite lookup_singleton_ne.
Qed.

Lemma bucket_times_fold room day times d tm :
  bucket (foldl (fun tbl time => insertRoom room day time tbl) ∅ times) d tm
  = if String.eqb day d
    then replicate (length (List.filter (String.eqb tm) times)) room
    else [].
Proof.
  induction times as [|time times IH].
  - cbn. by destruct (String.eqb day d).
  - cbn [foldl]. rewrite times_fold_merge, bucket_mergeTables, IH.
    rewrite insertRoom_merge, mergeTables_empty_l, bucket_single. cbn.
    destruct (String.eqb day d), (String.eqb tm time); reflexivity.
Qed.

Lemma bucket_days_fold t ds d tm :
  bucket (foldl (fun tbl day =>
                   foldl (fun tbl time => insertRoom (Room t) day time tbl) tbl
                     (default [] (FreeTimes t !! day))) ∅ ds) d tm
  = concat ((fun day =>
               if String.eqb day d
               then replicate
                      (length (List.filter (String.eqb tm)
                                 (default [] (FreeTimes t !! day))))
                      (Room t)
               else []) <$> ds).
Proof.
  induction ds as [|day ds IH].
  - reflexivity.
  - cbn [foldl]. rewrite days_fold_merge, bucket_mergeTables, IH.
    by rewrite bucket_times_fold.
Qed.

Lemma pick_day (X : string -> list string) ds d :
  NoDup ds ->
  concat ((fun day => if String.eqb day d then X day else []) <$> ds)
  = if Go.Contains ds d then X d else [].
Proof.
  induction ds as [|day ds IH]; intros Hnd; [reflexivity|].
  apply NoDup_cons in Hnd as [Hnotin Hnd]. cbn.
  unfold Go.Contains. fold Go.Contains. rewrite IH by assumption.
  destruct (String.eqb_spec day d) as [->|Hne]; [|reflexivity].
  apply Contains_not_elem_of in Hnotin. rewrite Hnotin. apply app_nil_r.
Qed.

Lemma NoDup_days : NoDup days.
Proof. apply (bool_decide_unpack _). vm_compute. exact I. Qed.

Lemma bucket_tableStep t day time :
  bucket (tableStep ∅ t) day time = roomsAt day time t.
Proof.
  unfold tableStep, roomsAt. rewrite bucket_days_fold.
  apply (pick_day (fun d => replicate
                     (length (List.filter (String.eqb time)
                                (default [] (FreeTimes t !! d)))) (Room t))).
  apply NoDup_days.
Qed.

(** A bucket holds the rooms of the records in the order of the list. *)
Lemma bucket_tableOf ts day time :
  bucket (tableOf ts) day time = concat (roomsAt day time <$> ts).
Proof.
  induction ts as [|t ts IH].
  - reflexivity.
  - change (t :: ts) with ([t] ++ ts). rewrite tableOf_app, bucket_mergeTables, IH.
    unfold tableOf at 1. cbn [foldl]. rewrite bucket_tableStep.
    reflexivity.
Qed.

(** The lists the table stores are its buckets. *)
Lemma bucket_lookup (tbl : gmap string (gmap string (list string))) day m time l :
  tbl !! day = Some m -> m !! time = Some l -> bucket tbl day time = l.
Proof. unfold bucket. intros Hd Ht. rewrite Hd. cbn. by rewrite Ht. Qed.

(** *** Keys *)

Lemma mergeTables_keys a b k :
  is_Some (mergeTables a b !! k) -> is_Some (a !! k) \/ is_Some (b !! k).
Proof.
  rewrite mergeTables_lookup.
  destruct (a !! k), (b !! k); cbn; intros [x Hx]; eauto; discriminate.
Qed.

Lemma times_fold_keys room day times k :
  is_Some (foldl (fun tbl time => insertRoom room day time tbl) ∅ times !! k) ->
  k = day.
Proof.
  induction times as [|time times IH].
  - cbn. rewrite lookup_empty. by intros [? ?].
  - cbn [foldl]. rewrite times_fold_merge. intros H.
    apply mergeTables_keys in H as [H|H]; [|by apply IH].
    rewrite insertRoom_merge, mergeTables_empty_l in H.
    apply lookup_singleton_is_Some in H. congruence.
Qed.

Lemma days_fold_keys t ds k :
  is_Some (foldl (fun tbl day =>
                    foldl (fun tbl time => insertRoom (Room t) day time tbl) tbl
                      (default [] (FreeTimes t !! day))) ∅ ds !! k) ->
  k ∈ ds.
Proof.
  induction ds as [|day ds IH].
  - cbn. rewrite lookup_empty. by intros [? ?].
  - cbn [foldl]. rewrite days_fold_merge. intros H.
    apply mergeTables_keys in H as [H|H].
    + apply times_fold_keys in H. subst. left.
    + right. by apply IH.
Qed.

Lemma tableOf_keys ts k : is_Some (tableOf ts !! k) -> k ∈ days.
Proof.
  induction ts as [|t ts IH].
  - cbn. rewrite lookup_empty. by intros [? ?].
  - change (t :: ts) with ([t] ++ ts). rewrite tableOf_app. intros H.
    apply mergeTables_keys in H as [H|H]; [|by apply IH].
    unfold tableOf in H. cbn [foldl] in H. by apply days_fold_keys in H.
Qed.

(** *** Rooms in a bucket *)

Lemma filter_eqb_NoDup x l :
  NoDup l -> (length (List.filter (String.eqb x) l) <= 1)%nat.
Proof.
  induction l as [|y l IH]; intros Hnd; [cbn; lia|].
  apply NoDup_cons in Hnd as [Hnotin Hnd]. cbn.
  destruct (String.eqb_spec x y) as [->|Hne]; [|by apply IH].
  assert (List.filter (String.eqb y) l = []) as ->; [|cbn; lia].
  clear -Hnotin. induction l as [|z l IH]; [reflexivity|].
  apply not_elem_of_cons in Hnotin as [Hne Hnotin]. cbn.
  destruct (String.eqb_spec y z); [congruence | by apply IH].
Qed.

Lemma roomsAt_room day time t x : x ∈ roomsAt day time t -> x = Room t.
Proof.
  unfold roomsAt. destruct (Go.Contains days day).
  - apply elem_of_replicate_inv.
  - intros H. by apply elem_of_nil in H.
Qed.

Lemma roomsAt_once day time t :
  NoDup (default [] (FreeTimes t !! day)) ->
  roomsAt day time t = [] \/ roomsAt day time t = [Room t].
Proof.
  intros Hnd. unfold roomsAt. destruct (Go.Contains days day); [|by left].
  pose proof (filter_eqb_NoDup time _ Hnd) as Hle.
  destruct (length _) as [|[|n]]; [by left | by right | lia].
Qed.

Lemma concat_roomsAt_rooms day time ts x :
  x ∈ concat (roomsAt day time <$> ts) -> x ∈ Room <$> ts.
Proof.
  induction ts as [|t ts IH]; cbn; [done|].
  intros H. apply elem_of_app in H as [H|H].
  - apply roomsAt_room in H. subst. left.
  - right. by apply IH.
Qed.

Lemma concat_roomsAt_NoDup day time ts :
  NoDup (Room <$> ts) ->
  (forall t, t ∈ ts -> NoDup (default [] (FreeTimes t !! day))) ->
  NoDup (concat (roomsAt day time <$> ts)).
Proof.
  induction ts as [|t ts IH]; intros Hrooms Htimes; cbn; [constructor|].
  cbn in Hrooms. apply NoDup_cons in Hrooms as [Hnotin Hrooms].
  assert (Hrest : NoDup (concat (roomsAt day time <$> ts))).
  { apply IH; [assumption|]. intros t' Ht'. apply Htimes. by right. }
  destruct (roomsAt_once day time t) as [-> | ->].
  - apply Htimes. left.
  - exact Hrest.
  - cbn. apply NoDup_cons. split; [|exact Hrest].
    intros Hin. apply Hnotin. by apply concat_roomsAt_rooms in Hin.
Qed.

(** ** The aggregate table *)

(** C3 (amended). When the records carry pairwise distinct room
    identifiers and no record lists a time twice under a day, no list
    stored in [freeRoomTable] holds a room twice. *)
Theorem bucket_rooms_distinct ts w :
  NoDup (Room <$> ts) ->
  (forall t day, t ∈ ts -> NoDup (default [] (FreeTimes t !! day))) ->
  exists s,
    eval (aggregate ts) w = Ok s /\
    forall day m time l,
      freeRoomTable s !! day = Some m -> m !! time = Some l -> NoDup l.
Proof.
  intros Hrooms Htimes.
  destruct (aggregate_eval ts w) as (s & E & Htbl).
  exists s. split; [exact E|]. intros day m time l Hd Ht.
  rewrite <- (bucket_lookup _ _ _ _ _ Hd Ht), Htbl, bucket_tableOf.
  apply concat_roomsAt_NoDup; [assumption|].
  intros t Hin. by apply Htimes.
Qed.

Lemma bucket_rooms_distinct_witness :
  NoDup (Room <$> [freeAt "IT101" "Monday" "09:15"; freeAt "IT102" "Monday" "09:15"])
  /\ (forall t day,
         t ∈ [freeAt "IT101" "Monday" "09:15"; freeAt "IT102" "Monday" "09:15"] ->
         NoDup (default [] (FreeTimes t !! day)))
  /\ exists s,
       eval (aggregate [freeAt "IT101" "Monday" "09:15";
                        freeAt "IT102" "Monday" "09:15"]) initialWorld = Ok s /\
       forall day m time l,
         freeRoomTable s !! day = Some m -> m !! time = Some l -> NoDup l.
Proof.
  assert (H1 : NoDup (Room <$> [freeAt "IT101" "Monday" "09:15";
                                freeAt "IT102" "Monday" "09:15"])).
  { apply (bool_decide_unpack _). vm_compute. exact I. }
  assert (H2 : forall t day,
             t ∈ [freeAt "IT101" "Monday" "09:15"; freeAt "IT102" "Monday" "09:15"] ->
             NoDup (default [] (FreeTimes t !! day))).
  { intros t day Hin.
    assert (Hone : forall room, NoDup (default [] (FreeTimes (freeAt room "Monday" "09:15") !! day))).
    { intros room. cbn. destruct (decide (day = "Monday")) as [->|Hne].
      - rewrite lookup_singleton_eq. cbn. apply NoDup_singleton.
      - rewrite lookup_singleton_ne by congruence. constructor. }
    apply elem_of_cons in Hin as [->|Hin]; [apply Hone|].
    apply elem_of_cons in Hin as [->|Hin]; [apply Hone|].
    by apply elem_of_nil in Hin. }
  split; [exact H1|]. split; [exact H2|].
  exact (bucket_rooms_distinct _ initialWorld H1 H2).
Defined.

(** Two free rows with the same time under one day put the room twice
    into the bucket: C3 does not hold of the records the parser gives,
    even with one record per room. *)
Lemma repeated_time_repeats_room :
  ~ (forall cs ts w s day time,
        Forall2 (fun c t => eval (parseContainer c) w = Ok t) cs ts ->
        NoDup (Room <$> ts) ->
        eval (aggregate ts) w = Ok s ->
        NoDup (bucket (freeRoomTable s) day time)).
Proof.
  intros H.
  set (t0 := {| Error := false; Empty := true; Date := "12/02/2024";
                Room := "IT101"; Week := "23";
                FreeTimes := {[ "Monday" := ["09:15"; "09:15"] ]} |}).
  destruct (aggregate_eval [t0] initialWorld) as (s & E & Htbl).
  specialize (H [container sampleHeader repeatedTimeGrid] [t0]
                initialWorld s "Monday" "09:15").
  rewrite Htbl in H.
  change (bucket (tableOf [t0]) "Monday" "09:15") with ["IT101"; "IT101"] in H.
  assert (Hdup : ~ NoDup ["IT101"; "IT101"]).
  { intros Hnd. apply NoDup_cons in Hnd as [Hnotin _]. apply Hnotin. left. }
  apply Hdup. apply H.
  - repeat constructor.
  - apply NoDup_singleton.
  - exact E.
Qed.

(** C4. The keys of the [FreeTimes] of a parsed record, and the keys of
    the table the aggregation loop builds from any list of records, are
    among the five names of [days]. *)
Theorem day_keys_are_weekdays :
  (forall c w t day,
      eval (parseContainer c) w = Ok t ->
      is_Some (FreeTimes t !! day) ->
      day ∈ days) /\
  (forall ts w,
      exists s, eval (aggregate ts) w = Ok s /\
                forall day, is_Some (freeRoomTable s !! day) -> day ∈ days).
Proof.
  split.
  - intros c w t day E Hk.
    apply parseContainer_Ok in E as (t1 & w2 & E & _ & _ & _ & Hf & _).
    apply grids_stable in E as (_ & _ & _ & _ & _ & Hkeys). cbn in Hkeys.
    destruct (Hkeys day Hk) as [Hold|Hin]; [|exact Hin].
    rewrite Hf, lookup_empty in Hold. by destruct Hold.
  - intros ts w. destruct (aggregate_eval ts w) as (s & E & Htbl).
    exists s. split; [exact E|]. intros day. rewrite Htbl. apply tableOf_keys.
Qed.

Lemma day_keys_are_weekdays_witness :
  eval (parseContainer (container sampleHeader mondayGrid)) initialWorld
  = Ok {| Error := false; Empty := false; Date := "12/02/2024"; Room := "IT101";
          Week := "23"; FreeTimes := {[ "Monday" := ["09:15"; "11:15"] ]} |}
  /\ is_Some (({[ "Monday" := ["09:15"; "11:15"] ]} : gmap string (list string))
              !! "Monday")
  /\ "Monday" ∈ days.
Proof.
  assert (Hs : is_Some (({[ "Monday" := ["09:15"; "11:15"] ]}
                         : gmap string (list string)) !! "Monday"))
    by (eexists; reflexivity).
  split; [reflexivity|]. split; [exact Hs|].
  exact (proj1 day_keys_are_weekdays (container sampleHeader mondayGrid)
           initialWorld _ "Monday" eq_refl Hs).
Defined.

(** C7. Aggregating [xs ++ ys] gives the table of [xs] merged with the
    table of [ys], the buckets of the second appended to those of the
    first (whatever rooms the lists hold); so a bucket lists the rooms
    in the order of the records, and two records for IT101 and IT102,
    both free on Monday at 09:15, give [IT101, IT102]. *)
Theorem aggregation_decomposes xs ys w :
  exists sx sy s,
    eval (aggregate xs) w = Ok sx /\
    eval (aggregate ys) w = Ok sy /\
    eval (aggregate (xs ++ ys)) w = Ok s /\
    freeRoomTable s = mergeTables (freeRoomTable sx) (freeRoomTable sy) /\
    (forall day time,
        bucket (freeRoomTable s) day time
        = bucket (freeRoomTable sx) day time ++ bucket (freeRoomTable sy) day time) /\
    (forall day time,
        bucket (freeRoomTable s) day time
        = concat (roomsAt day time <$> (xs ++ ys))) /\
    (exists s2,
        eval (aggregate [freeAt "IT101" "Monday" "09:15";
                         freeAt "IT102" "Monday" "09:15"]) w = Ok s2 /\
        freeRoomTable s2 = {[ "Monday" := {[ "09:15" := ["IT101"; "IT102"] ]} ]}).
Proof.
  destruct (aggregate_eval xs w) as (sx & Ex & Hx).
  destruct (aggregate_eval ys w) as (sy & Ey & Hy).
  destruct (aggregate_eval (xs ++ ys) w) as (s & E & H).
  exists sx, sy, s. repeat (split; [assumption|]).
  assert (Hmerge : freeRoomTable s = mergeTables (freeRoomTable sx) (freeRoomTable sy))
    by (rewrite H, Hx, Hy; apply tableOf_app).
  split; [exact Hmerge|]. split; [|split].
  - intros day time. rewrite Hmerge. apply bucket_mergeTables.
  - intros day time. rewrite H. apply bucket_tableOf.
  - destruct (aggregate_eval [freeAt "IT101" "Monday" "09:15";
                              freeAt "IT102" "Monday" "09:15"] w)
      as (s2 & E2 & H2).
    exists s2. split; [exact E2|]. rewrite H2. reflexivity.
Qed.

(** ** The form and the requests *)

Lemma exec_bind_invariant {A B} (P : World -> Prop) (m : M A) (f : A -> M B) w :
  P (exec m w) ->
  (forall a w', P w' -> P (exec (f a) w')) ->
  P (exec (m ≫= f) w).
Proof.
  intros Hm Hf. rewrite exec_bind. destruct (eval m w); auto.
Qed.

Lemma forEach_exec_invariant {A B} (f : B -> A -> M A) (P : World -> Prop) l :
  (forall x a w, P w -> P (exec (f x a) w)) ->
  forall a w, P w -> P (exec (forEach f l a) w).
Proof.
  intros Hf. induction l as [|x l IH]; intros a w Hw; [exact Hw|].
  rewrite exec_forEach_cons. destruct (eval (f x a) w); auto.
Qed.


Lemma keepsForm_slog l m : keepsForm (slog l m).
Proof. intros w. split; reflexivity. Qed.

Lemma keepsForm_osExit {A} code : keepsForm (osExit code : M A).
Proof. intros w. split; reflexivity. Qed.


Lemma keepsForm_bind {A B} (m : M A) (f : A -> M B) :
  keepsForm m -> (forall a, keepsForm (f a)) -> keepsForm (m ≫= f).
Proof.
  intros Hm Hf w. rewrite exec_bind. destruct (eval m w) as [a| |].
  - destruct (Hf a (exec m w)) as [-> ->]. apply Hm.
  - apply Hm.
  - apply Hm.
Qed.





Lemma keepsForm_roomOnErrorExit e : keepsForm (roomOnErrorExit e).
Proof.
  unfold roomOnErrorExit.
  repeat (apply keepsForm_bind; [apply keepsForm_slog | intros ?]).
  apply keepsForm_osExit.
Qed.









Lemma Values_Add_other k k' v (q : gmap string (list string)) :
  k <> k' -> Values_Add k v q !! k' = q !! k'.
Proof. intros Hne. unfold Values_Add. by rewrite lookup_insert_ne. Qed.


Lemma addCboWeeks_eval weekOffset week w :
  eval (addCboWeeks weekOffset week) w = Ok tt.
Proof. unfold addCboWeeks. by destruct (Go.Atoi week). Qed.



(** ** The week code and the failing room *)







(** The program as it is built asks for week 34 when 34 is selected; built
    with the offset of the comment, -1, it asks for week 33. *)
Example week_34 :
  Values_Get "CboWeeks" <$>
    requests (exec (scrape Main.weekOffset matchIT1xx sampleLanding sampleNetwork
                      initOnError roomOnError) initialWorld)
  = ["34"; "34"].
Proof. reflexivity. Qed.

Example week_34_minus_1 :
  Values_Get "CboWeeks" <$>
    requests (exec (scrape (-1) matchIT1xx sampleLanding sampleNetwork
                      initOnError roomOnError) initialWorld)
  = ["33"; "33"].
Proof. reflexivity. Qed.

(** A week that does not parse is asked for as it stands. *)
Example week_unparsable :
  Values_Get "CboWeeks" <$>
    requests (exec (bodyCallback Main.weekOffset matchIT1xx sampleNetwork roomOnError
                      {| hiddenInputs := []; selectedWeek := "wk34";
                         roomOptions := ["IT101"] |} tt) initialWorld)
  = ["wk34"].
Proof. reflexivity. Qed.

(** The sum is taken in [int].  An offset other than that of the program
    can take it past the ends of the range, where it wraps. *)
Remark week_sum_wraps :
  ~ (forall weekOffset week weekInt w,
        roomPostQueryParams w !! "CboWeeks" = None ->
        Go.Atoi week = inl weekInt ->
        Values_Get "CboWeeks"
          (roomPostQueryParams (exec (addCboWeeks weekOffset week) w))
        = Go.Itoa (weekInt + weekOffset)).
Proof.
  intros H.
  specialize (H (-1) "-9223372036854775808" Go.minInt initialWorld eq_refl eq_refl).
  vm_compute in H. discriminate H.
Qed.

(** C8 (amended). A matching room whose request fails: with the
    [OnError] of [room_scrape.go] the failure is logged, the request is
    made once, no record is added, and the loop goes on with the rooms
    that follow; with the [OnError] that ends in [os.Exit(1)] the
    failure is logged and the run ends there with status 1. *)
Theorem room_failure_is_not_fatal roomRegexp network roomName rest e w :
  roomRegexp roomName = true ->
  network (length (requests w))
    (Values_Set "CboLocation" roomName (roomPostQueryParams w)) = Failed e ->
  (eval (roomOptionCallback roomRegexp network roomOnError roomName tt) w = Ok tt /\
   timetableList (exec (roomOptionCallback roomRegexp network roomOnError roomName tt) w)
   = timetableList w /\
   requests (exec (roomOptionCallback roomRegexp network roomOnError roomName tt) w)
   = requests w ++ [Values_Set "CboLocation" roomName (roomPostQueryParams w)] /\
   log (exec (roomOptionCallback roomRegexp network roomOnError roomName tt) w)
   = log w ++
     [ {| level := LevelDebug; msg := Text "Room found" |};
       {| level := LevelInfo; msg := Text "Requesting room" |};
       {| level := LevelError; msg := ErrorOf e |};
       {| level := LevelError; msg := Text "Requesting room failed" |};
       {| level := LevelError; msg := ErrorOf e |};
       {| level := LevelError; msg := Text "Room POST request failed" |} ] /\
   eval (forEach (roomOptionCallback roomRegexp network roomOnError)
           (roomName :: rest) tt) w
   = eval (forEach (roomOptionCallback roomRegexp network roomOnError) rest tt)
       (exec (roomOptionCallback roomRegexp network roomOnError roomName tt) w)) /\
  (eval (forEach (roomOptionCallback roomRegexp network roomOnErrorExit)
           (roomName :: rest) tt) w = Exit 1 /\
   timetableList (exec (forEach (roomOptionCallback roomRegexp network roomOnErrorExit)
                          (roomName :: rest) tt) w)
   = timetableList w /\
   requests (exec (forEach (roomOptionCallback roomRegexp network roomOnErrorExit)
                     (roomName :: rest) tt) w)
   = requests w ++ [Values_Set "CboLocation" roomName (roomPostQueryParams w)] /\
   log (exec (forEach (roomOptionCallback roomRegexp network roomOnErrorExit)
                (roomName :: rest) tt) w)
   = log w ++
     [ {| level := LevelDebug; msg := Text "Room found" |};
       {| level := LevelInfo; msg := Text "Requesting room" |};
       {| level := LevelError; msg := ErrorOf e |};
       {| level := LevelError; msg := Text "Requesting room failed" |} ]).
Proof.
  intros Hmatch Hfail.
  assert (Hok : roomOptionCallback roomRegexp network roomOnError roomName tt w
                = (exec (roomOptionCallback roomRegexp network roomOnError roomName tt) w,
                   Ok tt)
                /\ exec (roomOptionCallback roomRegexp network roomOnError roomName tt) w
                   = {| log := log w ++
                          [ {| level := LevelDebug; msg := Text "Room found" |};
                            {| level := LevelInfo; msg := Text "Requesting room" |};
                            {| level := LevelError; msg := ErrorOf e |};
                            {| level := LevelError; msg := Text "Requesting room failed" |};
                            {| level := LevelError; msg := ErrorOf e |};
                            {| level := LevelError;
                               msg := Text "Room POST request failed" |} ];
                        timetableList := timetableList w;
                        roomPostQueryParams :=
                          Values_Set "CboLocation" roomName (roomPostQueryParams w);
                        requests :=
                          requests w ++
                          [Values_Set "CboLocation" roomName (roomPostQueryParams w)];
                        handed :=
                          handed w ++
                          [ {| Go.content :=
                                 Values_Set "CboLocation" roomName
                                   (roomPostQueryParams w);
                               Go.atEnd := true |} ] |}).
  { unfold exec, roomOptionCallback, roomRequest, roomOnRequest, roomOnError.
    rewrite Hmatch.
    unfold mbind, M_bind, mret, M_ret, bind, ret, slog, paramsSet, getParams,
      noteRequest, handToClient, setLog, setParams, setRequests, setHanded.
    simpl. rewrite Hfail. simpl.
    rewrite <- !app_assoc. split; reflexivity. }
  assert (Hexit : roomOptionCallback roomRegexp network roomOnErrorExit roomName tt w
                  = ({| log := log w ++
                          [ {| level := LevelDebug; msg := Text "Room found" |};
                            {| level := LevelInfo; msg := Text "Requesting room" |};
                            {| level := LevelError; msg := ErrorOf e |};
                            {| level := LevelError;
                               msg := Text "Requesting room failed" |} ];
                        timetableList := timetableList w;
                        roomPostQueryParams :=
                          Values_Set "CboLocation" roomName (roomPostQueryParams w);
                        requests :=
                          requests w ++
                          [Values_Set "CboLocation" roomName (roomPostQueryParams w)];
                        handed :=
                          handed w ++
                          [ {| Go.content :=
                                 Values_Set "CboLocation" roomName
                                   (roomPostQueryParams w);
                               Go.atEnd := true |} ] |},
                     Exit 1)).
  { unfold roomOptionCallback, roomRequest, roomOnRequest, roomOnErrorExit.
    rewrite Hmatch.
    unfold mbind, M_bind, mret, M_ret, bind, ret, slog, paramsSet, getParams,
      noteRequest, handToClient, osExit, setLog, setParams, setRequests, setHanded.
    simpl. rewrite Hfail. simpl.
    rewrite <- !app_assoc. reflexivity. }
  destruct Hok as [Hrun Hw']. split.
  - split; [unfold eval; by rewrite Hrun|].
    rewrite Hw'. repeat split.
    rewrite eval_forEach_cons. unfold eval at 1. rewrite Hrun. cbn. by rewrite Hw'.
  - rewrite eval_forEach_cons, exec_forEach_cons. unfold eval, exec.
    rewrite Hexit. repeat split.
Qed.

Lemma room_failure_is_not_fatal_witness :
  matchIT1xx "IT101" = true
  /\ sampleNetwork (length (requests initialWorld))
       (Values_Set "CboLocation" "IT101" initialParams)
     = Failed (RequestError "context deadline exceeded")
  /\ eval (roomOptionCallback matchIT1xx sampleNetwork roomOnError "IT101" tt)
       initialWorld = Ok tt.
Proof.
  split; [reflexivity|]. split; [reflexivity|].
  exact (proj1 (proj1 (room_failure_is_not_fatal matchIT1xx sampleNetwork "IT101"
                         ["IT102"] _ initialWorld eq_refl eq_refl))).
Defined.

(** With the [OnError] that exits, a failing room request ends the run:
    C8 does not hold of that revision. *)
Lemma room_failure_exits :
  ~ (forall roomRegexp network roomName e w,
        roomRegexp roomName = true ->
        network (length (requests w))
          (Values_Set "CboLocation" roomName (roomPostQueryParams w)) = Failed e ->
        eval (roomOptionCallback roomRegexp network roomOnErrorExit roomName tt) w
        = Ok tt).
Proof.
  intros H.
  specialize (H matchIT1xx sampleNetwork "IT101" _ initialWorld eq_refl eq_refl).
  discriminate H.
Qed.

(** The sample run: the request for IT101 fails and leaves no record,
    the request for IT102 is answered with a page and leaves one. *)
Example failing_room_is_skipped :
  Room <$> timetableList
             (exec (scrape 0 matchIT1xx sampleLanding sampleNetwork
                      initOnError roomOnError) initialWorld)
  = ["IT102"]
  /\ length (requests (exec (scrape 0 matchIT1xx sampleLanding sampleNetwork
                               initOnError roomOnError) initialWorld)) = 2%nat.
Proof. split; reflexivity. Qed.

(** With the pattern of [room_scrape.go] only IT101 is requested; its
    failure leaves the list empty and the run reaches the summary. *)
Example only_room_fails :
  eval (scrape 0 matchIT101 sampleLanding sampleNetwork initOnError roomOnError)
    initialWorld
  = Ok newSummary.
Proof. reflexivity. Qed.

(** With the [OnError] that exits, the sample run ends at IT101. *)
Example failing_room_ends_the_run :
  eval (scrape 0 matchIT1xx sampleLanding sampleNetwork
          initOnErrorExit roomOnErrorExit) initialWorld = Exit 1
  /\ length (requests (exec (scrape 0 matchIT1xx sampleLanding sampleNetwork
                               initOnErrorExit roomOnErrorExit) initialWorld)) = 1%nat.
Proof. split; reflexivity. Qed.

(** * Further properties *)

(** ** [SliceIndex] and [getTimeStamp] *)

Lemma SliceIndex_from_spec predicate rounds : forall i,
  0 <= i -> i + Z.of_nat rounds <= Go.maxInt ->
  (SliceIndex_from rounds i predicate = -1 /\
   forall j, i <= j < i + Z.of_nat rounds -> predicate j = false) \/
  (i <= SliceIndex_from rounds i predicate < i + Z.of_nat rounds /\
   predicate (SliceIndex_from rounds i predicate) = true /\
   forall j, i <= j < SliceIndex_from rounds i predicate -> predicate j = false).
Proof.
  induction rounds as [|rounds IH]; intros i Hi Hmax.
  - left. split; [reflexivity|]. intros j Hj. lia.
  - cbn [SliceIndex_from]. destruct (predicate i) eqn:Ep.
    + right. split; [lia|]. split; [exact Ep|]. intros j Hj. lia.
    + assert (Hmax' : Go.maxInt = 2 ^ 63 - 1) by reflexivity.
      rewrite incr_no_wrap by (unfold Go.minInt; lia).
      destruct (IH (i + 1)) as [[E Hall]|(Hr & Hp & Hall)]; [lia..| |].
      * left. split; [exact E|]. intros j Hj.
        destruct (decide (j = i)) as [->|Hne]; [exact Ep | apply Hall; lia].
      * right. split; [lia|]. split; [exact Hp|]. intros j Hj.
        destruct (decide (j = i)) as [->|Hne]; [exact Ep | apply Hall; lia].
Qed.

(** X1. [SliceIndex] returns -1 exactly when the predicate holds of no
    index below [limit]; otherwise it returns the least index of which
    the predicate holds. *)
Theorem SliceIndex_least limit predicate :
  limit <= Go.maxInt ->
  (SliceIndex limit predicate = -1 /\
   forall j, 0 <= j < limit -> predicate j = false) \/
  (0 <= SliceIndex limit predicate < limit /\
   predicate (SliceIndex limit predicate) = true /\
   forall j, 0 <= j < SliceIndex limit predicate -> predicate j = false).
Proof.
  intros Hmax. unfold SliceIndex.
  assert (Hmax' : Go.maxInt = 2 ^ 63 - 1) by reflexivity.
  destruct (SliceIndex_from_spec predicate (Z.to_nat limit) 0)
    as [[E Hall]|(Hr & Hp & Hall)]; [lia..| |].
  - left. split; [exact E|]. intros j Hj. apply Hall. lia.
  - right. split; [lia|]. split; [exact Hp|]. exact Hall.
Qed.

Lemma SliceIndex_least_witness :
  9 <= Go.maxInt
  /\ ((SliceIndex 9 (timeIs "11:15") = -1 /\
       forall j, 0 <= j < 9 -> timeIs "11:15" j = false) \/
      (0 <= SliceIndex 9 (timeIs "11:15") < 9 /\
       timeIs "11:15" (SliceIndex 9 (timeIs "11:15")) = true /\
       forall j, 0 <= j < SliceIndex 9 (timeIs "11:15") ->
                 timeIs "11:15" j = false)).
Proof.
  assert (H : 9 <= Go.maxInt) by discriminate.
  split; [exact H|]. exact (SliceIndex_least 9 (timeIs "11:15") H).
Defined.

Lemma ReplaceByte_get s old new i :
  String.get i (GoStrings.ReplaceByte s old new)
  = (fun c => if Ascii.eqb c old then new else c) <$> String.get i s.
Proof.
  revert i. induction s as [|c s IH]; intros i; [reflexivity|].
  destruct i as [|i]; [reflexivity|]. cbn. apply IH.
Qed.

Lemma ReplaceByte_length s old new :
  String.length (GoStrings.ReplaceByte s old new) = String.length s.
Proof. induction s as [|c s IH]; cbn; congruence. Qed.

(** X2. [getTimeStamp] keeps the length of the time stamp and changes
    exactly its colons and hyphens, each into an underscore; so the
    result holds neither. *)
Theorem getTimeStamp_spec ts :
  String.length (getTimeStamp ts) = String.length ts /\
  (forall i,
      String.get i (getTimeStamp ts)
      = (fun c => if Ascii.eqb c ":" || Ascii.eqb c "-" then "_"%char else c)
          <$> String.get i ts) /\
  (forall i c,
      String.get i (getTimeStamp ts) = Some c -> c <> ":"%char /\ c <> "-"%char).
Proof.
  assert (Hget : forall i,
             String.get i (getTimeStamp ts)
             = (fun c => if Ascii.eqb c ":" || Ascii.eqb c "-" then "_"%char else c)
                 <$> String.get i ts).
  { intros i. unfold getTimeStamp. rewrite !ReplaceByte_get.
    destruct (String.get i ts) as [c|]; [|reflexivity]. cbn. f_equal.
    destruct (Ascii.eqb_spec c ":") as [->|Hc]; [reflexivity|]. cbn.
    reflexivity. }
  split; [|split].
  - unfold getTimeStamp. by rewrite !ReplaceByte_length.
  - exact Hget.
  - intros i c. rewrite Hget. destruct (String.get i ts) as [c0|]; [|discriminate].
    cbn. intros [= <-].
    destruct (Ascii.eqb_spec c0 ":") as [->|Hc]; cbn; [split; discriminate|].
    destruct (Ascii.eqb_spec c0 "-") as [->|Hd]; cbn; [split; discriminate|].
    split; assumption.
Qed.

(** ** The parsed record, field by field *)

Lemma days_lookup_inj i j day :
  days !! i = Some day -> days !! j = Some day -> i = j.
Proof. intros Hi Hj. eapply NoDup_lookup; eauto. apply NoDup_days. Qed.

Lemma appendFreeTime_lookup day time t day' :
  default [] (FreeTimes (appendFreeTime day time t) !! day')
  = default [] (FreeTimes t !! day') ++ (if decide (day = day') then [time] else []).
Proof.
  cbn. destruct (decide (day = day')) as [<-|Hne].
  - by rewrite lookup_insert_eq.
  - rewrite lookup_insert_ne by assumption. by rewrite app_nil_r.
Qed.

(** The list under a day grows by the time cells that [slotsAt]
    collects for the place of that day. *)
Lemma scan_slots rows : forall t c w t' c' k day,
  -1 <= c -> c + Z.of_nat (length rows) <= Go.maxInt ->
  eval (forEach rowCallback rows (t, c)) w = Ok (t', c') ->
  days !! k = Some day ->
  default [] (FreeTimes t' !! day)
  = default [] (FreeTimes t !! day) ++ slotsAt (Z.of_nat k) c rows.
Proof.
  induction rows as [|r rows IH]; intros t c w t' c' k day Hc Hlen E Hday.
  - cbn in E. injection E as <- <-. cbn. by rewrite app_nil_r.
  - rewrite eval_forEach_cons in E. cbn [length] in Hlen.
    assert (Hmax : Go.maxInt = 2 ^ 63 - 1) by reflexivity.
    cbn [slotsAt].
    destruct (row_kinds r) as [(Km & Ks & Kf)|[(Km & Ks & Kf)|(Km & Ks & Kf)]];
      rewrite Km, ?Kf.
    + rewrite rowCallback_marker in E by assumption.
      rewrite incr_no_wrap in E by (unfold Go.minInt; lia).
      eapply IH in E; [exact E|lia|lia|exact Hday].
    + rewrite rowCallback_subject in E by assumption.
      eapply IH in E; [|lia|lia|exact Hday]. exact E.
    + destruct (decide (c = -1)) as [->|Hne].
      * rewrite rowCallback_sentinel in E by assumption.
        eapply IH in E; [|lia|lia|exact Hday]. rewrite E.
        change (FreeTimes (setError t)) with (FreeTimes t).
        destruct (Z.eqb_spec (-1) (Z.of_nat k)) as [?|_]; [lia|reflexivity].
      * destruct (decide (0 <= c < 5)) as [Hr|Hr].
        -- destruct (days_lookup c Hr) as (day' & Hd' & _).
           rewrite (rowCallback_free _ _ _ day') in E by (assumption || lia).
           eapply IH in E; [|lia|lia|exact Hday]. rewrite E.
           rewrite appendFreeTime_lookup, <- app_assoc. f_equal. f_equal.
           destruct (decide (day' = day)) as [->|Hdiff].
           ++ assert (Z.to_nat c = k) by (eapply days_lookup_inj; eauto).
              destruct (Z.eqb_spec c (Z.of_nat k)) as [_|?]; [reflexivity|lia].
           ++ destruct (Z.eqb_spec c (Z.of_nat k)) as [Heq|_]; [|reflexivity].
              subst c. rewrite Nat2Z.id in Hd'. congruence.
        -- rewrite rowCallback_out_of_range in E by (assumption || lia).
           discriminate.
Qed.

Lemma grids_slots grids : forall t w t' k day,
  Forall (fun g : list RowElement => Z.of_nat (length g) <= Go.maxInt) grids ->
  eval (forEach timetableCallback grids t) w = Ok t' ->
  days !! k = Some day ->
  default [] (FreeTimes t' !! day)
  = default [] (FreeTimes t !! day) ++ concat (slotsAt (Z.of_nat k) (-1) <$> grids).
Proof.
  induction grids as [|g grids IH]; intros t w t' k day Hlen E Hday.
  - cbn in E. injection E as <-. cbn. by rewrite app_nil_r.
  - rewrite eval_forEach_cons in E.
    destruct (timetableCallback_eval g t w) as (w' & Ew). rewrite Ew in E.
    destruct (eval (forEach rowCallback g (t, -1)) w') as [[t1 c1]| |] eqn:Es;
      try discriminate.
    apply Forall_cons in Hlen as [Hg Hlen].
    eapply scan_slots in Es; [|lia|lia|exact Hday].
    eapply IH in E; [|assumption|exact Hday].
    cbn in *. rewrite E, Es. by rewrite app_assoc.
Qed.

(** X3. The list a parsed record holds under the weekday of place [k]
    is, in document order, the time cells of the free rows met while
    the cursor stood at [k]: those between the day marker number [k+1]
    of a grid and the next. *)
Theorem day_lists_follow_markers c w t k day :
  eval (parseContainer c) w = Ok t ->
  Forall (fun g : list RowElement => Z.of_nat (length g) <= Go.maxInt)
    (timetableElements c) ->
  days !! k = Some day ->
  default [] (FreeTimes t !! day)
  = concat (slotsAt (Z.of_nat k) (-1) <$> timetableElements c).
Proof.
  intros E Hlen Hday.
  apply parseContainer_Ok in E as (t1 & w2 & E & _ & _ & _ & Hf & _).
  eapply grids_slots in E; [|assumption|exact Hday].
  rewrite E, Hf, lookup_empty. reflexivity.
Qed.

Lemma day_lists_follow_markers_witness :
  eval (parseContainer (container sampleHeader mondayGrid)) initialWorld
  = Ok {| Error := false; Empty := false; Date := "12/02/2024"; Room := "IT101";
          Week := "23"; FreeTimes := {[ "Monday" := ["09:15"; "11:15"] ]} |}
  /\ Forall (fun g : list RowElement => Z.of_nat (length g) <= Go.maxInt)
       [mondayGrid]
  /\ days !! 0%nat = Some "Monday"
  /\ default [] (({[ "Monday" := ["09:15"; "11:15"] ]} : gmap string (list string))
                 !! "Monday")
     = concat (slotsAt 0 (-1) <$> [mondayGrid]).
Proof.
  assert (Hlen : Forall (fun g : list RowElement => Z.of_nat (length g) <= Go.maxInt)
                   [mondayGrid]).
  { repeat constructor. discriminate. }
  split; [reflexivity|]. split; [exact Hlen|]. split; [reflexivity|].
  exact (day_lists_follow_markers (container sampleHeader mondayGrid) initialWorld
           _ 0%nat "Monday" eq_refl Hlen eq_refl).
Defined.

Lemma scan_empty rows : forall t c w t' c',
  eval (forEach rowCallback rows (t, c)) w = Ok (t', c') ->
  Empty t' = Empty t && negb (existsb isSubject rows).
Proof.
  induction rows as [|r rows IH]; intros t c w t' c' E.
  - cbn in E. injection E as <- <-. cbn. by rewrite andb_true_r.
  - rewrite eval_forEach_cons in E. cbn [existsb].
    destruct (rowCallback_cases r t c w)
      as [(K & E')|[(K & E')|[(K & _ & E')|[(K & _ & day & _ & E')|(_ & _ & _ & E')]]]];
      rewrite E' in E; try discriminate;
      destruct (row_kinds r) as [(Km & Ks & Kf)|[(Km & Ks & Kf)|(Km & Ks & Kf)]];
      try congruence; rewrite Ks; apply IH in E; rewrite E; cbn;
      by rewrite ?andb_false_r.
Qed.

Lemma grids_empty grids : forall t w t',
  eval (forEach timetableCallback grids t) w = Ok t' ->
  Empty t' = Empty t && negb (existsb (existsb isSubject) grids).
Proof.
  induction grids as [|g grids IH]; intros t w t' E.
  - cbn in E. injection E as <-. cbn. by rewrite andb_true_r.
  - rewrite eval_forEach_cons in E.
    destruct (timetableCallback_eval g t w) as (w' & Ew). rewrite Ew in E.
    destruct (eval (forEach rowCallback g (t, -1)) w') as [[t1 c1]| |] eqn:Es;
      try discriminate.
    apply scan_empty in Es. apply IH in E. cbn in *. rewrite E, Es.
    rewrite negb_orb. by rewrite andb_assoc.
Qed.

(** X4. A parsed record has [Empty = false] exactly when one of its
    grids has a row that is no day marker and whose subject cell is not
    empty. *)
Theorem empty_iff_no_subject c w t :
  eval (parseContainer c) w = Ok t ->
  Empty t = negb (existsb (existsb isSubject) (timetableElements c)).
Proof.
  intros E.
  apply parseContainer_Ok in E as (t1 & w2 & E & _ & _ & Hm & _).
  apply grids_empty in E. by rewrite E, Hm.
Qed.

Lemma empty_iff_no_subject_witness :
  eval (parseContainer (container sampleHeader freeFirstGrid)) initialWorld
  = Ok {| Error := true; Empty := true; Date := "12/02/2024"; Room := "IT101";
          Week := "23"; FreeTimes := {[ "Monday" := ["10:15"] ]} |}
  /\ true = negb (existsb (existsb isSubject) [freeFirstGrid]).
Proof.
  split; [reflexivity|].
  exact (empty_iff_no_subject (container sampleHeader freeFirstGrid) initialWorld
           _ eq_refl).
Defined.

(** Under a day the scan never touches the flag. *)
Lemma scan_error_in_day rows : forall t c w t' c',
  0 <= c -> c + Z.of_nat (length rows) <= Go.maxInt ->
  eval (forEach rowCallback rows (t, c)) w = Ok (t', c') ->
  Error t' = Error t.
Proof.
  induction rows as [|r rows IH]; intros t c w t' c' Hc Hlen E.
  - cbn in E. by injection E as <- <-.
  - rewrite eval_forEach_cons in E. cbn [length] in Hlen.
    assert (Hmax : Go.maxInt = 2 ^ 63 - 1) by reflexivity.
    destruct (rowCallback_cases r t c w)
      as [(K & E')|[(K & E')|[(K & Hs & E')|[(K & _ & day & _ & E')|(_ & _ & _ & E')]]]];
      rewrite E' in E; try discriminate; try lia.
    + rewrite incr_no_wrap in E by (unfold Go.minInt; lia).
      apply IH in E; [exact E|lia..].
    + apply IH in E; [exact E|lia..].
    + apply IH in E; [exact E|lia..].
Qed.

Lemma scan_error rows : forall t w t' c',
  Z.of_nat (length rows) <= Go.maxInt ->
  eval (forEach rowCallback rows (t, -1)) w = Ok (t', c') ->
  Error t' = Error t || freeBeforeMarker rows.
Proof.
  induction rows as [|r rows IH]; intros t w t' c' Hlen E.
  - cbn in E. injection E as <- <-. cbn. by rewrite orb_false_r.
  - rewrite eval_forEach_cons in E. cbn [length] in Hlen.
    assert (Hmax : Go.maxInt = 2 ^ 63 - 1) by reflexivity.
    cbn [freeBeforeMarker].
    destruct (row_kinds r) as [(Km & Ks & Kf)|[(Km & Ks & Kf)|(Km & Ks & Kf)]];
      rewrite Km, ?Kf.
    + rewrite rowCallback_marker in E by assumption.
      change (Go.incr (-1)) with 0 in E.
      apply scan_error_in_day in E; [|lia..]. by rewrite E, orb_false_r.
    + rewrite rowCallback_subject in E by assumption.
      apply IH in E; [exact E|lia].
    + rewrite rowCallback_sentinel in E by assumption.
      apply scan_stable in E as (_ & _ & _ & He & _). cbn in He.
      rewrite He by reflexivity. by rewrite orb_true_r.
Qed.

Lemma grids_error grids : forall t w t',
  Forall (fun g : list RowElement => Z.of_nat (length g) <= Go.maxInt) grids ->
  eval (forEach timetableCallback grids t) w = Ok t' ->
  Error t' = Error t || existsb freeBeforeMarker grids.
Proof.
  induction grids as [|g grids IH]; intros t w t' Hlen E.
  - cbn in E. injection E as <-. cbn. by rewrite orb_false_r.
  - rewrite eval_forEach_cons in E.
    destruct (timetableCallback_eval g t w) as (w' & Ew). rewrite Ew in E.
    destruct (eval (forEach rowCallback g (t, -1)) w') as [[t1 c1]| |] eqn:Es;
      try discriminate.
    apply Forall_cons in Hlen as [Hg Hlen].
    apply scan_error in Es; [|assumption]. apply IH in E; [|assumption].
    cbn in *. rewrite E, Es. by rewrite orb_assoc.
Qed.

(** X5. A parsed record has [Error = true] exactly when a header cell
    rendered empty or a grid has a free row before its first day
    marker. *)
Theorem error_iff_header_or_sentinel c w t :
  eval (parseContainer c) w = Ok t ->
  Forall (fun g : list RowElement => Z.of_nat (length g) <= Go.maxInt)
    (timetableElements c) ->
  Error t = existsb hasEmptyCell (headerElements c)
            || existsb freeBeforeMarker (timetableElements c).
Proof.
  intros E Hlen.
  apply parseContainer_Ok in E as (t1 & w2 & E & _ & He & _).
  apply grids_error in E; [|assumption]. by rewrite E, He.
Qed.

Lemma error_iff_header_or_sentinel_witness :
  eval (parseContainer (container sampleHeader subjectFirstGrid)) initialWorld
  = Ok {| Error := false; Empty := false; Date := "12/02/2024"; Room := "IT101";
          Week := "23"; FreeTimes := {[ "Monday" := ["10:15"] ]} |}
  /\ Forall (fun g : list RowElement => Z.of_nat (length g) <= Go.maxInt)
       [subjectFirstGrid]
  /\ false = existsb hasEmptyCell [sampleHeader]
             || existsb freeBeforeMarker [subjectFirstGrid].
Proof.
  assert (Hlen : Forall (fun g : list RowElement => Z.of_nat (length g) <= Go.maxInt)
                   [subjectFirstGrid]).
  { repeat constructor. discriminate. }
  split; [reflexivity|]. split; [exact Hlen|].
  exact (error_iff_header_or_sentinel (container sampleHeader subjectFirstGrid)
           initialWorld _ eq_refl Hlen).
Defined.

Lemma rowCallback_sameShape r r' st w w' :
  sameShape r r' ->
  eval (rowCallback r st) w = eval (rowCallback r' st) w'.
Proof.
  intros (Hm & Hs & Ht).
  rewrite (logsOnly_eval (rowCallback r st) w w') by apply logsOnly_rowCallback.
  unfold rowCallback. unfold isDayMarker in Hm. by rewrite Hm, Hs, Ht.
Qed.

Lemma scan_sameShape rows rows' :
  Forall2 sameShape rows rows' ->
  forall st w w',
    eval (forEach rowCallback rows st) w = eval (forEach rowCallback rows' st) w'.
Proof.
  intros H. induction H as [|r r' rows rows' Hr _ IH]; intros st w w'.
  - reflexivity.
  - rewrite !eval_forEach_cons, (rowCallback_sameShape r r' st w w' Hr).
    destruct (eval (rowCallback r' st) w') as [st'| |]; [apply IH | reflexivity..].
Qed.

Lemma timetableCallback_sameShape g g' t w w' :
  Forall2 sameShape g g' ->
  eval (timetableCallback g t) w = eval (timetableCallback g' t) w'.
Proof.
  intros Hg.
  destruct (timetableCallback_eval g t w) as (w1 & ->).
  destruct (timetableCallback_eval g' t w') as (w1' & ->).
  by rewrite (scan_sameShape g g' Hg (t, -1) w1 w1').
Qed.

Lemma grids_sameShape grids grids' :
  Forall2 (Forall2 sameShape) grids grids' ->
  forall t w w',
    eval (forEach timetableCallback grids t) w
    = eval (forEach timetableCallback grids' t) w'.
Proof.
  intros H. induction H as [|g g' grids grids' Hg _ IH]; intros t w w'.
  - reflexivity.
  - rewrite !eval_forEach_cons, (timetableCallback_sameShape g g' t w w' Hg).
    destruct (eval (timetableCallback g' t) w') as [t'| |]; [apply IH | reflexivity..].
Qed.

(** X6. A day marker counts by its place alone: two documents with the
    same headers whose grids differ only in which weekdays their day
    markers name give the same record, or the same panic.  (The debug
    record of a day marker carries the weekday it names as an attribute;
    the logs are not compared.) *)
Theorem marker_names_do_not_matter c c' w w' :
  headerElements c = headerElements c' ->
  Forall2 (Forall2 sameShape) (timetableElements c) (timetableElements c') ->
  eval (parseContainer c) w = eval (parseContainer c') w'.
Proof.
  intros Hh Hg.
  destruct (parseContainer_eval c w) as (w1 & w2 & ->).
  destruct (parseContainer_eval c' w') as (w1' & w2' & ->).
  rewrite Hh.
  rewrite (logsOnly_eval (forEach headerCallback (headerElements c') newTimetable)
             w1 w1')
    by (apply logsOnly_forEach; apply logsOnly_headerCallback).
  destruct (eval (forEach headerCallback (headerElements c') newTimetable) w1')
    as [t1| |]; [|reflexivity..].
  by apply grids_sameShape.
Qed.

Lemma marker_names_do_not_matter_witness :
  headerElements (container sampleHeader mondayGrid)
  = headerElements (container sampleHeader
                      [row "Friday" "" ""; row "" "" "09:15";
                       row "" "Maths" "10:15"; row "" "" "11:15"])
  /\ Forall2 (Forall2 sameShape) [mondayGrid]
       [[row "Friday" "" ""; row "" "" "09:15"; row "" "Maths" "10:15";
         row "" "" "11:15"]]
  /\ eval (parseContainer (container sampleHeader mondayGrid)) initialWorld
     = eval (parseContainer (container sampleHeader
                               [row "Friday" "" ""; row "" "" "09:15";
                                row "" "Maths" "10:15"; row "" "" "11:15"]))
         initialWorld.
Proof.
  assert (Hg : Forall2 (Forall2 sameShape) [mondayGrid]
                 [[row "Friday" "" ""; row "" "" "09:15"; row "" "Maths" "10:15";
                   row "" "" "11:15"]]).
  { repeat constructor. }
  split; [reflexivity|]. split; [exact Hg|].
  exact (marker_names_do_not_matter (container sampleHeader mondayGrid)
           (container sampleHeader
              [row "Friday" "" ""; row "" "" "09:15"; row "" "Maths" "10:15";
               row "" "" "11:15"]) initialWorld initialWorld eq_refl Hg).
Defined.

(** A grid that opens with Friday files its free rows under Monday. *)
Example friday_first_is_monday :
  FreeTimes <$>
    (match eval (parseContainer (container sampleHeader
                                   [row "Friday" "" ""; row "" "" "09:15";
                                    row "" "Maths" "10:15"; row "" "" "11:15"]))
             initialWorld with
     | Ok t => Some t
     | _ => None
     end)
  = Some {[ "Monday" := ["09:15"; "11:15"] ]}.
Proof. reflexivity. Qed.

Lemma headerTokens_all_empty cell idx hs old :
  Forall (fun h => cell h = "") hs -> headerTokens cell idx hs old = old.
Proof.
  unfold headerTokens. intros H. revert old.
  induction H as [|h hs Hh _ IH]; intros old; [reflexivity|].
  cbn. unfold cellToken at 2. rewrite Hh. cbn. apply IH.
Qed.

Lemma headerTokens_last cell idx hs1 h hs2 old v :
  cell h <> "" ->
  Go.Split (cell h) " " !! idx = Some v ->
  Forall (fun h' => cell h' = "") hs2 ->
  headerTokens cell idx (hs1 ++ h :: hs2) old = v.
Proof.
  intros Hne Hv Hrest. unfold headerTokens. rewrite foldl_app. cbn [foldl].
  fold (headerTokens cell idx hs2
          (cellToken (cell h) idx (foldl (fun v0 h0 => cellToken (cell h0) idx v0) old hs1))).
  rewrite headerTokens_all_empty by assumption.
  unfold cellToken. apply String.eqb_neq in Hne. rewrite Hne, Hv. reflexivity.
Qed.

Lemma headerOk_cells hs h :
  forallb headerOk hs = true -> h ∈ hs ->
  cellOk (headerDate h) 1 = true /\ cellOk (headerRoom h) 2 = true /\
  cellOk (headerWeek h) 2 = true.
Proof.
  intros Hall Hin. rewrite forallb_forall in Hall.
  specialize (Hall h). rewrite <- list_elem_of_In in Hall.
  specialize (Hall Hin). unfold headerOk in Hall.
  apply andb_prop in Hall as [Hall Hw]. apply andb_prop in Hall as [Hd Hr]. auto.
Qed.

(** X7. The date, room and week of a parsed record come from the last
    header table whose cell is not empty: the date is the second
    space-separated token of its date cell, the room and the week the
    third token of its room and week cell; a field none of the header
    tables fills stays empty. *)
Theorem header_fields c w t :
  eval (parseContainer c) w = Ok t ->
  (forall hs1 h hs2,
      headerElements c = hs1 ++ h :: hs2 ->
      (headerDate h <> "" -> Forall (fun h' => headerDate h' = "") hs2 ->
       Go.Split (headerDate h) " " !! 1%nat = Some (Date t)) /\
      (headerRoom h <> "" -> Forall (fun h' => headerRoom h' = "") hs2 ->
       Go.Split (headerRoom h) " " !! 2%nat = Some (Room t)) /\
      (headerWeek h <> "" -> Forall (fun h' => headerWeek h' = "") hs2 ->
       Go.Split (headerWeek h) " " !! 2%nat = Some (Week t))) /\
  (Forall (fun h => headerDate h = "") (headerElements c) -> Date t = "") /\
  (Forall (fun h => headerRoom h = "") (headerElements c) -> Room t = "") /\
  (Forall (fun h => headerWeek h = "") (headerElements c) -> Week t = "").
Proof.
  intros E.
  apply parseContainer_Ok in E as (t1 & w2 & E & Hok & _ & _ & _ & Hd & Hr & Hw).
  pose proof (grids_stable _ _ _ _ E) as (Hd' & Hr' & Hw' & _).
  cbn in Hd', Hr', Hw'. rewrite Hd', Hr', Hw', Hd, Hr, Hw.
  split; [|split; [|split]].
  - intros hs1 h hs2 Hsplit.
    assert (Hin : h ∈ headerElements c).
    { rewrite Hsplit. apply elem_of_app. right. left. }
    destruct (headerOk_cells _ _ Hok Hin) as (Kd & Kr & Kw).
    rewrite Hsplit. split; [|split]; intros Hne Hrest.
    + destruct (cellOk_lookup _ _ Kd) as [v Hv]; [by apply String.eqb_neq|].
      rewrite Hv. f_equal. symmetry.
      by apply (headerTokens_last headerDate 1).
    + destruct (cellOk_lookup _ _ Kr) as [v Hv]; [by apply String.eqb_neq|].
      rewrite Hv. f_equal. symmetry.
      by apply (headerTokens_last headerRoom 2).
    + destruct (cellOk_lookup _ _ Kw) as [v Hv]; [by apply String.eqb_neq|].
      rewrite Hv. f_equal. symmetry.
      by apply (headerTokens_last headerWeek 2).
  - apply headerTokens_all_empty.
  - apply headerTokens_all_empty.
  - apply headerTokens_all_empty.
Qed.

Lemma header_fields_witness :
  eval (parseContainer (container sampleHeader mondayGrid)) initialWorld
  = Ok {| Error := false; Empty := false; Date := "12/02/2024"; Room := "IT101";
          Week := "23"; FreeTimes := {[ "Monday" := ["09:15"; "11:15"] ]} |}
  /\ Go.Split (headerRoom sampleHeader) " " !! 2%nat = Some "IT101".
Proof.
  split; [reflexivity|].
  refine (proj1 (proj2 (proj1 (header_fields (container sampleHeader mondayGrid)
                                 initialWorld _ eq_refl)
                          [] sampleHeader [] eq_refl)) _ _).
  - discriminate.
  - constructor.
Defined.

(** ** The counters and the shape of the table *)

Lemma incr_wrap z : Go.incr (Go.wrap z) = Go.wrap (z + 1).
Proof.
  unfold Go.incr, Go.add, Go.wrap.
  replace ((z + 2 ^ 63) mod 2 ^ 64 - 2 ^ 63 + 1 + 2 ^ 63)
    with ((z + 2 ^ 63) mod 2 ^ 64 + 1) by lia.
  rewrite Zplus_mod_idemp_l. f_equal. f_equal. lia.
Qed.

Lemma wrap_small z : Go.minInt <= z <= Go.maxInt -> Go.wrap z = z.
Proof.
  unfold Go.wrap, Go.minInt, Go.maxInt. intros H. rewrite Z.mod_small; lia.
Qed.

Lemma addFreeRoom_counters room day times : forall s,
  let s' := foldl (addFreeRoom room day) s times in
  errorCount s' = errorCount s /\
  emptyTimetableCount s' = emptyTimetableCount s /\
  timetableCount s' = timetableCount s /\
  forall n, freeTimesCount s = Go.wrap n ->
            freeTimesCount s' = Go.wrap (n + Z.of_nat (length times)).
Proof.
  induction times as [|time times IH]; intros s; cbn.
  - repeat split. intros n Hn. by rewrite Z.add_0_r.
  - destruct (IH (addFreeRoom room day s time)) as (He & Hm & Ht & Hf).
    cbn in *. rewrite He, Hm, Ht. repeat split. intros n Hn.
    rewrite (Hf (n + 1)); [f_equal; lia|]. rewrite Hn. apply incr_wrap.
Qed.

Lemma addDay_counters t ds : forall s,
  let s' := foldl (addDay t) s ds in
  errorCount s' = errorCount s /\
  emptyTimetableCount s' = emptyTimetableCount s /\
  timetableCount s' = timetableCount s /\
  forall n, freeTimesCount s = Go.wrap n ->
            freeTimesCount s'
            = Go.wrap (n + Z.of_nat
                             (sum_list ((fun day => length (default [] (FreeTimes t !! day)))
                                          <$> ds))).
Proof.
  induction ds as [|d ds IH]; intros s; cbn.
  - repeat split. intros n Hn. by rewrite Z.add_0_r.
  - destruct (IH (addDay t s d)) as (He & Hm & Ht & Hf).
    destruct (addFreeRoom_counters (Room t) d (default [] (FreeTimes t !! d)) s)
      as (He1 & Hm1 & Ht1 & Hf1).
    unfold addDay in *. cbn in *. rewrite He, Hm, Ht, He1, Hm1, Ht1.
    repeat split. intros n Hn.
    rewrite (Hf _ (Hf1 n Hn)). f_equal. lia.
Qed.

Lemma aggregateStep_counters t s w :
  exists s',
    eval (aggregateStep t s) w = Ok s' /\
    (forall n, timetableCount s = Go.wrap n -> timetableCount s' = Go.wrap (n + 1)) /\
    (forall n, errorCount s = Go.wrap n ->
               errorCount s' = Go.wrap (n + if Error t then 1 else 0)) /\
    (forall n, emptyTimetableCount s = Go.wrap n ->
               emptyTimetableCount s' = Go.wrap (n + if Empty t then 1 else 0)) /\
    (forall n, freeTimesCount s = Go.wrap n ->
               freeTimesCount s' = Go.wrap (n + Z.of_nat (weekdaySlots t))).
Proof.
  set (s1 := incrTimetableCount s).
  set (s2 := if Error t then incrErrorCount s1 else s1).
  set (s3 := if Empty t then incrEmptyTimetableCount s2 else s2).
  exists (foldl (addDay t) s3 days). split.
  - unfold aggregateStep. fold s1. fold s2. subst s3.
    destruct (Empty t); reflexivity.
  - destruct (addDay_counters t days s3) as (He & Hm & Ht & Hf).
    cbn zeta in He, Hm, Ht, Hf. rewrite He, Hm, Ht.
    split; [|split; [|split]]; intros n Hn.
    + subst s3 s2 s1. destruct (Empty t), (Error t); cbn; rewrite Hn;
        apply incr_wrap.
    + subst s3 s2 s1. destruct (Empty t), (Error t); cbn; rewrite Hn;
        rewrite ?Z.add_0_r; try reflexivity; apply incr_wrap.
    + subst s3 s2 s1. destruct (Empty t), (Error t); cbn; rewrite Hn;
        rewrite ?Z.add_0_r; try reflexivity; apply incr_wrap.
    + apply Hf. subst s3 s2 s1. destruct (Empty t), (Error t); exact Hn.
Qed.

Lemma forEach_aggregateStep_counters ts : forall s w nt ne nm nf,
  timetableCount s = Go.wrap nt -> errorCount s = Go.wrap ne ->
  emptyTimetableCount s = Go.wrap nm -> freeTimesCount s = Go.wrap nf ->
  exists s',
    eval (forEach aggregateStep ts s) w = Ok s' /\
    timetableCount s' = Go.wrap (nt + Z.of_nat (length ts)) /\
    errorCount s' = Go.wrap (ne + Z.of_nat (length (List.filter Error ts))) /\
    emptyTimetableCount s' = Go.wrap (nm + Z.of_nat (length (List.filter Empty ts))) /\
    freeTimesCount s' = Go.wrap (nf + Z.of_nat (sum_list (weekdaySlots <$> ts))).
Proof.
  induction ts as [|t ts IH]; intros s w nt ne nm nf Ht He Hm Hf.
  - exists s. cbn. rewrite !Z.add_0_r. auto.
  - rewrite eval_forEach_cons.
    destruct (aggregateStep_counters t s w) as (s1 & -> & Ht1 & He1 & Hm1 & Hf1).
    destruct (IH s1 (exec (aggregateStep t s) w) _ _ _ _
                (Ht1 _ Ht) (He1 _ He) (Hm1 _ Hm) (Hf1 _ Hf))
      as (s' & E & Kt & Ke & Km & Kf).
    exists s'. split; [exact E|]. rewrite Kt, Ke, Km, Kf. cbn.
    repeat split; f_equal; destruct (Error t), (Empty t); cbn; lia.
Qed.

(** X8. After the aggregation loop, [timetableCount] is the number of
    records, [errorCount] and [emptyTimetableCount] the numbers of
    records with [Error] and with [Empty] set, and [freeTimesCount] the
    number of times the records list under the five weekdays; each as
    an [int], so exactly that number when it does not exceed [maxInt]. *)
Theorem counters_count ts w :
  exists s,
    eval (aggregate ts) w = Ok s /\
    timetableCount s = Go.wrap (Z.of_nat (length ts)) /\
    errorCount s = Go.wrap (Z.of_nat (length (List.filter Error ts))) /\
    emptyTimetableCount s = Go.wrap (Z.of_nat (length (List.filter Empty ts))) /\
    freeTimesCount s = Go.wrap (Z.of_nat (sum_list (weekdaySlots <$> ts))) /\
    forall n : nat, Z.of_nat n <= Go.maxInt -> Go.wrap (Z.of_nat n) = Z.of_nat n.
Proof.
  destruct (forEach_aggregateStep_counters ts newSummary w 0 0 0 0)
    as (s & E & Ht & He & Hm & Hf); try reflexivity.
  exists s. split; [exact E|]. rewrite Ht, He, Hm, Hf. repeat split.
  intros n Hn. apply wrap_small. unfold Go.minInt. lia.
Qed.

Lemma tableSize_insertRoom room day time tbl :
  tableSize (insertRoom room day time tbl) = S (tableSize tbl).
Proof.
  unfold tableSize, insertRoom.
  assert (Hcomm : forall (m' : gmap string (gmap string (list string))) j1 j2
                         (z1 z2 : gmap string (list string)) y,
             j1 <> j2 -> m' !! j1 = Some z1 -> m' !! j2 = Some z2 ->
             (slotCount z1 + (slotCount z2 + y) = slotCount z2 + (slotCount z1 + y))%nat)
    by (intros; lia).
  destruct (tbl !! day) as [m|] eqn:E.
  - rewrite E. cbn. rewrite <- insert_delete_eq.
    rewrite map_fold_insert_L; [|by eauto|by apply lookup_delete_eq].
    rewrite (map_fold_delete_L _ _ day m tbl); [|by eauto|assumption].
    rewrite slotCount_append. lia.
  - rewrite lookup_insert_eq. cbn. rewrite insert_insert_eq.
    rewrite map_fold_insert_L; [|by eauto|assumption].
    rewrite lookup_empty. cbn. rewrite insert_empty.
    unfold slotCount. rewrite map_fold_singleton. reflexivity.
Qed.

Lemma tableSize_times room day times : forall tbl,
  tableSize (foldl (fun tbl time => insertRoom room day time tbl) tbl times)
  = (tableSize tbl + length times)%nat.
Proof.
  induction times as [|time times IH]; intros tbl; cbn; [lia|].
  rewrite IH, tableSize_insertRoom. lia.
Qed.

Lemma tableSize_days t ds : forall tbl,
  tableSize (foldl (fun tbl day =>
                      foldl (fun tbl time => insertRoom (Room t) day time tbl) tbl
                        (default [] (FreeTimes t !! day))) tbl ds)
  = (tableSize tbl
     + sum_list ((fun day => length (default [] (FreeTimes t !! day))) <$> ds))%nat.
Proof.
  induction ds as [|d ds IH]; intros tbl; cbn; [lia|].
  rewrite IH, tableSize_times. lia.
Qed.

Lemma tableSize_fold ts : forall tbl,
  tableSize (foldl tableStep tbl ts)
  = (tableSize tbl + sum_list (weekdaySlots <$> ts))%nat.
Proof.
  induction ts as [|t ts IH]; intros tbl; cbn [foldl]; [cbn; lia|].
  rewrite IH. unfold tableStep. rewrite tableSize_days.
  fold (weekdaySlots t).
  change (sum_list (weekdaySlots <$> t :: ts))
    with (weekdaySlots t + sum_list (weekdaySlots <$> ts))%nat.
  lia.
Qed.

Lemma noEmptyBucket_insertRoom room day time tbl :
  noEmptyBucket tbl -> noEmptyBucket (insertRoom room day time tbl).
Proof.
  intros H. rewrite insertRoom_merge. intros d m Hm.
  rewrite mergeTables_lookup in Hm.
  destruct (decide (day = d)) as [<-|Hne].
  - rewrite lookup_singleton_eq in Hm.
    destruct (tbl !! day) as [m0|] eqn:E; cbn in Hm; injection Hm as <-.
    + destruct (H day m0 E) as [_ Hl]. split.
      * intros Hempty.
        assert (Hlook : (union_with (fun l1 l2 : list string => Some (l1 ++ l2)) m0
                           {[time := [room]]}) !! time = None)
          by (rewrite Hempty; apply lookup_empty).
        rewrite lookup_union_with, lookup_singleton_eq in Hlook.
        destruct (m0 !! time); discriminate.
      * intros tm l. rewrite lookup_union_with.
        destruct (decide (time = tm)) as [<-|Hnt].
        -- rewrite lookup_singleton_eq.
           destruct (m0 !! time) as [l0|]; cbn; intros [= <-];
             [by destruct l0 | discriminate].
        -- rewrite lookup_singleton_ne by assumption.
           destruct (m0 !! tm) as [l0|] eqn:El; cbn; intros [= <-].
           by apply (Hl tm).
    + split.
      * apply map_non_empty_singleton.
      * intros tm l Hl. apply lookup_singleton_Some in Hl as [_ <-]. discriminate.
  - rewrite lookup_singleton_ne in Hm by assumption.
    destruct (tbl !! d) as [m0|] eqn:E; cbn in Hm; [|discriminate].
    injection Hm as <-. by apply (H d).
Qed.

Lemma noEmptyBucket_fold ts : forall tbl,
  noEmptyBucket tbl -> noEmptyBucket (foldl tableStep tbl ts).
Proof.
  induction ts as [|t ts IH]; intros tbl H; [exact H|].
  cbn [foldl]. apply IH. unfold tableStep. revert tbl H.
  induction days as [|d ds IHd]; intros tbl H; [exact H|].
  cbn [foldl]. apply IHd.
  generalize (default [] (FreeTimes t !! d)). intros times. revert tbl H.
  induction times as [|time times IHt]; intros tbl H; [exact H|].
  cbn [foldl]. apply IHt. by apply noEmptyBucket_insertRoom.
Qed.

Lemma aggregate_counter_and_table ts w :
  exists s,
    eval (aggregate ts) w = Ok s /\
    freeTimesCount s = Go.wrap (Z.of_nat (sum_list (weekdaySlots <$> ts))) /\
    freeRoomTable s = tableOf ts.
Proof.
  destruct (aggregate_eval ts w) as (s & E & Htbl).
  destruct (forEach_aggregateStep_counters ts newSummary w 0 0 0 0)
    as (s' & E' & _ & _ & _ & Hf); try reflexivity.
  unfold aggregate in E. rewrite E in E'. injection E' as <-.
  exists s. auto.
Qed.

(** X9. The table the loop builds holds no empty day map and no empty
    room list, and it has as many room entries as [freeTimesCount]
    counts. *)
Theorem table_has_no_empty_bucket ts w :
  exists s,
    eval (aggregate ts) w = Ok s /\
    noEmptyBucket (freeRoomTable s) /\
    freeTimesCount s = Go.wrap (Z.of_nat (tableSize (freeRoomTable s))).
Proof.
  destruct (aggregate_counter_and_table ts w) as (s & E & Hf & Htbl).
  exists s. split; [exact E|]. rewrite Htbl. split.
  - apply noEmptyBucket_fold. intros day m Hm. by rewrite lookup_empty in Hm.
  - unfold tableOf. rewrite tableSize_fold. exact Hf.
Qed.

(** ** The form and the room requests *)

Lemma hiddenInputCallback_run inp w :
  hiddenInputCallback inp tt w
  = (if isToken inp.1
     then setParams (Values_Add inp.1 inp.2 (roomPostQueryParams w)) w
     else w, Ok tt).
Proof.
  unfold hiddenInputCallback, isToken.
  destruct (String.eqb_spec inp.1 "__VIEWSTATE") as [->|_]; [reflexivity|].
  destruct (String.eqb_spec inp.1 "__VIEWSTATEGENERATOR") as [->|_]; [reflexivity|].
  destruct (String.eqb_spec inp.1 "__EVENTVALIDATION") as [->|_]; reflexivity.
Qed.

Lemma hiddenInputs_run inputs : forall w,
  eval (forEach hiddenInputCallback inputs tt) w = Ok tt /\
  log (exec (forEach hiddenInputCallback inputs tt) w) = log w /\
  timetableList (exec (forEach hiddenInputCallback inputs tt) w) = timetableList w /\
  requests (exec (forEach hiddenInputCallback inputs tt) w) = requests w /\
  forall k,
    (isToken k = false ->
     roomPostQueryParams (exec (forEach hiddenInputCallback inputs tt) w) !! k
     = roomPostQueryParams w !! k) /\
    (isToken k = true ->
     default [] (roomPostQueryParams (exec (forEach hiddenInputCallback inputs tt) w) !! k)
     = default [] (roomPostQueryParams w !! k) ++ tokenValues k inputs) /\
    (tokenValues k inputs = [] ->
     roomPostQueryParams (exec (forEach hiddenInputCallback inputs tt) w) !! k
     = roomPostQueryParams w !! k).
Proof.
  induction inputs as [|inp inputs IH]; intros w.
  - cbn. repeat split; auto. intros _. by rewrite app_nil_r.
  - set (w1 := if isToken inp.1
               then setParams (Values_Add inp.1 inp.2 (roomPostQueryParams w)) w
               else w).
    assert (H1 : eval (hiddenInputCallback inp tt) w = Ok tt)
      by (unfold eval; by rewrite hiddenInputCallback_run).
    assert (H2 : exec (hiddenInputCallback inp tt) w = w1)
      by (unfold exec; by rewrite hiddenInputCallback_run).
    rewrite eval_forEach_cons, exec_forEach_cons, H1, H2.
    destruct (IH w1) as (E & Hl & Ht & Hr & Hk).
    assert (Hw1 : log w1 = log w /\ timetableList w1 = timetableList w /\
                  requests w1 = requests w)
      by (subst w1; destruct (isToken inp.1); auto).
    destruct Hw1 as (Hl1 & Ht1 & Hr1).
    split; [exact E|]. split; [congruence|]. split; [congruence|].
    split; [congruence|]. intros k. destruct (Hk k) as (Ha & Hb & Hc).
    unfold tokenValues in *. cbn [List.filter].
    destruct (String.eqb_spec inp.1 k) as [Heq|Hne].
    + subst k. destruct (isToken inp.1) eqn:Etok; subst w1.
      * split; [discriminate|]. split; [|discriminate].
        intros _. rewrite Hb by reflexivity. cbn.
        unfold Values_Add. rewrite lookup_insert_eq. cbn.
        by rewrite <- app_assoc.
      * split; [intros _; by apply Ha|]. split; [discriminate|discriminate].
    + assert (Hsame : roomPostQueryParams w1 !! k = roomPostQueryParams w !! k).
      { subst w1. destruct (isToken inp.1); [|reflexivity]. cbn.
        by apply Values_Add_other. }
      rewrite <- Hsame. auto.
Qed.

(** X10. The loop over the hidden inputs appends the value of every
    input called [__VIEWSTATE], [__VIEWSTATEGENERATOR] or
    [__EVENTVALIDATION] to that field of the form, in document order; a
    field without such an input, and every other field, stays as it
    was (a missing token is left out, not reported); nothing is logged
    and no request is made. *)
Theorem hidden_inputs_collected inputs w k :
  eval (forEach hiddenInputCallback inputs tt) w = Ok tt /\
  log (exec (forEach hiddenInputCallback inputs tt) w) = log w /\
  requests (exec (forEach hiddenInputCallback inputs tt) w) = requests w /\
  (isToken k = false ->
   roomPostQueryParams (exec (forEach hiddenInputCallback inputs tt) w) !! k
   = roomPostQueryParams w !! k) /\
  (isToken k = true ->
   default [] (roomPostQueryParams (exec (forEach hiddenInputCallback inputs tt) w) !! k)
   = default [] (roomPostQueryParams w !! k) ++ tokenValues k inputs) /\
  (tokenValues k inputs = [] ->
   roomPostQueryParams (exec (forEach hiddenInputCallback inputs tt) w) !! k
   = roomPostQueryParams w !! k).
Proof.
  destruct (hiddenInputs_run inputs w) as (E & Hl & _ & Hr & Hk).
  destruct (Hk k) as (Ha & Hb & Hc). auto.
Qed.

Lemma hidden_inputs_collected_witness :
  isToken "__VIEWSTATE" = true
  /\ default []
       (roomPostQueryParams
          (exec (forEach hiddenInputCallback
                   [("__VIEWSTATE", "dDwt"); ("other", "x"); ("__VIEWSTATE", "dDw1")] tt)
             initialWorld) !! "__VIEWSTATE")
     = default [] (roomPostQueryParams initialWorld !! "__VIEWSTATE")
       ++ tokenValues "__VIEWSTATE"
            [("__VIEWSTATE", "dDwt"); ("other", "x"); ("__VIEWSTATE", "dDw1")].
Proof.
  split; [reflexivity|].
  exact (proj1 (proj2 (proj2 (proj2 (proj2
           (hidden_inputs_collected
              [("__VIEWSTATE", "dDwt"); ("other", "x"); ("__VIEWSTATE", "dDw1")]
              initialWorld "__VIEWSTATE"))))) eq_refl).
Defined.

Lemma Values_Set_Set k v v' q : Values_Set k v' (Values_Set k v q) = Values_Set k v' q.
Proof. unfold Values_Set. apply insert_insert_eq. Qed.

Lemma keepsTraces_ret {A} (a : A) : keepsTraces (mret a : M A).
Proof. intros w. repeat split. Qed.

Lemma keepsTraces_logsOnly {A} (m : M A) : logsOnly m -> keepsTraces m.
Proof. intros (l & r & H) w. unfold exec. rewrite H. repeat split. Qed.

Lemma keepsTraces_appendTimetable t : keepsTraces (appendTimetable t).
Proof. intros w. repeat split. Qed.

Lemma keepsTraces_bind {A B} (m : M A) (f : A -> M B) :
  keepsTraces m -> (forall a, keepsTraces (f a)) -> keepsTraces (m ≫= f).
Proof.
  intros Hm Hf w. rewrite exec_bind. destruct (eval m w) as [a| |].
  - destruct (Hf a (exec m w)) as (-> & -> & ->). apply Hm.
  - apply Hm.
  - apply Hm.
Qed.

Lemma keepsTraces_forEach {A B} (f : B -> A -> M A) l :
  (forall x a, keepsTraces (f x a)) -> forall a, keepsTraces (forEach f l a).
Proof.
  intros Hf. induction l as [|x l IH]; intros a.
  - apply keepsTraces_ret.
  - cbn. apply keepsTraces_bind; [apply Hf | apply IH].
Qed.

Lemma keepsTraces_containerCallback c : keepsTraces (containerCallback c).
Proof.
  unfold containerCallback. apply keepsTraces_bind.
  - apply keepsTraces_logsOnly, logsOnly_parseContainer.
  - apply keepsTraces_appendTimetable.
Qed.

Lemma keepsTraces_after {A B} (m : M A) (f : A -> M B) w :
  (forall a, keepsTraces (f a)) ->
  roomPostQueryParams (exec (m ≫= f) w) = roomPostQueryParams (exec m w) /\
  requests (exec (m ≫= f) w) = requests (exec m w) /\
  handed (exec (m ≫= f) w) = handed (exec m w).
Proof.
  intros Hf. rewrite exec_bind. destruct (eval m w) as [a| |]; [|auto..].
  apply Hf.
Qed.

Lemma hiddenInputs_handed inputs w :
  handed (exec (forEach hiddenInputCallback inputs tt) w) = handed w.
Proof.
  apply (forEach_exec_invariant hiddenInputCallback (fun w' => handed w' = handed w));
    [|reflexivity].
  intros [name value] [] w' Hw'. unfold hiddenInputCallback. cbn [fst snd].
  repeat case_match; exact Hw'.
Qed.

Lemma logsOnly_roomOnError e : logsOnly (roomOnError e).
Proof.
  unfold roomOnError. apply logsOnly_bind; [apply logsOnly_slog|].
  intros _. apply logsOnly_slog.
Qed.

(** The [OnRequest] callback of a room request: one record, and the
    reader comes back at its end. *)
Lemma roomOnRequest_run {B} form (k : Go.Reader -> M B) w :
  (roomOnRequest (Go.NewReader form) ≫= k) w
  = k (drained form) (exec (slog LevelInfo (Text "Requesting room")) w).
Proof. reflexivity. Qed.

Section Requests.

Variable roomRegexp : string -> bool.
Variable network : nat -> gmap string (list string) -> RoomResponse.
Variable onRoomError : GoError -> M unit.
Hypothesis onRoomError_logs : forall e, logsOnly (onRoomError e).

(** One call of [roomCollector.Request]: it is noted, and when colly
    passes the request on, the client is handed the drained reader. *)
Lemma roomRequest_traces form w :
  roomPostQueryParams (exec (roomRequest network onRoomError form) w)
  = roomPostQueryParams w /\
  requests (exec (roomRequest network onRoomError form) w) = requests w ++ [form] /\
  handed (exec (roomRequest network onRoomError form) w)
  = handed w ++ (drained <$> passedOn network (length (requests w)) [form]).
Proof.
  unfold roomRequest. rewrite exec_bind.
  change (eval (noteRequest form) w) with (Ok (length (requests w)) : outcome nat).
  cbv iota. set (w0 := exec (noteRequest form) w).
  cbn [passedOn].
  destruct (network (length (requests w)) form) as [e|e|containers]; cbn [isRefused].
  - cbn. by rewrite app_nil_r.
  - assert (Hrun : forall k : Go.Reader -> M (option GoError),
               exec (roomOnRequest (Go.NewReader form) ≫= k) w0
               = exec (k (drained form))
                   (exec (slog LevelInfo (Text "Requesting room")) w0))
      by (intros k; reflexivity).
    rewrite Hrun. set (w1 := exec (slog LevelInfo (Text "Requesting room")) w0).
    destruct (keepsTraces_after (handToClient (drained form))
                (fun _ => onRoomError e;; mret (Some e)) w1) as (-> & -> & ->).
    + intros _. apply keepsTraces_bind.
      * apply keepsTraces_logsOnly, onRoomError_logs.
      * intros _. apply keepsTraces_ret.
    + subst w1 w0. repeat split.
  - assert (Hrun : forall k : Go.Reader -> M (option GoError),
               exec (roomOnRequest (Go.NewReader form) ≫= k) w0
               = exec (k (drained form))
                   (exec (slog LevelInfo (Text "Requesting room")) w0))
      by (intros k; reflexivity).
    rewrite Hrun. set (w1 := exec (slog LevelInfo (Text "Requesting room")) w0).
    destruct (keepsTraces_after (handToClient (drained form))
                (fun _ => forEach (fun c _ => containerCallback c) containers tt;;
                          mret (@None GoError)) w1) as (-> & -> & ->).
    + intros _. apply keepsTraces_bind.
      * apply keepsTraces_forEach. intros c _. apply keepsTraces_containerCallback.
      * intros _. apply keepsTraces_ret.
    + subst w1 w0. repeat split.
Qed.

Lemma roomOptionCallback_traces roomName w :
  roomRegexp roomName = true ->
  roomPostQueryParams
    (exec (roomOptionCallback roomRegexp network onRoomError roomName tt) w)
  = Values_Set "CboLocation" roomName (roomPostQueryParams w) /\
  requests (exec (roomOptionCallback roomRegexp network onRoomError roomName tt) w)
  = requests w ++ [Values_Set "CboLocation" roomName (roomPostQueryParams w)] /\
  handed (exec (roomOptionCallback roomRegexp network onRoomError roomName tt) w)
  = handed w
    ++ (drained <$> passedOn network (length (requests w))
                      [Values_Set "CboLocation" roomName (roomPostQueryParams w)]).
Proof.
  intros Hmatch. unfold roomOptionCallback. rewrite Hmatch.
  rewrite exec_bind, eval_slog.
  set (w1 := exec (slog LevelDebug (Text "Room found")) w).
  change (exec (paramsSet "CboLocation" roomName ≫= _) w1)
    with (exec (roomRequest network onRoomError
                  (Values_Set "CboLocation" roomName (roomPostQueryParams w)) ≫=
                fun err => match err with
                           | Some e =>
                               slog LevelError (ErrorOf e);;
                               slog LevelError (Text "Room POST request failed")
                           | None => mret tt
                           end)
            (exec (paramsSet "CboLocation" roomName) w1)).
  destruct (keepsTraces_after
              (roomRequest network onRoomError
                 (Values_Set "CboLocation" roomName (roomPostQueryParams w)))
              (fun err => match err with
                          | Some e =>
                              slog LevelError (ErrorOf e);;
                              slog LevelError (Text "Room POST request failed")
                          | None => mret tt
                          end)
              (exec (paramsSet "CboLocation" roomName) w1)) as (-> & -> & ->).
  - intros [e|]; [|apply keepsTraces_ret].
    apply keepsTraces_logsOnly, logsOnly_bind; [apply logsOnly_slog|].
    intros _. apply logsOnly_slog.
  - destruct (roomRequest_traces
                (Values_Set "CboLocation" roomName (roomPostQueryParams w))
                (exec (paramsSet "CboLocation" roomName) w1)) as (-> & -> & ->).
    repeat split.
Qed.

Lemma roomOptionCallback_skips roomName w :
  roomRegexp roomName = false ->
  roomOptionCallback roomRegexp network onRoomError roomName tt w = (w, Ok tt).
Proof. intros Hmatch. unfold roomOptionCallback. by rewrite Hmatch. Qed.

Lemma rooms_traces rooms : forall w,
  exists calledRooms,
    calledRooms `prefix_of` List.filter roomRegexp rooms /\
    (eval (forEach (roomOptionCallback roomRegexp network onRoomError) rooms tt) w
     = Ok tt ->
     calledRooms = List.filter roomRegexp rooms) /\
    requests (exec (forEach (roomOptionCallback roomRegexp network onRoomError)
                      rooms tt) w)
    = requests w
      ++ ((fun r => Values_Set "CboLocation" r (roomPostQueryParams w)) <$> calledRooms) /\
    handed (exec (forEach (roomOptionCallback roomRegexp network onRoomError)
                    rooms tt) w)
    = handed w
      ++ (drained <$>
            passedOn network (length (requests w))
              ((fun r => Values_Set "CboLocation" r (roomPostQueryParams w))
                 <$> calledRooms)).
Proof.
  induction rooms as [|r rooms IH]; intros w.
  - exists []. cbn. rewrite !app_nil_r. auto using prefix_nil.
  - rewrite eval_forEach_cons, exec_forEach_cons. cbn [List.filter].
    destruct (roomRegexp r) eqn:Hmatch.
    + destruct (roomOptionCallback_traces r w Hmatch) as (Hq & Hr & Hh).
      destruct (eval (roomOptionCallback roomRegexp network onRoomError r tt) w)
        as [[]| |].
      * destruct (IH (exec (roomOptionCallback roomRegexp network onRoomError r tt) w))
          as (called & Hpre & Hall & Hreq & Hhan).
        exists (r :: called). split; [by apply prefix_cons|].
        split; [intros E; by rewrite (Hall E)|].
        assert (Hforms :
                  (fun r' => Values_Set "CboLocation" r'
                               (roomPostQueryParams
                                  (exec (roomOptionCallback roomRegexp network
                                           onRoomError r tt) w))) <$> called
                  = (fun r' => Values_Set "CboLocation" r' (roomPostQueryParams w))
                      <$> called).
        { apply list_fmap_ext. intros _ r' _. rewrite Hq. apply Values_Set_Set. }
        rewrite Hforms in Hreq, Hhan. split.
        -- rewrite Hreq, Hr, <- app_assoc. reflexivity.
        -- rewrite Hhan, Hh, Hr, <- app_assoc, <- fmap_app. do 2 f_equal.
           rewrite length_app, fmap_cons. cbn [length passedOn].
           replace (length (requests w) + 1)%nat with (S (length (requests w))) by lia.
           by destruct (isRefused _).
      * exists [r]. split; [apply prefix_cons, prefix_nil|].
        split; [discriminate|]. split; [exact Hr | exact Hh].
      * exists [r]. split; [apply prefix_cons, prefix_nil|].
        split; [discriminate|]. split; [exact Hr | exact Hh].
    + assert (H1 : eval (roomOptionCallback roomRegexp network onRoomError r tt) w
                   = Ok tt)
        by (unfold eval; by rewrite roomOptionCallback_skips).
      assert (H2 : exec (roomOptionCallback roomRegexp network onRoomError r tt) w = w)
        by (unfold exec; by rewrite roomOptionCallback_skips).
      rewrite H1, H2. apply IH.
Qed.

End Requests.

(** X11. The [body] callback calls [roomCollector.Request] once for
    every room option the pattern matches, in document order, and for no
    other option; each call is made with the form as the hidden inputs
    and the week left it, with [CboLocation] set to the room.  Whenever
    colly passes a request on, its HTTP client is handed a body reader
    that the [OnRequest] callback has already read to its end: nothing
    is left in it to send.  A panic or exit on the way cuts the sequence
    of calls short. *)
Theorem requests_reach_client_drained
    weekOffset roomRegexp network onRoomError b w :
  (forall e, logsOnly (onRoomError e)) ->
  exists calledRooms,
    calledRooms `prefix_of` List.filter roomRegexp (roomOptions b) /\
    (eval (bodyCallback weekOffset roomRegexp network onRoomError b tt) w = Ok tt ->
     calledRooms = List.filter roomRegexp (roomOptions b)) /\
    let forms :=
      (fun r =>
         Values_Set "CboLocation" r
           (roomPostQueryParams
              (exec (forEach hiddenInputCallback (hiddenInputs b) tt;;
                     addCboWeeks weekOffset (selectedWeek b)) w)))
        <$> calledRooms in
    requests (exec (bodyCallback weekOffset roomRegexp network onRoomError b tt) w)
    = requests w ++ forms /\
    handed (exec (bodyCallback weekOffset roomRegexp network onRoomError b tt) w)
    = handed w ++ (drained <$> passedOn network (length (requests w)) forms) /\
    Forall (fun body => (Go.ReadAll body).1 = ∅)
      (drop (length (handed w))
         (handed (exec (bodyCallback weekOffset roomRegexp network onRoomError b tt) w))).
Proof.
  intros Hon. unfold bodyCallback.
  destruct (hiddenInputs_run (hiddenInputs b) w) as (E1 & _ & _ & Hr1 & _).
  pose proof (hiddenInputs_handed (hiddenInputs b) w) as Hh1.
  set (m1 := forEach hiddenInputCallback (hiddenInputs b) tt) in *.
  set (m2 := addCboWeeks weekOffset (selectedWeek b)).
  set (m3 := forEach (roomOptionCallback roomRegexp network onRoomError)
               (roomOptions b) tt).
  set (w2 := exec m2 (exec m1 w)).
  assert (H12 : exec (m1;; m2) w = w2)
    by (rewrite exec_bind, E1; reflexivity).
  assert (Hexec : exec (m1;; m2;; m3) w = exec m3 w2).
  { rewrite exec_bind, E1. cbv iota. rewrite exec_bind. subst m2.
    rewrite addCboWeeks_eval. reflexivity. }
  assert (Heval : eval (m1;; m2;; m3) w = eval m3 w2).
  { rewrite eval_bind, E1. cbv iota. rewrite eval_bind. subst m2.
    rewrite addCboWeeks_eval. reflexivity. }
  assert (Hr2 : requests w2 = requests w /\ handed w2 = handed w).
  { subst w2 m2. unfold addCboWeeks.
    destruct (Go.Atoi (selectedWeek b)); split; assumption. }
  destruct Hr2 as [Hr2 Hh2].
  rewrite Hexec, Heval, H12.
  destruct (rooms_traces roomRegexp network onRoomError Hon (roomOptions b) w2)
    as (called & Hpre & Hall & Hreq & Hhan).
  exists called. split; [exact Hpre|]. split; [exact Hall|].
  subst m3. cbv zeta. rewrite Hreq, Hhan, Hr2, Hh2.
  split; [reflexivity|]. split; [reflexivity|].
  rewrite drop_app_length. apply Forall_fmap, Forall_true. reflexivity.
Qed.

Lemma requests_reach_client_drained_witness :
  (forall e, logsOnly (roomOnError e))
  /\ exists calledRooms,
       calledRooms `prefix_of` List.filter matchIT1xx ["%"; "IT101"; "IT102"] /\
       (eval (bodyCallback 0 matchIT1xx sampleNetwork roomOnError
                {| hiddenInputs := [("__VIEWSTATE", "dDwt")];
                   selectedWeek := "34";
                   roomOptions := ["%"; "IT101"; "IT102"] |} tt) initialWorld = Ok tt ->
        calledRooms = List.filter matchIT1xx ["%"; "IT101"; "IT102"]) /\
       let forms :=
         (fun r =>
            Values_Set "CboLocation" r
              (roomPostQueryParams
                 (exec (forEach hiddenInputCallback [("__VIEWSTATE", "dDwt")] tt;;
                        addCboWeeks 0 "34") initialWorld)))
           <$> calledRooms in
       requests (exec (bodyCallback 0 matchIT1xx sampleNetwork roomOnError
                         {| hiddenInputs := [("__VIEWSTATE", "dDwt")];
                            selectedWeek := "34";
                            roomOptions := ["%"; "IT101"; "IT102"] |} tt)
                   initialWorld)
       = requests initialWorld ++ forms /\
       handed (exec (bodyCallback 0 matchIT1xx sampleNetwork roomOnError
                       {| hiddenInputs := [("__VIEWSTATE", "dDwt")];
                          selectedWeek := "34";
                          roomOptions := ["%"; "IT101"; "IT102"] |} tt)
                 initialWorld)
       = handed initialWorld
         ++ (drained <$> passedOn sampleNetwork (length (requests initialWorld)) forms) /\
       Forall (fun body => (Go.ReadAll body).1 = ∅)
         (drop (length (handed initialWorld))
            (handed (exec (bodyCallback 0 matchIT1xx sampleNetwork roomOnError
                             {| hiddenInputs := [("__VIEWSTATE", "dDwt")];
                                selectedWeek := "34";
                                roomOptions := ["%"; "IT101"; "IT102"] |} tt)
                       initialWorld))).
Proof.
  split; [exact logsOnly_roomOnError|].
  exact (requests_reach_client_drained 0 matchIT1xx sampleNetwork roomOnError
           {| hiddenInputs := [("__VIEWSTATE", "dDwt")];
              selectedWeek := "34";
              roomOptions := ["%"; "IT101"; "IT102"] |}
           initialWorld logsOnly_roomOnError).
Defined.

(** The run of the sample: both matching rooms are asked for, and both
    requests reach the client with nothing left to read in the body. *)
Example sample_requests_are_drained :
  (Values_Get "CboLocation" <$>
     requests (exec (scrape 0 matchIT1xx sampleLanding sampleNetwork
                       initOnError roomOnError) initialWorld),
   (fun body => (Values_Get "CboLocation" (Go.content body), Go.atEnd body)) <$>
     handed (exec (scrape 0 matchIT1xx sampleLanding sampleNetwork
                     initOnError roomOnError) initialWorld))
  = (["IT101"; "IT102"], [("IT101", true); ("IT102", true)]).
Proof. reflexivity. Qed.

(** X12. When the landing page cannot be fetched, no room is
    requested.  With the [OnError] of [room_scrape.go] the failure is logged
    and the run goes on to an empty table and counters of zero; with
    the [OnError] that ends in [os.Exit(1)] it ends with status 1. *)
Theorem landing_failure weekOffset roomRegexp network onRoomError e :
  eval (scrape weekOffset roomRegexp (LandingFailed e) network initOnError onRoomError)
    initialWorld = Ok newSummary /\
  log (exec (scrape weekOffset roomRegexp (LandingFailed e) network
               initOnError onRoomError) initialWorld)
  = [ {| level := LevelInfo; msg := Text "Getting required metadata" |};
      {| level := LevelError; msg := ErrorOf e |};
      {| level := LevelError; msg := Text "Getting required metadata failed" |} ] /\
  requests (exec (scrape weekOffset roomRegexp (LandingFailed e) network
                    initOnError onRoomError) initialWorld) = [] /\
  eval (scrape weekOffset roomRegexp (LandingFailed e) network
          initOnErrorExit onRoomError) initialWorld = Exit 1 /\
  requests (exec (scrape weekOffset roomRegexp (LandingFailed e) network
                    initOnErrorExit onRoomError) initialWorld) = [].
Proof. repeat split. Qed.

(** ** The ASCII grid *)

Lemma eval_index_Some {A} (l : list A) i x w :
  l !! i = Some x -> index l (Z.of_nat i) w = (w, Ok x).
Proof.
  intros H. unfold index.
  destruct (Z.ltb_spec (Z.of_nat i) 0) as [?|_]; [lia|].
  by rewrite Nat2Z.id, H.
Qed.

Lemma NoDup_times : NoDup times.
Proof. apply (bool_decide_unpack _). vm_compute. exact I. Qed.

Lemma timeIs_true time i :
  timeIs time i = true <-> times !! Z.to_nat i = Some time.
Proof.
  unfold timeIs. destruct (times !! Z.to_nat i) as [t|]; [|split; discriminate].
  destruct (String.eqb_spec t time) as [->|Hne]; split; congruence.
Qed.

Lemma timeIndex_known i time :
  times !! i = Some time ->
  SliceIndex (Z.of_nat (length times)) (timeIs time) = Z.of_nat i.
Proof.
  intros Hi.
  assert (Hlt : (i < length times)%nat) by (by eapply lookup_lt_Some).
  destruct (SliceIndex_from_spec (timeIs time) (Z.to_nat (Z.of_nat (length times))) 0)
    as [[_ Hall]|(Hr & Hp & _)]; [lia|cbn; discriminate| |].
  - specialize (Hall (Z.of_nat i)).
    rewrite (proj2 (timeIs_true time (Z.of_nat i))) in Hall
      by (by rewrite Nat2Z.id).
    discriminate Hall. lia.
  - unfold SliceIndex. apply timeIs_true in Hp.
    pose proof (NoDup_lookup _ _ _ _ NoDup_times Hp Hi). lia.
Qed.

Lemma timeIndex_unknown time :
  time ∉ times -> SliceIndex (Z.of_nat (length times)) (timeIs time) = -1.
Proof.
  intros Hnot.
  destruct (SliceIndex_from_spec (timeIs time) (Z.to_nat (Z.of_nat (length times))) 0)
    as [[E _]|(_ & Hp & _)]; [lia|cbn; discriminate|exact E|].
  apply timeIs_true in Hp. destruct Hnot. by eapply list_elem_of_lookup_2.
Qed.

Lemma grid_ext c1 c2 :
  (forall time, time ∈ times -> c1 time = c2 time) -> grid c1 = grid c2.
Proof.
  intros H. unfold grid. apply list_fmap_ext. intros i time Hi.
  rewrite (H time); [reflexivity|]. by eapply list_elem_of_lookup_2.
Qed.

Lemma grid_update cells i time x d :
  times !! i = Some time ->
  <[i := <[S d := x]> (time :: cells time)]> (grid cells)
  = grid (fun t => if String.eqb t time then <[d := x]> (cells t) else cells t).
Proof.
  intros Hi. unfold grid. apply list_eq. intros j.
  destruct (decide (i = j)) as [<-|Hne].
  - rewrite list_lookup_insert_eq
      by (rewrite length_fmap; by eapply lookup_lt_Some).
    rewrite list_lookup_fmap, Hi. cbn. by rewrite String.eqb_refl.
  - rewrite list_lookup_insert_ne by assumption.
    rewrite !list_lookup_fmap. destruct (times !! j) as [t|] eqn:Hj; [|reflexivity].
    cbn. destruct (String.eqb_spec t time) as [->|_]; [|reflexivity].
    destruct Hne. eapply NoDup_lookup; eauto. apply NoDup_times.
Qed.

(** One entry of a day, its cell still empty. *)
Lemma asciiCell_fill d time rooms cells w :
  time ∈ times ->
  cells time !! d = Some "" ->
  asciiCell d (time, rooms) (grid cells) w
  = (w, Ok (grid (fun t => if String.eqb t time
                           then <[d := GoStrings.Join rooms ", "]> (cells t)
                           else cells t))).
Proof.
  intros Hin Hcell. apply list_elem_of_lookup_1 in Hin as [i Hi].
  unfold asciiCell. cbn [fst snd]. rewrite (timeIndex_known i time Hi).
  unfold mbind, M_bind, bind.
  rewrite (eval_index_Some (grid cells) i (time :: cells time))
    by (unfold grid; by rewrite list_lookup_fmap, Hi).
  replace (1 + Z.of_nat d) with (Z.of_nat (S d)) by lia.
  rewrite (eval_index_Some (time :: cells time) (S d) "") by exact Hcell.
  rewrite Nat2Z.id. cbn [String.eqb]. unfold mret, M_ret, ret.
  by rewrite grid_update.
Qed.

Lemma entries_fill d es : forall cells w,
  NoDup es.*1 ->
  Forall (fun e => e.1 ∈ times) es ->
  Forall (fun e => cells e.1 !! d = Some "") es ->
  forEach (asciiCell d) es (grid cells) w
  = (w, Ok (grid (dayCells d (list_to_map es) cells))).
Proof.
  induction es as [|[time rooms] es IH]; intros cells w Hnd Hknown Hempty.
  - reflexivity.
  - cbn in Hnd. apply NoDup_cons in Hnd as [Hnotin Hnd].
    apply Forall_cons in Hknown as [Hin Hknown]. cbn in Hin.
    apply Forall_cons in Hempty as [Hcell Hempty]. cbn in Hcell.
    cbn [forEach]. unfold mbind, M_bind, bind.
    rewrite asciiCell_fill by auto.
    assert (Hlater : list_to_map es !! time = (None : option (list string)))
      by (by apply not_elem_of_list_to_map_1).
    rewrite IH; [| assumption | assumption |].
    + f_equal. f_equal. apply grid_ext. intros t _.
      unfold dayCells. cbn [list_to_map foldr].
      destruct (String.eqb_spec t time) as [->|Hne].
      * by rewrite Hlater, lookup_insert_eq.
      * by rewrite lookup_insert_ne.
    + apply Forall_forall. intros [t r] Hel. cbn.
      destruct (String.eqb_spec t time) as [->|Hne].
      * destruct Hnotin. apply list_elem_of_fmap. by exists (time, r).
      * rewrite Forall_forall in Hempty. exact (Hempty _ Hel).
Qed.

Lemma forEach_ok_or_fault {A B} (f : B -> A -> M A) (P : A -> Prop) i n l :
  (forall x a w, x ∈ l -> P a ->
     (exists a', eval (f x a) w = Ok a' /\ P a')
     \/ eval (f x a) w = IndexOutOfRange i n) ->
  forall a w, P a ->
    (exists a', eval (forEach f l a) w = Ok a' /\ P a')
    \/ eval (forEach f l a) w = IndexOutOfRange i n.
Proof.
  induction l as [|x l IH]; intros Hf a w Ha.
  - left. by exists a.
  - rewrite eval_forEach_cons.
    destruct (Hf x a w) as [(a' & -> & Ha')| ->]; [left | assumption | | by right].
    apply IH; [|assumption]. intros y b w' Hy. apply Hf. by right.
Qed.

Lemma forEach_fault {A B} (f : B -> A -> M A) (P : A -> Prop) i n l :
  (forall x a w, x ∈ l -> P a ->
     (exists a', eval (f x a) w = Ok a' /\ P a')
     \/ eval (f x a) w = IndexOutOfRange i n) ->
  (exists x, x ∈ l /\ forall a w, P a -> eval (f x a) w = IndexOutOfRange i n) ->
  forall a w, P a -> eval (forEach f l a) w = IndexOutOfRange i n.
Proof.
  induction l as [|x l IH]; intros Hf (y & Hy & Hbad) a w Ha.
  - by apply elem_of_nil in Hy.
  - rewrite eval_forEach_cons.
    destruct (Hf x a w) as [(a' & E & Ha')|E]; [left | assumption | |];
      rewrite E; [|reflexivity].
    apply elem_of_cons in Hy as [->|Hy].
    + rewrite Hbad in E by assumption. discriminate E.
    + apply IH; [| by exists y | assumption].
      intros z b w' Hz. apply Hf. by right.
Qed.

Lemma wellShaped_init : wellShaped asciiTableInit.
Proof. split; [reflexivity|]. repeat constructor. Qed.

(** One entry on a grid of nine rows of six cells: a known time gives
    such a grid again, an unknown one is the index -1. *)
Lemma asciiCell_outcome d entry data w :
  (d < 5)%nat -> wellShaped data ->
  (entry.1 ∈ times ->
     exists data', eval (asciiCell d entry data) w = Ok data' /\ wellShaped data')
  /\ (entry.1 ∉ times ->
     eval (asciiCell d entry data) w = IndexOutOfRange (-1) 9).
Proof.
  intros Hd [Hlen Hrows]. destruct entry as [time rooms]. cbn [fst snd]. split.
  - intros Hin. apply list_elem_of_lookup_1 in Hin as [i Hi].
    assert (Hi9 : (i < 9)%nat) by (by eapply (lookup_lt_Some times)).
    destruct (lookup_lt_is_Some_2 data i) as [tableRow Hrow]; [lia|].
    assert (Hrow6 : length tableRow = 6%nat).
    { rewrite Forall_forall in Hrows. apply Hrows.
      by eapply list_elem_of_lookup_2. }
    destruct (lookup_lt_is_Some_2 tableRow (S d)) as [cell Hcell]; [lia|].
    unfold eval, asciiCell. cbn [fst snd]. rewrite (timeIndex_known i time Hi).
    unfold mbind, M_bind, bind.
    rewrite (eval_index_Some data i tableRow) by exact Hrow.
    replace (1 + Z.of_nat d) with (Z.of_nat (S d)) by lia.
    rewrite (eval_index_Some tableRow (S d) cell) by exact Hcell.
    rewrite Nat2Z.id. unfold mret, M_ret, ret. cbn [snd].
    eexists. split; [reflexivity|]. split.
    + by rewrite length_insert.
    + apply Forall_insert; [assumption|]. by rewrite length_insert.
  - intros Hnot. unfold eval, asciiCell. cbn [fst snd].
    rewrite (timeIndex_unknown time Hnot).
    unfold mbind, M_bind, bind, index. cbn. by rewrite Hlen.
Qed.

Section AsciiProofs.

Variable rangeMap : gmap string (list string) -> list (string * list string).
Hypothesis rangeMap_entries : forall m, rangeMap m ≡ₚ map_to_list m.

Lemma rangeMap_NoDup m : NoDup (rangeMap m).*1.
Proof. rewrite rangeMap_entries. apply NoDup_fst_map_to_list. Qed.

Lemma rangeMap_map m : list_to_map (rangeMap m) = m.
Proof.
  rewrite <- (list_to_map_to_list m) at 2.
  apply list_to_map_proper; [apply rangeMap_NoDup | apply rangeMap_entries].
Qed.

Lemma rangeMap_elem m time rooms :
  (time, rooms) ∈ rangeMap m <-> m !! time = Some rooms.
Proof. rewrite rangeMap_entries. apply elem_of_map_to_list. Qed.

(** One weekday whose times are all known, its column still empty. *)
Lemma asciiDay_fill tbl d day cells w :
  (forall time, is_Some (default ∅ (tbl !! day) !! time) -> time ∈ times) ->
  (forall time, cells time !! d = Some "") ->
  asciiDay rangeMap tbl (d, day) (grid cells) w
  = (w, Ok (grid (dayCells d (default ∅ (tbl !! day)) cells))).
Proof.
  intros Hknown Hempty. unfold asciiDay. cbn [fst snd].
  rewrite entries_fill.
  - by rewrite rangeMap_map.
  - apply rangeMap_NoDup.
  - apply Forall_forall. intros [t r] Hel. cbn. apply Hknown.
    apply rangeMap_elem in Hel. by rewrite Hel.
  - apply Forall_forall. intros e _. apply Hempty.
Qed.

Lemma asciiRows_known tbl w :
  timesKnown tbl ->
  eval (asciiRows rangeMap tbl) w = Ok (asciiExpected tbl).
Proof.
  intros Hknown. unfold asciiRows. rewrite eval_bind.
  change (eval (slog LevelInfo (Text "Attempting to create rows of ASCII table")) w)
    with (Ok tt).
  cbv iota.
  set (w1 := exec _ w). clearbody w1.
  change asciiTableInit with (grid (fun _ => [""; ""; ""; ""; ""])).
  change (imap pair days)
    with [(0%nat, "Monday"); (1%nat, "Tuesday"); (2%nat, "Wednesday");
          (3%nat, "Thursday"); (4%nat, "Friday")].
  assert (Hday : forall day, day ∈ days ->
            forall time, is_Some (default ∅ (tbl !! day) !! time) -> time ∈ times)
    by (intros day Hd time; by apply Hknown).
  unfold eval. cbn [forEach]. unfold mbind, M_bind, bind.
  rewrite asciiDay_fill;
    [| apply Hday; apply (bool_decide_unpack _); vm_compute; exact I
     | intros t; unfold dayCells; repeat case_match; reflexivity ].
  rewrite asciiDay_fill;
    [| apply Hday; apply (bool_decide_unpack _); vm_compute; exact I
     | intros t; unfold dayCells; repeat case_match; reflexivity ].
  rewrite asciiDay_fill;
    [| apply Hday; apply (bool_decide_unpack _); vm_compute; exact I
     | intros t; unfold dayCells; repeat case_match; reflexivity ].
  rewrite asciiDay_fill;
    [| apply Hday; apply (bool_decide_unpack _); vm_compute; exact I
     | intros t; unfold dayCells; repeat case_match; reflexivity ].
  rewrite asciiDay_fill;
    [| apply Hday; apply (bool_decide_unpack _); vm_compute; exact I
     | intros t; unfold dayCells; repeat case_match; reflexivity ].
  cbn [snd mret M_ret ret]. unfold mret, M_ret, ret. cbn [snd].
  f_equal. unfold asciiExpected. apply grid_ext. intros t _.
  unfold dayCells, bucket. cbn [fmap list_fmap days].
  repeat case_match; reflexivity.
Qed.

Lemma asciiDay_outcome tbl d day data w :
  (d < 5)%nat -> wellShaped data ->
  ((exists data', eval (asciiDay rangeMap tbl (d, day) data) w = Ok data'
                  /\ wellShaped data')
   \/ eval (asciiDay rangeMap tbl (d, day) data) w = IndexOutOfRange (-1) 9)
  /\ ((exists time, is_Some (default ∅ (tbl !! day) !! time) /\ time ∉ times) ->
      eval (asciiDay rangeMap tbl (d, day) data) w = IndexOutOfRange (-1) 9).
Proof.
  intros Hd Hshape. unfold asciiDay. cbn [fst snd].
  assert (Hstep : forall x a w0, x ∈ rangeMap (default ∅ (tbl !! day)) ->
            wellShaped a ->
            (exists a', eval (asciiCell d x a) w0 = Ok a' /\ wellShaped a')
            \/ eval (asciiCell d x a) w0 = IndexOutOfRange (-1) 9).
  { intros x a w0 _ Ha.
    destruct (asciiCell_outcome d x a w0 Hd Ha) as [Hok Hbad].
    destruct (decide (x.1 ∈ times)); [left | right]; auto. }
  split.
  - by apply (forEach_ok_or_fault _ wellShaped).
  - intros (time & [rooms Hrooms] & Hnot).
    apply (forEach_fault _ wellShaped); [assumption| |assumption].
    exists (time, rooms). split; [by apply rangeMap_elem|].
    intros a w0 Ha. by apply (asciiCell_outcome d (time, rooms) a w0 Hd Ha).
Qed.

Lemma asciiRows_unknown tbl w :
  ~ timesKnown tbl ->
  eval (asciiRows rangeMap tbl) w = IndexOutOfRange (-1) 9.
Proof.
  intros Hnot.
  assert (Hex : exists day time,
            day ∈ days /\ is_Some (default ∅ (tbl !! day) !! time) /\ time ∉ times).
  { destruct (decide (Forall (fun day =>
               Forall (fun e => e.1 ∈ times)
                      (map_to_list (default ∅ (tbl !! day)))) days))
      as [Hall|Hsome].
    - destruct Hnot. intros day time Hday [rooms Hrooms].
      rewrite Forall_forall in Hall. specialize (Hall day Hday).
      rewrite Forall_forall in Hall.
      apply (Hall (time, rooms)). by apply elem_of_map_to_list.
    - apply not_Forall_Exists in Hsome; [|apply _].
      apply Exists_exists in Hsome as (day & Hday & Hsome).
      apply not_Forall_Exists in Hsome; [|apply _].
      apply Exists_exists in Hsome as ([time rooms] & Hel & Hout).
      exists day, time. split; [assumption|]. split; [|exact Hout].
      apply elem_of_map_to_list in Hel. by rewrite Hel. }
  destruct Hex as (day & time & Hday & Hsome & Hout).
  unfold asciiRows. rewrite eval_bind.
  change (eval (slog LevelInfo (Text "Attempting to create rows of ASCII table")) w)
    with (Ok tt).
  cbv iota.
  assert (Hidx : Forall (fun p : nat * string => (p.1 < 5)%nat) (imap pair days))
    by (apply (bool_decide_unpack _); vm_compute; exact I).
  rewrite Forall_forall in Hidx.
  apply (forEach_fault _ wellShaped); [| |apply wellShaped_init].
  - intros [d day'] a w0 Hel Ha.
    by apply (asciiDay_outcome tbl d day' a w0 (Hidx _ Hel) Ha).
  - apply list_elem_of_lookup_1 in Hday as [d Hd].
    exists (d, day). split.
    + apply elem_of_lookup_imap. by exists d, day.
    + intros a w0 Ha.
      apply (asciiDay_outcome tbl d day a w0); [| assumption | by exists time].
      by eapply (lookup_lt_Some days).
Qed.

End AsciiProofs.

(** *** From the records to the grid *)

Lemma roomsAt_nonempty day time t :
  day ∈ days ->
  (roomsAt day time t <> [] <-> time ∈ default [] (FreeTimes t !! day)).
Proof.
  intros Hday. unfold roomsAt.
  rewrite (proj2 (Contains_elem_of days day) Hday).
  generalize (default [] (FreeTimes t !! day)). intros l.
  induction l as [|x l IH]; cbn.
  - split; [congruence | by intros ?%elem_of_nil].
  - destruct (String.eqb_spec time x) as [->|Hne]; cbn.
    + split; [intros _; left | discriminate].
    + rewrite IH. split; [by right|].
      intros [?|?]%elem_of_cons; [congruence | assumption].
Qed.

Lemma concat_nonempty {A} (ls : list (list A)) :
  concat ls <> [] <-> exists l, l ∈ ls /\ l <> [].
Proof.
  induction ls as [|l ls IH]; cbn.
  - split; [congruence | by intros (? & ?%elem_of_nil & _)].
  - split.
    + intros H. destruct l as [|a l].
      * apply IH in H as (l' & ? & ?). exists l'. split; [by right | assumption].
      * exists (a :: l). split; [left | discriminate].
    + intros (l' & Hin & Hne). apply elem_of_cons in Hin as [Heq|Hin].
      * subst l'. destruct l; [congruence | discriminate].
      * intros [_ E]%app_eq_nil. revert E. apply IH. by exists l'.
Qed.

Lemma bucket_nonempty ts day time :
  is_Some (default ∅ (tableOf ts !! day) !! time)
  <-> bucket (tableOf ts) day time <> [].
Proof.
  assert (Hne : noEmptyBucket (tableOf ts)).
  { apply noEmptyBucket_fold. intros d m Hm. by rewrite lookup_empty in Hm. }
  unfold bucket. split.
  - intros [l Hl]. rewrite Hl. cbn.
    destruct (tableOf ts !! day) as [m|] eqn:Hm; cbn in Hl;
      [| by rewrite lookup_empty in Hl].
    by apply (proj2 (Hne day m Hm) time l).
  - destruct (default ∅ (tableOf ts !! day) !! time); [by eexists | done].
Qed.

(** The times the table lists under a weekday are the times of the
    records' lists for that day. *)
Lemma tableOf_times ts day time :
  day ∈ days ->
  (is_Some (default ∅ (tableOf ts !! day) !! time)
   <-> exists t, t ∈ ts /\ time ∈ default [] (FreeTimes t !! day)).
Proof.
  intros Hday. rewrite bucket_nonempty, bucket_tableOf, concat_nonempty. split.
  - intros (l & Hl & Hne). apply list_elem_of_fmap in Hl as (t & -> & Ht).
    exists t. split; [assumption|]. by apply (roomsAt_nonempty day time t Hday).
  - intros (t & Ht & Hin). exists (roomsAt day time t). split.
    + apply list_elem_of_fmap. by exists t.
    + by apply roomsAt_nonempty.
Qed.

(** X13. When every time of the table is one of the nine of [times], the
    ASCII grid has one row per time and one column per weekday, and the
    cell of a weekday and a time is the bucket's rooms joined by a comma
    and a space, whatever the order in which the maps are ranged over. *)
Theorem ascii_grid_shows_buckets rangeMap tbl w :
  (forall m, rangeMap m ≡ₚ map_to_list m) ->
  timesKnown tbl ->
  eval (asciiRows rangeMap tbl) w = Ok (asciiExpected tbl).
Proof. intros Hperm Hknown. by apply asciiRows_known. Qed.

Lemma ascii_grid_shows_buckets_witness :
  eval (asciiRows map_to_list {[ "Monday" := {[ "09:15" := ["IT101"; "IT102"] ]} ]})
       initialWorld
  = Ok (asciiExpected {[ "Monday" := {[ "09:15" := ["IT101"; "IT102"] ]} ]}).
Proof.
  apply ascii_grid_shows_buckets.
  - reflexivity.
  - intros day time Hday [rooms Hsome].
    destruct (_ !! day) as [m|] eqn:Em in Hsome; cbn in Hsome.
    + apply lookup_singleton_Some in Em as [<- <-].
      apply lookup_singleton_Some in Hsome as [<- _].
      apply (bool_decide_unpack _). vm_compute. exact I.
    + by rewrite lookup_empty in Hsome.
Defined.

(** X14. A time under a weekday of the table that is not one of the nine
    of [times] stops the program: [SliceIndex] returns -1 and the grid of
    nine rows is indexed with it. *)
Theorem ascii_grid_unknown_time rangeMap tbl day m time w :
  (forall m, rangeMap m ≡ₚ map_to_list m) ->
  day ∈ days ->
  tbl !! day = Some m ->
  is_Some (m !! time) ->
  time ∉ times ->
  eval (asciiRows rangeMap tbl) w = IndexOutOfRange (-1) 9.
Proof.
  intros Hperm Hday Hm Hsome Hout. apply asciiRows_unknown; [assumption|].
  intros Hknown. apply Hout, (Hknown day time Hday). by rewrite Hm.
Qed.

Lemma ascii_grid_unknown_time_witness :
  eval (asciiRows map_to_list {[ "Friday" := {[ "18:15" := ["IT101"] ]} ]})
       initialWorld
  = IndexOutOfRange (-1) 9.
Proof.
  apply (ascii_grid_unknown_time map_to_list _ "Friday" {[ "18:15" := ["IT101"] ]} "18:15").
  - reflexivity.
  - apply (bool_decide_unpack _). vm_compute. exact I.
  - reflexivity.
  - by eexists.
  - apply (bool_decide_unpack _). vm_compute. exact I.
Defined.

(** X15. The outcome of the grid loops does not depend on the order in
    which Go ranges over the maps of the table. *)
Theorem ascii_grid_order_independent rangeMap rangeMap' tbl w w' :
  (forall m, rangeMap m ≡ₚ map_to_list m) ->
  (forall m, rangeMap' m ≡ₚ map_to_list m) ->
  eval (asciiRows rangeMap tbl) w = eval (asciiRows rangeMap' tbl) w'.
Proof.
  intros H H'.
  destruct (decide (Forall (fun day =>
              Forall (fun e => e.1 ∈ times)
                     (map_to_list (default ∅ (tbl !! day)))) days))
    as [Hall|Hsome].
  - assert (Hknown : timesKnown tbl).
    { intros day time Hday [rooms Hrooms].
      rewrite Forall_forall in Hall. specialize (Hall day Hday).
      rewrite Forall_forall in Hall.
      apply (Hall (time, rooms)). by apply elem_of_map_to_list. }
    by rewrite !asciiRows_known.
  - assert (Hnot : ~ timesKnown tbl).
    { intros Hknown. apply Hsome. apply Forall_forall. intros day Hday.
      apply Forall_forall. intros [time rooms] Hel. cbn.
      apply (Hknown day time Hday). apply elem_of_map_to_list in Hel.
      by rewrite Hel. }
    by rewrite !asciiRows_unknown.
Qed.

Lemma ascii_grid_order_independent_witness :
  eval (asciiRows map_to_list
          {[ "Monday" := {[ "09:15" := ["IT101"]; "10:15" := ["IT102"] ]} ]})
       initialWorld
  = eval (asciiRows (fun m => reverse (map_to_list m))
          {[ "Monday" := {[ "09:15" := ["IT101"]; "10:15" := ["IT102"] ]} ]})
       initialWorld.
Proof.
  apply ascii_grid_order_independent.
  - reflexivity.
  - intros m. apply reverse_Permutation.
Defined.

(** X16. From the records to the grid: when the records list only times
    of [times] under the weekdays, the cell of a weekday and a time names
    the room of every record that lists the time under the day, in the
    order of the records. *)
Theorem records_to_grid rangeMap ts w w' :
  (forall m, rangeMap m ≡ₚ map_to_list m) ->
  (forall t day time,
     t ∈ ts -> day ∈ days -> time ∈ default [] (FreeTimes t !! day) ->
     time ∈ times) ->
  exists s,
    eval (aggregate ts) w = Ok s /\
    eval (asciiRows rangeMap (freeRoomTable s)) w'
    = Ok (grid (fun time =>
                  (fun day => GoStrings.Join (concat (roomsAt day time <$> ts)) ", ")
                  <$> days)).
Proof.
  intros Hperm Hknown. destruct (aggregate_eval ts w) as (s & E & Htbl).
  exists s. split; [exact E|]. rewrite Htbl, asciiRows_known.
  - f_equal. unfold asciiExpected. apply grid_ext. intros time _.
    apply list_fmap_ext. intros i day _. by rewrite bucket_tableOf.
  - assumption.
  - intros day time Hday Hsome.
    apply (tableOf_times ts day time Hday) in Hsome as (t & Ht & Hin).
    by apply (Hknown t day time).
Qed.

Lemma records_to_grid_witness :
  exists s,
    eval (aggregate [freeAt "IT101" "Monday" "09:15"; freeAt "IT102" "Monday" "09:15"])
         initialWorld = Ok s /\
    eval (asciiRows map_to_list (freeRoomTable s)) initialWorld
    = Ok (grid (fun time =>
                  (fun day =>
                     GoStrings.Join
                       (concat (roomsAt day time <$>
                                  [freeAt "IT101" "Monday" "09:15";
                                   freeAt "IT102" "Monday" "09:15"])) ", ")
                  <$> days)).
Proof.
  apply records_to_grid.
  - reflexivity.
  - intros t day time Ht _ Hin.
    assert (Hone : exists room, t = freeAt room "Monday" "09:15").
    { apply elem_of_cons in Ht as [->|Ht]; [by eexists|].
      apply list_elem_of_singleton in Ht as ->. by eexists. }
    destruct Hone as [room ->]. cbn [FreeTimes freeAt] in Hin.
    destruct (_ !! day) as [l|] eqn:El in Hin; cbn in Hin.
    + apply lookup_singleton_Some in El as [<- <-].
      apply list_elem_of_singleton in Hin as ->.
      apply (bool_decide_unpack _). vm_compute. exact I.
    + by apply elem_of_nil in Hin.
Defined.

(** X17. A record that lists, under a weekday, a time that is not one of
    the nine of [times] stops the program when the grid is filled. *)
Theorem record_with_unknown_time rangeMap ts t day time w w' :
  (forall m, rangeMap m ≡ₚ map_to_list m) ->
  t ∈ ts ->
  day ∈ days ->
  time ∈ default [] (FreeTimes t !! day) ->
  time ∉ times ->
  exists s,
    eval (aggregate ts) w = Ok s /\
    eval (asciiRows rangeMap (freeRoomTable s)) w' = IndexOutOfRange (-1) 9.
Proof.
  intros Hperm Ht Hday Hin Hout. destruct (aggregate_eval ts w) as (s & E & Htbl).
  exists s. split; [exact E|]. rewrite Htbl. apply asciiRows_unknown; [assumption|].
  intros Hknown. apply Hout, (Hknown day time Hday).
  apply tableOf_times; [assumption|]. by exists t.
Qed.

Lemma record_with_unknown_time_witness :
  exists s,
    eval (aggregate [freeAt "IT101" "Friday" "18:15"]) initialWorld = Ok s /\
    eval (asciiRows map_to_list (freeRoomTable s)) initialWorld
    = IndexOutOfRange (-1) 9.
Proof.
  apply (record_with_unknown_time map_to_list _
           (freeAt "IT101" "Friday" "18:15") "Friday" "18:15").
  - reflexivity.
  - left.
  - apply (bool_decide_unpack _). vm_compute. exact I.
  - left.
  - apply (bool_decide_unpack _). vm_compute. exact I.
Defined.

(** ** The records and the requests *)

Lemma recordsFollow_refl network w : recordsFollow network w w.
Proof. exists []. cbn. by rewrite !app_nil_r. Qed.

Lemma recordsFollow_frame network w0 w w' :
  timetableList w' = timetableList w ->
  requests w' = requests w ->
  recordsFollow network w0 w -> recordsFollow network w0 w'.
Proof. intros Ht Hr (sent & ? & ?). exists sent. by rewrite Ht, Hr. Qed.

Lemma recordsFollow_request network w0 w w' form :
  requests w' = requests w ++ [form] ->
  timetableList w' =
  timetableList w ++ recordsOfResponse (network (length (requests w)) form) ->
  recordsFollow network w0 w -> recordsFollow network w0 w'.
Proof.
  intros Hr Ht (sent & Hr0 & Ht0). exists (sent ++ [form]).
  rewrite Hr, Ht, Hr0, Ht0, imap_app, concat_app, length_app. cbn.
  by rewrite Nat.add_0_r, app_nil_r, !app_assoc.
Qed.

Lemma recordsFollow_logsOnly {A} network (m : M A) w0 w :
  logsOnly m ->
  recordsFollow network w0 w -> recordsFollow network w0 (exec m w).
Proof.
  intros H. destruct (logsOnly_frame m w H) as (Ht & _ & Hr).
  by apply recordsFollow_frame.
Qed.

(** One container callback: the record is appended when the parser
    returns it, and nothing is when the parser stops the program. *)
Lemma containerCallback_record c w :
  match eval (parseContainer c) initialWorld with
  | Ok t =>
      eval (containerCallback c) w = Ok tt /\
      timetableList (exec (containerCallback c) w) = timetableList w ++ [t] /\
      requests (exec (containerCallback c) w) = requests w
  | _ =>
      eval (containerCallback c) w <> Ok tt /\
      timetableList (exec (containerCallback c) w) = timetableList w /\
      requests (exec (containerCallback c) w) = requests w
  end.
Proof.
  destruct (logsOnly_parseContainer c) as (l & r & H).
  unfold containerCallback, eval, exec, mbind, M_bind, bind. rewrite !H.
  destruct r; cbn; repeat split; discriminate.
Qed.

(** The container callbacks of one page. *)
Lemma containers_records cs : forall w,
  timetableList (exec (forEach (fun c _ => containerCallback c) cs tt) w)
  = timetableList w ++ recordsOfPage cs
  /\ requests (exec (forEach (fun c _ => containerCallback c) cs tt) w) = requests w.
Proof.
  induction cs as [|c cs IH]; intros w.
  - cbn. by rewrite app_nil_r.
  - rewrite exec_forEach_cons. cbn [recordsOfPage].
    pose proof (containerCallback_record c w) as Hc.
    destruct (eval (parseContainer c) initialWorld) as [t| |].
    + destruct Hc as (-> & Ht & Hr).
      destruct (IH (exec (containerCallback c) w)) as [-> ->].
      by rewrite Ht, Hr, <- app_assoc.
    + destruct Hc as (Hne & Ht & Hr).
      destruct (eval (containerCallback c) w) as [[]| |];
        [done | by rewrite Ht, Hr, app_nil_r..].
    + destruct Hc as (Hne & Ht & Hr).
      destruct (eval (containerCallback c) w) as [[]| |];
        [done | by rewrite Ht, Hr, app_nil_r..].
Qed.

Section Records.

Variable weekOffset : Z.
Variable roomRegexp : string -> bool.
Variable network : nat -> gmap string (list string) -> RoomResponse.
Variable onRoomError : GoError -> M unit.
Hypothesis onRoomError_logs : forall e, logsOnly (onRoomError e).

(** One call: the records of the page that came back, if one did. *)
Lemma roomRequest_grows form w :
  requests (exec (roomRequest network onRoomError form) w) = requests w ++ [form] /\
  timetableList (exec (roomRequest network onRoomError form) w)
  = timetableList w ++ recordsOfResponse (network (length (requests w)) form).
Proof.
  destruct (roomRequest_traces network onRoomError onRoomError_logs form w)
    as (_ & Hr & _).
  split; [exact Hr|]. clear Hr.
  unfold roomRequest. rewrite exec_bind.
  change (eval (noteRequest form) w) with (Ok (length (requests w)) : outcome nat).
  cbv iota. set (w0 := exec (noteRequest form) w).
  destruct (network (length (requests w)) form) as [e|e|cs]; cbn [recordsOfResponse].
  - cbn. by rewrite app_nil_r.
  - assert (Hrun : exec (body ← roomOnRequest (Go.NewReader form);
                         handToClient body;; onRoomError e;; mret (Some e)) w0
                   = exec (onRoomError e)
                       (exec (handToClient (drained form))
                          (exec (slog LevelInfo (Text "Requesting room")) w0))).
    { unfold exec at 1. rewrite roomOnRequest_run.
      unfold exec, mbind, M_bind, bind. cbn.
      by destruct (onRoomError e _) as [? [[]| |]]. }
    rewrite Hrun.
    destruct (logsOnly_frame (onRoomError e)
                (exec (handToClient (drained form))
                   (exec (slog LevelInfo (Text "Requesting room")) w0))
                (onRoomError_logs e)) as (-> & _).
    cbn. by rewrite app_nil_r.
  - set (m := forEach (fun c _ => containerCallback c) cs tt).
    assert (Hrun : exec (body ← roomOnRequest (Go.NewReader form);
                         handToClient body;; m;; mret (@None GoError)) w0
                   = exec m
                       (exec (handToClient (drained form))
                          (exec (slog LevelInfo (Text "Requesting room")) w0))).
    { unfold exec at 1. rewrite roomOnRequest_run.
      unfold exec, mbind, M_bind, bind. cbn.
      by destruct (m _) as [? [[]| |]]. }
    rewrite Hrun.
    destruct (containers_records cs
                (exec (handToClient (drained form))
                   (exec (slog LevelInfo (Text "Requesting room")) w0))) as [Ht _].
    fold m in Ht. rewrite Ht. reflexivity.
Qed.

Lemma roomRequest_records form w0 w :
  recordsFollow network w0 w ->
  recordsFollow network w0 (exec (roomRequest network onRoomError form) w).
Proof.
  intros H. destruct (roomRequest_grows form w) as [Hr Ht].
  by apply (recordsFollow_request network w0 w _ form).
Qed.

Lemma roomOptionCallback_records roomName w0 w :
  recordsFollow network w0 w ->
  recordsFollow network w0
    (exec (roomOptionCallback roomRegexp network onRoomError roomName tt) w).
Proof.
  intros H. unfold roomOptionCallback. destruct (roomRegexp roomName); [|exact H].
  apply (exec_bind_invariant (recordsFollow network w0)).
  { apply recordsFollow_logsOnly; [apply logsOnly_slog | exact H]. }
  intros _ w1 H1. apply (exec_bind_invariant (recordsFollow network w0)).
  { by apply (recordsFollow_frame network w0 w1). }
  intros _ w2 H2. apply (exec_bind_invariant (recordsFollow network w0)).
  { exact H2. }
  intros body w3 H3. apply (exec_bind_invariant (recordsFollow network w0)).
  { by apply roomRequest_records. }
  intros [e|] w4 H4; [|exact H4].
  apply recordsFollow_logsOnly; [|exact H4].
  apply logsOnly_bind; [apply logsOnly_slog | intros _; apply logsOnly_slog].
Qed.

Lemma bodyCallback_records b w0 w :
  recordsFollow network w0 w ->
  recordsFollow network w0
    (exec (bodyCallback weekOffset roomRegexp network onRoomError b tt) w).
Proof.
  intros H. unfold bodyCallback.
  apply (exec_bind_invariant (recordsFollow network w0)).
  { apply (forEach_exec_invariant _ (recordsFollow network w0)); [|exact H].
    intros [name value] [] w1 H1. unfold hiddenInputCallback. cbn [fst snd].
    repeat case_match; first [exact H1 | by apply (recordsFollow_frame network w0 w1)]. }
  intros _ w1 H1. apply (exec_bind_invariant (recordsFollow network w0)).
  { unfold addCboWeeks. destruct (Go.Atoi (selectedWeek b)).
    - by apply (recordsFollow_frame network w0 w1).
    - by apply (recordsFollow_frame network w0 w1). }
  intros _ w2 H2.
  apply (forEach_exec_invariant _ (recordsFollow network w0)); [|exact H2].
  intros roomName [] w3 H3. by apply roomOptionCallback_records.
Qed.

End Records.

Lemma logsOnly_osExit {A} code : logsOnly (osExit code : M A).
Proof. exists [], (Exit code). intros w. by rewrite setLog_nil. Qed.

Lemma logsOnly_onError_exit (text : string) e :
  logsOnly (slog LevelError (ErrorOf e);; slog LevelError (Text text);; osExit 1
            : M unit).
Proof.
  apply logsOnly_bind; [apply logsOnly_slog | intros _].
  apply logsOnly_bind; [apply logsOnly_slog | intros _; apply logsOnly_osExit].
Qed.

(** X18. Whatever becomes of the visit and of each call of
    [roomCollector.Request], a visit only adds to the calls made and to
    [timetableList], and the records added are those of the pages that
    came back, in the order of the calls: one record per [div#divTT] of
    a page, up to a panic of the parser, and none for a call that was
    refused or that failed. *)
Theorem records_follow_requests
    weekOffset roomRegexp landing network onInitError onRoomError w :
  (forall e, logsOnly (onInitError e)) ->
  (forall e, logsOnly (onRoomError e)) ->
  recordsFollow network w
    (exec (initVisit weekOffset roomRegexp landing network onInitError onRoomError) w).
Proof.
  intros Hinit Hroom. unfold initVisit.
  apply (exec_bind_invariant (recordsFollow network w)).
  { apply recordsFollow_logsOnly; [apply logsOnly_slog | apply recordsFollow_refl]. }
  intros _ w1 H1. destruct landing as [e|bodies].
  - by apply recordsFollow_logsOnly.
  - apply (forEach_exec_invariant _ (recordsFollow network w)); [|exact H1].
    intros b [] w2 H2. by apply bodyCallback_records.
Qed.

Lemma records_follow_requests_witness :
  (forall e, logsOnly (initOnError e))
  /\ (forall e, logsOnly (roomOnError e))
  /\ recordsFollow sampleNetwork initialWorld
       (exec (initVisit 0 matchIT1xx sampleLanding sampleNetwork
                initOnError roomOnError) initialWorld).
Proof.
  assert (Hinit : forall e, logsOnly (initOnError e)).
  { intros e. unfold initOnError. apply logsOnly_bind; [apply logsOnly_slog|].
    intros _. apply logsOnly_slog. }
  split; [exact Hinit|]. split; [exact logsOnly_roomOnError|].
  exact (records_follow_requests 0 matchIT1xx sampleLanding sampleNetwork
           initOnError roomOnError initialWorld Hinit logsOnly_roomOnError).
Defined.

(** The run of the sample: the call for IT101 fails and adds nothing,
    the call for IT102 is answered with a page of one [div#divTT] and
    adds its record. *)
Example sample_records_follow_requests :
  (Values_Get "CboLocation" <$>
     requests (exec (initVisit 0 matchIT1xx sampleLanding sampleNetwork
                       initOnError roomOnError) initialWorld),
   timetableList (exec (initVisit 0 matchIT1xx sampleLanding sampleNetwork
                          initOnError roomOnError) initialWorld))
  = (["IT101"; "IT102"],
     recordsOfResponse (sampleNetwork 0 (Values_Set "CboLocation" "IT101" initialParams))
     ++ recordsOfResponse
          (sampleNetwork 1 (Values_Set "CboLocation" "IT102" initialParams)))
  /\ length (recordsOfResponse
               (sampleNetwork 1 (Values_Set "CboLocation" "IT102" initialParams)))
     = 1%nat.
Proof. split; reflexivity. Qed.
